(** * LocalLibrary: the catalog controllers of express-locallibrary-tutorial

    A shallow embedding of the request handlers of the library catalog
    (controllers/authorController.js, bookController.js, genreController.js,
    bookinstanceController.js), of the Mongoose models they use and of the
    error-rendering middleware of app.js.

    Handlers are callback programs: every Mongoose call takes a callback
    that receives [(err, result)], and the handler answers through
    [res.render], [res.redirect] or [next(err)].  They are embedded as
    continuation trees ([Prog]) over an explicit document store, and run by
    an interpreter that records every store operation and every answer.
    The database may fail any operation of a request ([Faults]).

    Templates are not modelled: a rendered page is the name of its view
    and the locals it is given.

    An ObjectId is modelled by the string Mongoose prints for it.  A string
    of a request becomes an ObjectId by Mongoose's cast, which fails on a
    string that is no ObjectId; the cast itself ([castObjectId]) is taken
    as given. *)

From Stdlib Require Import String Ascii List Bool Arith ZArith Lia Permutation.
Import ListNotations.
Local Open Scope string_scope.
Local Open Scope list_scope.

Set Implicit Arguments.

(** ** Strings

    Form values are JavaScript strings.  They are modelled as sequences of
    code units below 256 ([Ascii.ascii]); for such strings [length] is the
    length the validators see. *)

Module Str.

(** JavaScript's [\s] restricted to code units below 256. *)
Definition is_space (c : ascii) : bool :=
  let n := nat_of_ascii c in
  (((9 <=? n) && (n <=? 13)) || (n =? 32) || (n =? 160))%nat.

Fixpoint ltrim (s : string) : string :=
  match s with
  | EmptyString => EmptyString
  | String c r => if is_space c then ltrim r else s
  end.

Fixpoint rev_acc (s acc : string) : string :=
  match s with
  | EmptyString => acc
  | String c r => rev_acc r (String c acc)
  end.

Definition rev (s : string) : string := rev_acc s EmptyString.

Definition rtrim (s : string) : string := rev (ltrim (rev s)).

(** validator.js [trim(str)]: [rtrim(ltrim(str))]. *)
Definition trim (s : string) : string := rtrim (ltrim s).

(** validator.js [escape(str)]: the eight replacements, [&] first. *)
Definition escape_char (c : ascii) : string :=
  match nat_of_ascii c with
  | 38 => "&amp;"
  | 34 => "&quot;"
  | 39 => "&#x27;"
  | 60 => "&lt;"
  | 62 => "&gt;"
  | 47 => "&#x2F;"
  | 92 => "&#x5C;"
  | 96 => "&#96;"
  | _ => String c EmptyString
  end.

Fixpoint escape (s : string) : string :=
  match s with
  | EmptyString => EmptyString
  | String c r => escape_char c ++ escape r
  end.

Definition is_alnum (c : ascii) : bool :=
  let n := nat_of_ascii c in
  (((48 <=? n) && (n <=? 57)) || ((65 <=? n) && (n <=? 90))
   || ((97 <=? n) && (n <=? 122)))%nat.

Fixpoint all_chars (p : ascii -> bool) (s : string) : bool :=
  match s with
  | EmptyString => true
  | String c r => p c && all_chars p r
  end.

(** validator.js [isAlphanumeric(str)] for en-US: [/^[0-9A-Z]+$/i]. *)
Definition isAlphanumeric (s : string) : bool :=
  match s with
  | EmptyString => false
  | _ => all_chars is_alnum s
  end.

(** validator.js [isLength(str, { min })]. *)
Definition isLength (min : nat) (s : string) : bool :=
  (min <=? String.length s)%nat.

End Str.

(** ** express-validator chains *)

Definition Date := Z.

(** One entry of [validationResult(req).array()]. *)
Record ValidationError := mkVErr {
  param : string;
  msg : string;
  value : string
}.

(** The links of a chain on a text field, in source order.  A validator
    carries the message that [withMessage] (or the second argument of
    [body]) gives it. *)
Inductive Link :=
| trim
| escape
| isLength (min : nat) (message : string)
| isAlphanumeric (message : string).

(** A raw body field: absent, or the submitted text. *)
Definition Raw := option string.

(** express-validator's [toString]: [undefined] becomes the empty string. *)
Definition toString (r : Raw) : string :=
  match r with
  | Some s => s
  | None => ""
  end.

(** Runs the links over the current value: sanitizers replace the value,
    validators check the value they meet and append their error; a failed
    validator does not stop the chain. *)
Fixpoint run_links (field : string) (ls : list Link) (v : string)
  : string * list ValidationError :=
  match ls with
  | [] => (v, [])
  | trim :: r => run_links field r (Str.trim v)
  | escape :: r => run_links field r (Str.escape v)
  | isLength min m :: r =>
      let '(v', es) := run_links field r v in
      if Str.isLength min v then (v', es) else (v', mkVErr field m v :: es)
  | isAlphanumeric m :: r =>
      let '(v', es) := run_links field r v in
      if Str.isAlphanumeric v then (v', es) else (v', mkVErr field m v :: es)
  end.

(** [body(field)...] on a text field: the sanitized value written back to
    [req.body] and the errors it adds. *)
Definition body (field : string) (ls : list Link) (r : Raw)
  : string * list ValidationError :=
  run_links field ls (toString r).

(** The value a date field of [req.body] holds after its chain. *)
Inductive DateValue :=
| DUndefined
| DEmpty
| DNull
| DDate (d : Date).

(** ** Documents

    One module per Mongoose model: the schema as a record, the virtuals as
    functions.  An identifier is an ObjectId in the form Mongoose prints
    it, which is the form a URL carries. *)

Definition Id := string.

(** A [Date] path of a document: not set, [null], or a date. *)
Inductive DateField :=
| NoDate
| NullDate
| ADate (d : Date).

(** Mongoose's cast of a body value to a [Date] path: the empty string
    and [null] are stored as [null], [undefined] leaves the path unset. *)
Definition cast_date (v : DateValue) : DateField :=
  match v with
  | DUndefined => NoDate
  | DEmpty => NullDate
  | DNull => NullDate
  | DDate d => ADate d
  end.

(** Whether a path of a document is set. *)
Definition is_set (A : Type) (x : option A) : bool :=
  match x with
  | Some _ => true
  | None => false
  end.

Module Author.

Record t := make {
  _id : Id;
  first_name : string;
  family_name : string;
  date_of_birth : DateField;
  date_of_death : DateField
}.

Definition name (a : t) : string := family_name a ++ ", " ++ first_name a.

Definition url (a : t) : string := "/catalog/author/" ++ _id a.

(** [required: true, maxLength: 100] on both names. *)
Definition valid (a : t) : bool :=
  (negb (first_name a =? "") && (String.length (first_name a) <=? 100)%nat
   && negb (family_name a =? "") && (String.length (family_name a) <=? 100)%nat).

End Author.

Module Genre.

(** Modelled from the spec: models/genre.js is not part of the sources; the
    spec gives a Genre an identifier, a required name and a canonical URL
    path, which follows the other models' pattern. *)
Record t := make {
  _id : Id;
  name : string
}.

Definition url (g : t) : string := "/catalog/genre/" ++ _id g.

Definition valid (g : t) : bool := negb (name g =? "").

End Genre.

Module Book.

(** [author] is a reference, unset ([None]) on a document whose author was
    given no ObjectId.  [genre] is an array of references; an entry is
    [None] ([null]) where the submitted array has no element at that index.
    [invalidated] lists the paths whose value did not cast when the
    document was built: Mongoose leaves such a path as it was and keeps
    the cast error with the document until it is validated. *)
Record t := make {
  _id : Id;
  title : string;
  author : option Id;
  summary : string;
  isbn : string;
  genre : list (option Id);
  invalidated : list string
}.

Definition url (b : t) : string := "/catalog/book/" ++ _id b.

(** What [save] validates: no path failed its cast, and the four required
    paths are set and not empty. *)
Definition valid (b : t) : bool :=
  match invalidated b with
  | [] =>
      negb (title b =? "") && is_set (author b)
      && negb (summary b =? "") && negb (isbn b =? "")
  | _ => false
  end.

End Book.

Module BookInstance.

(** [book] is a reference, unset ([None]) on a document whose book was
    given no ObjectId. *)
Record t := make {
  _id : Id;
  book : option Id;
  imprint : string;
  status : string;
  due_back : DateField
}.

Definition url (i : t) : string := "/catalog/bookinstance/" ++ _id i.

Definition status_enum : list string :=
  ["Available"; "Maintenance"; "Loaned"; "Reserved"].

(** What [save] validates: [book] and [imprint] are required (a book that
    did not cast is unset, and refused as such), [status] is required and
    one of the enumeration. *)
Definition valid (i : t) : bool :=
  is_set (book i) && negb (imprint i =? "")
  && existsb (String.eqb (status i)) status_enum.

End BookInstance.

(** Documents after [populate]: a single reference that does not resolve
    is [null]; an array of references holds the documents its entries
    resolve to, or is left as it was, with its [null] entries, when it
    holds no identifier at all. *)
Record PopulatedBook := mkPopulatedBook {
  pb_book : Book.t;
  pb_author : option Author.t;
  pb_genre : list (option Genre.t)
}.

Record PopulatedInstance := mkPopulatedInstance {
  pi_instance : BookInstance.t;
  pi_book : option Book.t
}.

(** ** The document store *)

Record Store := mkStore {
  authors : list Author.t;
  genres : list Genre.t;
  books : list Book.t;
  bookinstances : list BookInstance.t
}.

(** The error value a callback receives; [status] is the HTTP status the
    error carries, if any. *)
Record Error := mkError {
  message : string;
  status : option nat
}.

Inductive Result (T : Type) :=
| Err (e : Error)
| Ok (v : T).

Arguments Err {T} e.
Arguments Ok {T} v.

Inductive Model := MAuthor | MGenre | MBook | MBookInstance.

Inductive Op :=
| OFind
| OFindById
| OFindOne
| OCountDocuments
| OSave
| OFindByIdAndUpdate
| OFindByIdAndRemove.

Definition is_read (o : Op) : bool :=
  match o with
  | OFind | OFindById | OFindOne | OCountDocuments => true
  | OSave | OFindByIdAndUpdate | OFindByIdAndRemove => false
  end.

(** A store operation: the model and method it is called on, the error
    with which Mongoose refuses it before anything is sent to the database
    (a value that does not cast, a document that fails validation), and
    what it does to the store when the database answers. *)
Record Query (T : Type) := mkQuery {
  q_model : Model;
  q_op : Op;
  q_refused : option Error;
  q_run : Store -> Result (T * Store)
}.

(** A value given where the schema has an ObjectId, after Mongoose's cast:
    [undefined] is left as it is, a string that casts is its ObjectId, and
    any other string is a cast error. *)
Inductive Cast :=
| Undefined
| ObjectId (id : Id)
| NoCast (value : string).

Definition CastError (value : string) : Error :=
  mkError ("Cast to ObjectId failed for value " ++ value) None.

(** The conditions of a query after their values are cast: a predicate on
    documents, or the error of a value that did not cast. *)
Definition Conditions (D : Type) := Result (D -> bool).

Definition refusal (T : Type) (r : Result T) : option Error :=
  match r with
  | Err e => Some e
  | Ok _ => None
  end.

Section Collections.

Variable D : Type.
Variable key : D -> Id.

Definition has_id (id : Id) (d : D) : bool := key d =? id.

Definition lookup (id : Id) (l : list D) : option D := List.find (has_id id) l.

(** Replaces the first document whose identifier is [id]. *)
Fixpoint replace_first (id : Id) (d' : D) (l : list D) : list D :=
  match l with
  | [] => []
  | d :: r => if has_id id d then d' :: r else d :: replace_first id d' r
  end.

(** Removes the first document whose identifier is [id]. *)
Fixpoint remove_first (id : Id) (l : list D) : list D :=
  match l with
  | [] => []
  | d :: r => if has_id id d then r else d :: remove_first id r
  end.

(** [sort] on a string path, ascending; documents with equal keys keep
    their order. *)
Fixpoint insert_sorted (path : D -> string) (d : D) (l : list D) : list D :=
  match l with
  | [] => [d]
  | x :: r =>
      if (path x <? path d) then x :: insert_sorted path d r else d :: l
  end.

Definition sort_by (path : D -> string) (l : list D) : list D :=
  fold_right (insert_sorted path) [] l.

End Collections.

(** ** Mongoose models over the store *)

(** What a registered model knows: its collection in the store, the
    identifier of a document, the schema validators [save] runs, and how an
    update document is applied to a stored one. *)
Record Collection (D : Type) := mkCollection {
  c_model : Model;
  c_get : Store -> list D;
  c_set : list D -> Store -> Store;
  c_key : D -> Id;
  c_valid : D -> bool;
  c_apply : D -> D -> D
}.

(** [$set] of a date path: a path the update does not carry keeps its
    stored value. *)
Definition set_date (old new : DateField) : DateField :=
  match new with
  | NoDate => old
  | _ => new
  end.

(** [$set] of a reference: likewise. *)
Definition set_ref (old new : option Id) : option Id :=
  match new with
  | None => old
  | Some _ => new
  end.

Definition Authors : Collection Author.t :=
  mkCollection MAuthor authors
    (fun l s => mkStore l (genres s) (books s) (bookinstances s))
    Author._id Author.valid
    (fun old new =>
       Author.make (Author._id new) (Author.first_name new)
         (Author.family_name new)
         (set_date (Author.date_of_birth old) (Author.date_of_birth new))
         (set_date (Author.date_of_death old) (Author.date_of_death new))).

Definition Genres : Collection Genre.t :=
  mkCollection MGenre genres
    (fun l s => mkStore (authors s) l (books s) (bookinstances s))
    Genre._id Genre.valid (fun old new => new).

(** The update carries the paths the candidate has: an author that did not
    cast is not among them, the genre array always is. *)
Definition Books : Collection Book.t :=
  mkCollection MBook books
    (fun l s => mkStore (authors s) (genres s) l (bookinstances s))
    Book._id Book.valid
    (fun old new =>
       Book.make (Book._id new) (Book.title new)
         (set_ref (Book.author old) (Book.author new))
         (Book.summary new) (Book.isbn new) (Book.genre new) []).

Definition BookInstances : Collection BookInstance.t :=
  mkCollection MBookInstance bookinstances
    (fun l s => mkStore (authors s) (genres s) (books s) l)
    BookInstance._id BookInstance.valid
    (fun old new =>
       BookInstance.make (BookInstance._id new)
         (set_ref (BookInstance.book old) (BookInstance.book new))
         (BookInstance.imprint new) (BookInstance.status new)
         (set_date (BookInstance.due_back old) (BookInstance.due_back new))).

Definition model_name (m : Model) : string :=
  match m with
  | MAuthor => "Author"
  | MGenre => "Genre"
  | MBook => "Book"
  | MBookInstance => "BookInstance"
  end.

Module Mongoose.

(** The error of a [save] the validators refuse.  Mongoose's message goes
    on to list the paths that failed; that list is left out. *)
Definition ValidationError (m : Model) : Error :=
  mkError (model_name m ++ " validation failed") None.

Section Queries.

Variable D : Type.
Variable C : Collection D.

Definition reading (T : Type) (o : Op) (conditions : Conditions D)
  (f : (D -> bool) -> Store -> T) : Query T :=
  mkQuery (c_model C) o (refusal conditions)
    (fun s =>
       match conditions with
       | Err e => Err e
       | Ok p => Ok (f p s, s)
       end).

(** [Model.find(conditions)], in the collection's natural order.  The
    projection some calls pass (which paths to load) is not modelled: the
    documents come back whole. *)
Definition find (conditions : Conditions D) : Query (list D) :=
  reading OFind conditions (fun p s => filter p (c_get C s)).

(** [Model.find(conditions).sort(path)]. *)
Definition find_sort (conditions : Conditions D) (path : D -> string)
  : Query (list D) :=
  reading OFind conditions (fun p s => sort_by path (filter p (c_get C s))).

Definition findOne (conditions : Conditions D) : Query (option D) :=
  reading OFindOne conditions (fun p s => List.find p (c_get C s)).

Definition countDocuments (conditions : Conditions D) : Query nat :=
  reading OCountDocuments conditions
    (fun p s => length (filter p (c_get C s))).

(** The condition [{ _id: id }]: no document has an [undefined]
    identifier. *)
Definition with_id (id : Cast) : Result (option Id) :=
  match id with
  | Undefined => Ok None
  | ObjectId i => Ok (Some i)
  | NoCast value => Err (CastError value)
  end.

Definition stored_as (id : option Id) (l : list D) : option D :=
  match id with
  | Some i => lookup (c_key C) i l
  | None => None
  end.

Definition findById (id : Cast) : Query (option D) :=
  mkQuery (c_model C) OFindById (refusal (with_id id))
    (fun s =>
       match with_id id with
       | Err e => Err e
       | Ok i => Ok (stored_as i (c_get C s), s)
       end).

(** [doc.save()] of a new document: the schema validators run first; the
    insert fails on an identifier already in the collection. *)
Definition save (d : D) : Query unit :=
  mkQuery (c_model C) OSave
    (if c_valid C d then None else Some (ValidationError (c_model C)))
    (fun s =>
       if negb (c_valid C d) then Err (ValidationError (c_model C))
       else match lookup (c_key C) (c_key C d) (c_get C s) with
            | Some _ => Err (mkError "E11000 duplicate key error" None)
            | None => Ok (tt, c_set C (c_get C s ++ [d]) s)
            end).

(** [Model.findByIdAndUpdate(id, doc, {}, callback)]: no validators run;
    the callback receives the document as it was before the update, or
    [null] when none has this identifier.  [_id] is immutable. *)
Definition findByIdAndUpdate (id : Cast) (d : D) : Query (option D) :=
  mkQuery (c_model C) OFindByIdAndUpdate (refusal (with_id id))
    (fun s =>
       match with_id id with
       | Err e => Err e
       | Ok None => Ok (None, s)
       | Ok (Some i) =>
           match lookup (c_key C) i (c_get C s) with
           | None => Ok (None, s)
           | Some old =>
               if c_key C d =? i
               then Ok (Some old,
                        c_set C (replace_first (c_key C) i (c_apply C old d)
                                   (c_get C s)) s)
               else Err (mkError "Performing an update on the path '_id' would modify the immutable field '_id'" None)
           end
       end).

Definition findByIdAndRemove (id : Cast) : Query (option D) :=
  mkQuery (c_model C) OFindByIdAndRemove (refusal (with_id id))
    (fun s =>
       match with_id id with
       | Err e => Err e
       | Ok None => Ok (None, s)
       | Ok (Some i) =>
           Ok (lookup (c_key C) i (c_get C s),
               c_set C (remove_first (c_key C) i (c_get C s)) s)
       end).

End Queries.

(** [query.populate(...)]: the references of the result are resolved in
    the store before the callback runs. *)
Definition populate (T U : Type) (q : Query T) (resolve : Store -> T -> U)
  : Query U :=
  mkQuery (q_model q) (q_op q) (q_refused q) (fun s =>
    match q_run q s with
    | Err e => Err e
    | Ok (r, s') => Ok (resolve s' r, s')
    end).

End Mongoose.

(** Conditions of the queries the controllers issue. *)
Definition all (D : Type) : Conditions D := Ok (fun _ => true).

Definition refers (id : Id) (r : option Id) : bool :=
  match r with
  | Some x => x =? id
  | None => false
  end.

(** A condition on a reference: the value is cast to an ObjectId first;
    [undefined] is sent as [null], which the documents match that have the
    path unset. *)
Definition on_ref (D : Type) (path : D -> option Id) (id : Cast)
  : Conditions D :=
  match id with
  | Undefined => Ok (fun d => negb (is_set (path d)))
  | ObjectId i => Ok (fun d => refers i (path d))
  | NoCast value => Err (CastError value)
  end.

Definition by_author (id : Cast) : Conditions Book.t := on_ref Book.author id.

(** A condition on the array of references: a document matches when one
    of its entries is the identifier. *)
Definition by_genre (id : Cast) : Conditions Book.t :=
  match id with
  | Undefined => Ok (fun b => existsb (fun r => negb (is_set r)) (Book.genre b))
  | ObjectId i => Ok (fun b => existsb (refers i) (Book.genre b))
  | NoCast value => Err (CastError value)
  end.

Definition by_book (id : Cast) : Conditions BookInstance.t :=
  on_ref BookInstance.book id.

Definition by_status (st : string) : Conditions BookInstance.t :=
  Ok (fun i => BookInstance.status i =? st).

Definition by_name (n : string) : Conditions Genre.t :=
  Ok (fun g => Genre.name g =? n).

(** The document a reference resolves to. *)
Definition resolve (D : Type) (key : D -> Id) (l : list D) (r : option Id)
  : option D :=
  match r with
  | Some id => lookup key id l
  | None => None
  end.

(** [.populate('genre')] on the array of a book: an array without any
    identifier is not looked up and stays as it is; otherwise the array
    holds the genres its entries resolve to, in their order. *)
Definition resolve_genres (s : Store) (refs : list (option Id))
  : list (option Genre.t) :=
  if forallb (fun r => negb (is_set r)) refs then map (fun _ => None) refs
  else flat_map (fun r =>
         match resolve Genre._id (genres s) r with
         | Some g => [Some g]
         | None => []
         end) refs.

(** [.populate('author')] on books. *)
Definition with_author (s : Store) (b : Book.t) : Book.t * option Author.t :=
  (b, resolve Author._id (authors s) (Book.author b)).

(** [.populate('author').populate('genre')] on a book. *)
Definition with_author_genre (s : Store) (b : Book.t) : PopulatedBook :=
  mkPopulatedBook b (resolve Author._id (authors s) (Book.author b))
    (resolve_genres s (Book.genre b)).

(** [.populate('book')] on a book instance. *)
Definition with_book (s : Store) (i : BookInstance.t) : PopulatedInstance :=
  mkPopulatedInstance i (resolve Book._id (books s) (BookInstance.book i)).

(** ** Requests and answers *)

(** The [genre] field of a book form as the body parsers deliver it:
    absent, one text value, a JSON number, or an array of text values. *)
Inductive GenreField :=
| GUndefined
| GText (s : string)
| GNumber (n : Z)
| GArray (l : list string).

(** A request: the [:id] of the route, the text fields of [req.body] by
    name, and the [genre] field.  A text field is absent or a string: the
    chains that read it turn any scalar into its text before they look at
    it.  The [genre] field is looked at by the handlers themselves, before
    any chain, so its shape is kept. *)
Record Request := mkRequest {
  params_id : string;
  req_body : string -> Raw;
  req_genre : GenreField
}.

(** What is generated per request: the ObjectId a [new Model(...)] draws
    when it is given no [_id], and [Date.now()]. *)
Record Runtime := mkRuntime {
  new_id : Id;
  date_now : Date
}.

(** [req.body] of the author form after its chains. *)
Record AuthorBody := mkAuthorBody {
  ab_first_name : string;
  ab_family_name : string;
  ab_date_of_birth : DateValue;
  ab_date_of_death : DateValue
}.

(** Values handed to a template. *)
Inductive Local :=
| LText (s : string)
| LId (id : Id)
| LAuthor (a : option Author.t)
| LAuthors (l : list Author.t)
| LAuthorBody (b : AuthorBody)
| LGenre (g : option Genre.t)
| LGenres (l : list Genre.t)
| LChecklist (l : list (Genre.t * bool))
| LBook (b : option Book.t)
| LBooks (l : list Book.t)
| LBooksWithAuthor (l : list (Book.t * option Author.t))
| LPopulatedBook (b : option PopulatedBook)
| LInstance (i : option BookInstance.t)
| LInstances (l : list BookInstance.t)
| LPopulatedInstance (i : option PopulatedInstance)
| LPopulatedInstances (l : list PopulatedInstance)
| LErrors (es : list ValidationError)
| LError (e : option Error)
| LCounts (c : list (string * nat)).

Definition Locals := list (string * Local).

(** The calls by which a handler answers. *)
Inductive Answer :=
| render (view : string) (locals : Locals)
| redirect (url : string)
| next (e : Error).

(** A handler body as a continuation tree: it returns, answers and goes
    on, throws, or issues a store operation whose callback receives the
    error or the result. *)
Inductive Prog :=
| Return
| Call (a : Answer) (k : Prog)
| Throw (exn : string)
| Exec (T : Type) (q : Query T) (callback : Result T -> Prog).

(** [async.parallel] of two and three tasks: every task is started, and
    the final callback receives the first error, or all the results.
    Tasks complete in the order of their keys. *)
Definition both (A B : Type) (a : Result A) (b : Result B) : Result (A * B) :=
  match a, b with
  | Err e, _ => Err e
  | Ok _, Err e => Err e
  | Ok x, Ok y => Ok (x, y)
  end.

Definition parallel2 (A B : Type) (qa : Query A) (qb : Query B)
  (callback : Result (A * B) -> Prog) : Prog :=
  Exec qa (fun a => Exec qb (fun b => callback (both a b))).

Definition parallel3 (A B C : Type) (qa : Query A) (qb : Query B)
  (qc : Query C) (callback : Result (A * B * C) -> Prog) : Prog :=
  Exec qa (fun a => Exec qb (fun b => Exec qc (fun c =>
    callback (both (both a b) c)))).

(** [async.parallel] of named tasks of one type: the final callback
    receives the first error together with the results gathered before
    it, or no error and all the results. *)
Fixpoint parallel (T : Type) (tasks : list (string * Query T))
  (results : list (string * T))
  (callback : option Error -> list (string * T) -> Prog) : Prog :=
  match tasks with
  | [] => callback None results
  | (key, q) :: rest =>
      Exec q (fun r =>
        match r with
        | Err e => parallel rest results (fun _ _ => callback (Some e) results)
        | Ok v => parallel rest (results ++ [(key, v)]) callback
        end)
  end.

(** ** Running a handler *)

(** What the database imposes on the n-th store operation of a request:
    [Some e] makes it fail with [e].  An operation Mongoose refuses never
    reaches the database. *)
Definition Faults := nat -> option Error.

Definition no_faults : Faults := fun _ => None.

Inductive Event :=
| EStore (m : Model) (o : Op) (failure : option Error)
| EAnswer (a : Answer)
| EThrow (exn : string).

Fixpoint run (p : Prog) (f : Faults) (n : nat) (s : Store)
  : list Event * Store :=
  match p with
  | Return => ([], s)
  | Call a k => let '(t, s') := run k f n s in (EAnswer a :: t, s')
  | Throw exn => ([EThrow exn], s)
  | Exec q callback =>
      match q_refused q with
      | Some e =>
          let '(t, s') := run (callback (Err e)) f (S n) s in
          (EStore (q_model q) (q_op q) (Some e) :: t, s')
      | None =>
          match f n with
          | Some e =>
              let '(t, s') := run (callback (Err e)) f (S n) s in
              (EStore (q_model q) (q_op q) (Some e) :: t, s')
          | None =>
              match q_run q s with
              | Err e =>
                  let '(t, s') := run (callback (Err e)) f (S n) s in
                  (EStore (q_model q) (q_op q) (Some e) :: t, s')
              | Ok (v, s1) =>
                  let '(t, s') := run (callback (Ok v)) f (S n) s1 in
                  (EStore (q_model q) (q_op q) None :: t, s')
              end
          end
      end
  end.

Definition trace (p : Prog) (f : Faults) (s : Store) : list Event :=
  fst (run p f 0 s).

Definition store_after (p : Prog) (f : Faults) (s : Store) : Store :=
  snd (run p f 0 s).

(** ** The application (app.js) *)

Inductive Response :=
| Page (code : nat) (view : string) (locals : Locals)
| Redirection (url : string).

(** The error handler: [err.status || 500], the message always, the error
    itself only when [env] is [development]. *)
Definition error_handler (env : string) (err : Error) : Response :=
  Page (match status err with
        | Some 0 => 500
        | Some c => c
        | None => 500
        end)
       "error"
       [("message", LText (message err));
        ("error", LError (if env =? "development" then Some err else None))].

(** The response a request gets: the first answer of the handler.  Once a
    response is sent a later [render] or [redirect] cannot send another;
    an exception thrown in a callback sends none. *)
Fixpoint response (env : string) (t : list Event) : option Response :=
  match t with
  | [] => None
  | EStore _ _ _ :: r => response env r
  | EAnswer (render view locals) :: _ => Some (Page 200 view locals)
  | EAnswer (redirect url) :: _ => Some (Redirection url)
  | EAnswer (next e) :: _ => Some (error_handler env e)
  | EThrow _ :: _ => None
  end.

(** ** Controllers *)

(** [return next(err);] and the other answers that end a callback. *)
Definition finish (a : Answer) : Prog := Call a Return.

Definition not_found (what : string) : Error :=
  mkError (what ++ " not found") (Some 404).

Definition isEmpty (errors : list ValidationError) : bool :=
  match errors with
  | [] => true
  | _ => false
  end.

Section LocalLibrary.

(** validator.js [isISO8601] and [toDate], both taken as given. *)
Variable isISO8601 : string -> bool.
Variable toDate : string -> option Date.

(** Mongoose's cast of a string to an ObjectId, taken as given: the
    ObjectId, in the form it is printed, or [None] when the string is not
    one. *)
Variable castObjectId : string -> option Id.

(** The cast of a value that may be absent. *)
Definition cast (r : Raw) : Cast :=
  match r with
  | None => Undefined
  | Some value =>
      match castObjectId value with
      | Some id => ObjectId id
      | None => NoCast value
      end
  end.

(** [req.params.id]: a route always binds it. *)
Definition param_id (req : Request) : Cast := cast (Some (params_id req)).

(** [_id: req.params.id] in the object a document is built from: when the
    value does not cast, the document keeps the ObjectId it drew by
    default. *)
Definition route_id (rt : Runtime) (req : Request) : Id :=
  match castObjectId (params_id req) with
  | Some id => id
  | None => new_id rt
  end.

(** [body(field, message).optional({ checkFalsy: true }).isISO8601().toDate()]:
    a falsy value skips the chain and is left as it is. *)
Definition body_date (field message : string) (r : Raw)
  : DateValue * list ValidationError :=
  match r with
  | None => (DUndefined, [])
  | Some EmptyString => (DEmpty, [])
  | Some s =>
      (match toDate s with Some d => DDate d | None => DNull end,
       if isISO8601 s then [] else [mkVErr field message s])
  end.

(** *** controllers/authorController.js *)

Definition author_list (rt : Runtime) (req : Request) : Prog :=
  Exec (Mongoose.find_sort Authors (all _) Author.family_name) (fun r =>
    match r with
    | Err err => finish (next err)
    | Ok list_authors =>
        finish (render "author_list"
                  [("title", LText "Author List");
                   ("author_list", LAuthors list_authors)])
    end).

Definition author_detail (rt : Runtime) (req : Request) : Prog :=
  parallel2
    (Mongoose.findById Authors (param_id req))
    (Mongoose.find Books (by_author (param_id req)))
    (fun r =>
       match r with
       | Err err => finish (next err)
       | Ok (None, _) => finish (next (not_found "Author"))
       | Ok (Some author, authors_books) =>
           finish (render "author_detail"
                     [("title", LText "Author Detail");
                      ("author", LAuthor (Some author));
                      ("author_books", LBooks authors_books)])
       end).

Definition author_create_get (rt : Runtime) (req : Request) : Prog :=
  finish (render "author_form" [("title", LText "Create Author")]).

(** The four chains of the author form, in order: the sanitized body and
    the errors of [validationResult(req)]. *)
Definition author_chains (req : Request) : AuthorBody * list ValidationError :=
  let '(first_name, e1) :=
    body "first_name"
      [trim; isLength 1 "First name must be specified."; escape;
       isAlphanumeric "First name has non-alphanumeric characters."]
      (req_body req "first_name") in
  let '(family_name, e2) :=
    body "family_name"
      [trim; isLength 1 "Family name must be specified."; escape;
       isAlphanumeric "Family name has non-alphanumeric characters."]
      (req_body req "family_name") in
  let '(date_of_birth, e3) :=
    body_date "date_of_birth" "Invalid date of birth"
      (req_body req "date_of_birth") in
  let '(date_of_death, e4) :=
    body_date "date_of_death" "Invalid date of death"
      (req_body req "date_of_death") in
  (mkAuthorBody first_name family_name date_of_birth date_of_death,
   e1 ++ e2 ++ e3 ++ e4).

(** [new Author({ ..., _id })] from the sanitized body. *)
Definition new_Author (id : Id) (b : AuthorBody) : Author.t :=
  Author.make id (ab_first_name b) (ab_family_name b)
    (cast_date (ab_date_of_birth b)) (cast_date (ab_date_of_death b)).

Definition author_create_post (rt : Runtime) (req : Request) : Prog :=
  let '(req_body', errors) := author_chains req in
  if negb (isEmpty errors) then
    finish (render "author_form"
              [("title", LText "Create Author");
               ("author", LAuthorBody req_body');
               ("errors", LErrors errors)])
  else
    let author := new_Author (new_id rt) req_body' in
    Exec (Mongoose.save Authors author) (fun r =>
      match r with
      | Err err => finish (next err)
      | Ok _ => finish (redirect (Author.url author))
      end).

Definition author_delete_get (rt : Runtime) (req : Request) : Prog :=
  parallel2
    (Mongoose.findById Authors (param_id req))
    (Mongoose.find Books (by_author (param_id req)))
    (fun r =>
       match r with
       | Err err => finish (next err)
       | Ok (author, authors_books) =>
           let page :=
             finish (render "author_delete"
                       [("title", LText "Delete Author");
                        ("author", LAuthor author);
                        ("author_books", LBooks authors_books)]) in
           match author with
           | None => Call (redirect "/catalog/authors") page
           | Some _ => page
           end
       end).

Definition author_delete_post (rt : Runtime) (req : Request) : Prog :=
  let authorid := cast (req_body req "authorid") in
  parallel2
    (Mongoose.findById Authors authorid)
    (Mongoose.find Books (by_author authorid))
    (fun r =>
       match r with
       | Err err => finish (next err)
       | Ok (author, authors_books) =>
           if (0 <? length authors_books)%nat then
             finish (render "author_delete"
                       [("title", LText "Delete Author");
                        ("author", LAuthor author);
                        ("author_books", LBooks authors_books)])
           else
             Exec (Mongoose.findByIdAndRemove Authors authorid) (fun r' =>
               match r' with
               | Err err => finish (next err)
               | Ok _ => finish (redirect "/catalog/authors")
               end)
       end).

Definition author_update_get (rt : Runtime) (req : Request) : Prog :=
  Exec (Mongoose.findById Authors (param_id req)) (fun r =>
    match r with
    | Err err => finish (next err)
    | Ok None => finish (next (not_found "Author"))
    | Ok (Some author) =>
        finish (render "author_form"
                  [("title", LText "Update Author");
                   ("author", LAuthor (Some author))])
    end).

Definition author_update_post (rt : Runtime) (req : Request) : Prog :=
  let '(req_body', errors) := author_chains req in
  let author := new_Author (route_id rt req) req_body' in
  if negb (isEmpty errors) then
    finish (render "author_form"
              [("title", LText "Update Author");
               ("author", LAuthor (Some author));
               ("errors", LErrors errors)])
  else
    Exec (Mongoose.findByIdAndUpdate Authors (param_id req) author) (fun r =>
      match r with
      | Err err => finish (next err)
      | Ok None => Throw "TypeError: Cannot read property 'url' of null"
      | Ok (Some theauthor) => finish (redirect (Author.url theauthor))
      end).

(** *** controllers/genreController.js *)

Definition genre_list (rt : Runtime) (req : Request) : Prog :=
  Exec (Mongoose.find_sort Genres (all _) Genre.name) (fun r =>
    match r with
    | Err err => finish (next err)
    | Ok list_genres =>
        finish (render "genre_list"
                  [("title", LText "Genre List");
                   ("list_genres", LGenres list_genres)])
    end).

Definition genre_detail (rt : Runtime) (req : Request) : Prog :=
  parallel2
    (Mongoose.findById Genres (param_id req))
    (Mongoose.find Books (by_genre (param_id req)))
    (fun r =>
       match r with
       | Err err => finish (next err)
       | Ok (None, _) => finish (next (not_found "Genre"))
       | Ok (Some genre, genre_books) =>
           finish (render "genre_detail"
                     [("title", LText "Genre Detail");
                      ("genre", LGenre (Some genre));
                      ("genre_books", LBooks genre_books)])
       end).

Definition genre_create_get (rt : Runtime) (req : Request) : Prog :=
  finish (render "genre_form" [("title", LText "Create Genre")]).

Definition genre_create_chain (req : Request) : string * list ValidationError :=
  body "name" [trim; isLength 1 "Genre name required"; escape]
    (req_body req "name").

Definition genre_create_post (rt : Runtime) (req : Request) : Prog :=
  let '(name, errors) := genre_create_chain req in
  let genre := Genre.make (new_id rt) name in
  if negb (isEmpty errors) then
    finish (render "genre_form"
              [("title", LText "Create Genre");
               ("genre", LGenre (Some genre));
               ("errors", LErrors errors)])
  else
    Exec (Mongoose.findOne Genres (by_name name)) (fun r =>
      match r with
      | Err err => finish (next err)
      | Ok (Some found_genre) => finish (redirect (Genre.url found_genre))
      | Ok None =>
          Exec (Mongoose.save Genres genre) (fun r' =>
            match r' with
            | Err err => finish (next err)
            | Ok _ => finish (redirect (Genre.url genre))
            end)
      end).

Definition genre_delete_get (rt : Runtime) (req : Request) : Prog :=
  parallel2
    (Mongoose.findById Genres (param_id req))
    (Mongoose.find Books (by_genre (param_id req)))
    (fun r =>
       match r with
       | Err err => finish (next err)
       | Ok (genre, genre_books) =>
           let page :=
             finish (render "genre_delete"
                       [("title", LText "Delete Genre");
                        ("genre", LGenre genre);
                        ("genre_books", LBooks genre_books)]) in
           match genre with
           | None => Call (redirect "/catalog/genres") page
           | Some _ => page
           end
       end).

(** The lookups use [req.params.id], the removal [req.body.id]. *)
Definition genre_delete_post (rt : Runtime) (req : Request) : Prog :=
  parallel2
    (Mongoose.findById Genres (param_id req))
    (Mongoose.find Books (by_genre (param_id req)))
    (fun r =>
       match r with
       | Err err => finish (next err)
       | Ok (genre, genre_books) =>
           if (0 <? length genre_books)%nat then
             finish (render "genre_delete"
                       [("title", LText "Delete Genre");
                        ("genre", LGenre genre);
                        ("genre_books", LBooks genre_books)])
           else
             Exec (Mongoose.findByIdAndRemove Genres
                     (cast (req_body req "id")))
               (fun r' =>
                  match r' with
                  | Err err => finish (next err)
                  | Ok _ => finish (redirect "/catalog/genres")
                  end)
       end).

Definition genre_update_get (rt : Runtime) (req : Request) : Prog :=
  Exec (Mongoose.findById Genres (param_id req)) (fun r =>
    match r with
    | Err err => finish (next err)
    | Ok None => finish (next (not_found "Genre"))
    | Ok (Some genre) =>
        finish (render "genre_form"
                  [("title", LText "Update Genre");
                   ("genre", LGenre (Some genre))])
    end).

Definition genre_update_chain (req : Request) : string * list ValidationError :=
  body "name"
    [trim; isLength 3 "Genre name must contain at least 3 characters"; escape]
    (req_body req "name").

Definition genre_update_post (rt : Runtime) (req : Request) : Prog :=
  let '(name, errors) := genre_update_chain req in
  let genre := Genre.make (route_id rt req) name in
  if negb (isEmpty errors) then
    finish (render "genre_form"
              [("title", LText "Update Genre");
               ("genre", LGenre (Some genre));
               ("errors", LErrors errors)])
  else
    Exec (Mongoose.findByIdAndUpdate Genres (param_id req) genre) (fun r =>
      match r with
      | Err err => finish (next err)
      | Ok None => Throw "TypeError: Cannot read property 'url' of null"
      | Ok (Some thegenre) => finish (redirect (Genre.url thegenre))
      end).

(** *** controllers/bookController.js *)

Definition count_tasks : list (string * Query nat) :=
  [("book_count", Mongoose.countDocuments Books (all _));
   ("book_instance_count", Mongoose.countDocuments BookInstances (all _));
   ("book_instance_available_count",
    Mongoose.countDocuments BookInstances (by_status "Available"));
   ("author_count", Mongoose.countDocuments Authors (all _));
   ("genre_count", Mongoose.countDocuments Genres (all _))].

Definition index (rt : Runtime) (req : Request) : Prog :=
  parallel count_tasks [] (fun err results =>
    finish (render "index"
              [("title", LText "Local Library Home");
               ("error", LError err);
               ("data", LCounts results)])).

(** [book_list] is declared as [function (req, res)]: the name [next] its
    callback uses on an error is bound nowhere. *)
Definition book_list (rt : Runtime) (req : Request) : Prog :=
  Exec (Mongoose.populate
          (Mongoose.find_sort Books (all _) Book.title)
          (fun s list_books => map (with_author s) list_books))
    (fun r =>
       match r with
       | Err err => Throw "ReferenceError: next is not defined"
       | Ok list_books =>
           finish (render "book_list"
                     [("title", LText "Book List");
                      ("book_list", LBooksWithAuthor list_books)])
       end).

Definition find_populated_book (id : Cast) : Query (option PopulatedBook) :=
  Mongoose.populate (Mongoose.findById Books id)
    (fun s b => option_map (with_author_genre s) b).

Definition book_detail (rt : Runtime) (req : Request) : Prog :=
  parallel2
    (find_populated_book (param_id req))
    (Mongoose.find BookInstances (by_book (param_id req)))
    (fun r =>
       match r with
       | Err err => finish (next err)
       | Ok (None, _) => finish (next (not_found "Book"))
       | Ok (Some book, book_instance) =>
           finish (render "book_detail"
                     [("title", LText (Book.title (pb_book book)));
                      ("book", LPopulatedBook (Some book));
                      ("book_instances", LInstances book_instance)])
       end).

Definition book_create_get (rt : Runtime) (req : Request) : Prog :=
  parallel2
    (Mongoose.find Authors (all _))
    (Mongoose.find Genres (all _))
    (fun r =>
       match r with
       | Err err => finish (next err)
       | Ok (authors, genres) =>
           finish (render "book_form"
                     [("title", LText "Create Book");
                      ("authors", LAuthors authors);
                      ("genres", LGenres genres)])
       end).

(** [new Array(n)] with one numeric argument: [n] is a length, not an
    element; the array has [n] empty slots. *)
Definition new_Array_of_length (n : Z) : Result (list (option string)) :=
  if ((0 <=? n) && (n <? 2 ^ 32))%Z then Ok (repeat None (Z.to_nat n))
  else Err (mkError "RangeError: Invalid array length" None).

(** The first middleware of both book POST routes, which converts the
    genre to an array: an array is left as it is, [undefined] becomes
    [[]], anything else goes through [new Array(req.body.genre)]. *)
Definition genre_to_array (g : GenreField) : Result (list (option string)) :=
  match g with
  | GArray l => Ok (map Some l)
  | GUndefined => Ok []
  | GText s => Ok [Some s]
  | GNumber n => new_Array_of_length n
  end.

(** [req.body] of the book form after its chains. *)
Record BookBody := mkBookBody {
  bb_title : string;
  bb_author : string;
  bb_summary : string;
  bb_isbn : string;
  bb_genre : list (option string)
}.

(** The chains of the book form over the body whose genre is already an
    array; [body('genre.*').escape()] sanitizes every element. *)
Definition book_chains (req : Request) (genre : list (option string))
  : BookBody * list ValidationError :=
  let '(title, e1) :=
    body "title" [trim; isLength 1 "Title must not be empty."; escape]
      (req_body req "title") in
  let '(author, e2) :=
    body "author" [trim; isLength 1 "Author must not be empty."; escape]
      (req_body req "author") in
  let '(summary, e3) :=
    body "summary" [trim; isLength 1 "Summary must not be empty."; escape]
      (req_body req "summary") in
  let '(isbn, e4) :=
    body "isbn" [trim; isLength 1 "ISBN must not be empty"; escape]
      (req_body req "isbn") in
  (mkBookBody title author summary isbn (map (option_map Str.escape) genre),
   e1 ++ e2 ++ e3 ++ e4).

(** The cast of a submitted array of references: every element is cast,
    an empty slot stays empty, and the array as a whole does not cast when
    one of its elements does not. *)
Fixpoint cast_refs (l : list (option string)) : option (list (option Id)) :=
  match l with
  | [] => Some []
  | None :: r => option_map (cons None) (cast_refs r)
  | Some value :: r =>
      match castObjectId value, cast_refs r with
      | Some id, Some r' => Some (Some id :: r')
      | _, _ => None
      end
  end.

(** [new Book({ ..., _id })] from the sanitized body: an author that does
    not cast leaves the path unset, a genre array that does not cast
    leaves it at its default, the empty array; both are invalidated. *)
Definition new_Book (id : Id) (b : BookBody) : Book.t :=
  Book.make id (bb_title b) (castObjectId (bb_author b)) (bb_summary b)
    (bb_isbn b)
    (match cast_refs (bb_genre b) with
     | Some genre => genre
     | None => []
     end)
    ((if is_set (castObjectId (bb_author b)) then [] else ["author"])
     ++ (if is_set (cast_refs (bb_genre b)) then [] else ["genre"])).

(** [array.indexOf(id)] on an array of references. *)
Fixpoint indexOf (id : Id) (l : list (option Id)) : Z :=
  match l with
  | [] => (-1)%Z
  | x :: r =>
      if refers id x then 0%Z
      else let i := indexOf id r in
           if (i <? 0)%Z then (-1)%Z else (i + 1)%Z
  end.

(** The loop that marks the selected genres as checked. *)
Definition mark_checked (book : Book.t) (genres : list Genre.t)
  : list (Genre.t * bool) :=
  map (fun g => (g, (-1 <? indexOf (Genre._id g) (Book.genre book))%Z)) genres.

(** The re-render of the book form that both book POST routes make when
    there are errors. *)
Definition book_form_again (title : string) (book : Book.t)
  (errors : list ValidationError) : Prog :=
  parallel2
    (Mongoose.find Authors (all _))
    (Mongoose.find Genres (all _))
    (fun r =>
       match r with
       | Err err => finish (next err)
       | Ok (authors, genres) =>
           finish (render "book_form"
                     [("title", LText title);
                      ("authors", LAuthors authors);
                      ("genres", LChecklist (mark_checked book genres));
                      ("book", LBook (Some book));
                      ("errors", LErrors errors)])
       end).

(** An exception of the first middleware is caught by the router and
    passed to [next]. *)
Definition book_create_post (rt : Runtime) (req : Request) : Prog :=
  match genre_to_array (req_genre req) with
  | Err exn => finish (next exn)
  | Ok genre =>
      let '(req_body', errors) := book_chains req genre in
      let book := new_Book (new_id rt) req_body' in
      if negb (isEmpty errors) then
        book_form_again "Create Book" book errors
      else
        Exec (Mongoose.save Books book) (fun r =>
          match r with
          | Err err => finish (next err)
          | Ok _ => finish (redirect (Book.url book))
          end)
  end.

Definition book_delete_get (rt : Runtime) (req : Request) : Prog :=
  parallel2
    (find_populated_book (param_id req))
    (Mongoose.find BookInstances (by_book (param_id req)))
    (fun r =>
       match r with
       | Err err => finish (next err)
       | Ok (book, book_bookinstances) =>
           let page :=
             finish (render "book_delete"
                       [("title", LText "Delete Book");
                        ("book", LPopulatedBook book);
                        ("book_instances", LInstances book_bookinstances)]) in
           match book with
           | None => Call (redirect "/catalog/books") page
           | Some _ => page
           end
       end).

Definition book_delete_post (rt : Runtime) (req : Request) : Prog :=
  let id := cast (req_body req "id") in
  parallel2
    (find_populated_book id)
    (Mongoose.find BookInstances (by_book id))
    (fun r =>
       match r with
       | Err err => finish (next err)
       | Ok (book, book_bookinstances) =>
           if (0 <? length book_bookinstances)%nat then
             finish (render "book_delete"
                       [("title", LText "Delete Book");
                        ("book", LPopulatedBook book);
                        ("book_instances", LInstances book_bookinstances)])
           else
             Exec (Mongoose.findByIdAndRemove Books id) (fun r' =>
               match r' with
               | Err err => finish (next err)
               | Ok _ => finish (redirect "/catalog/books")
               end)
       end).

(** The inner loop of [book_update_get], for one genre: it goes through
    all the genres of the populated book and reads the [_id] of each,
    which throws ([None]) on an entry that is [null]. *)
Fixpoint is_current (g : Genre.t) (l : list (option Genre.t)) : option bool :=
  match l with
  | [] => Some false
  | None :: _ => None
  | Some bg :: r =>
      option_map (orb (Genre._id g =? Genre._id bg)) (is_current g r)
  end.

(** The nested loop: a genre is checked when its identifier is that of
    one of the book's populated genres. *)
Fixpoint mark_current (book : PopulatedBook) (genres : list Genre.t)
  : option (list (Genre.t * bool)) :=
  match genres with
  | [] => Some []
  | g :: r =>
      match is_current g (pb_genre book), mark_current book r with
      | Some checked, Some r' => Some ((g, checked) :: r')
      | _, _ => None
      end
  end.

Definition book_update_get (rt : Runtime) (req : Request) : Prog :=
  parallel3
    (find_populated_book (param_id req))
    (Mongoose.find Authors (all _))
    (Mongoose.find Genres (all _))
    (fun r =>
       match r with
       | Err err => finish (next err)
       | Ok (None, _, _) => finish (next (not_found "Book"))
       | Ok (Some book, authors, genres) =>
           match mark_current book genres with
           | None => Throw "TypeError: Cannot read property '_id' of null"
           | Some checklist =>
               finish (render "book_form"
                         [("title", LText "Update Book");
                          ("authors", LAuthors authors);
                          ("genres", LChecklist checklist);
                          ("book", LPopulatedBook (Some book))])
           end
       end).

(** After the first middleware [req.body.genre] is an array, so the
    [typeof ... === 'undefined'] test of the constructor call keeps it. *)
Definition book_update_post (rt : Runtime) (req : Request) : Prog :=
  match genre_to_array (req_genre req) with
  | Err exn => finish (next exn)
  | Ok genre =>
      let '(req_body', errors) := book_chains req genre in
      let book := new_Book (route_id rt req) req_body' in
      if negb (isEmpty errors) then
        book_form_again "Update Book" book errors
      else
        Exec (Mongoose.findByIdAndUpdate Books (param_id req) book) (fun r =>
          match r with
          | Err err => finish (next err)
          | Ok None => Throw "TypeError: Cannot read property 'url' of null"
          | Ok (Some thebook) => finish (redirect (Book.url thebook))
          end)
  end.

(** *** controllers/bookinstanceController.js *)

Definition bookinstance_list (rt : Runtime) (req : Request) : Prog :=
  Exec (Mongoose.populate
          (Mongoose.find BookInstances (all _))
          (fun s l => map (with_book s) l))
    (fun r =>
       match r with
       | Err err => finish (next err)
       | Ok list_bookinstances =>
           finish (render "bookinstance_list"
                     [("title", LText "Book Instance List");
                      ("bookinstance_list",
                       LPopulatedInstances list_bookinstances)])
       end).

Definition find_populated_instance (id : Cast)
  : Query (option PopulatedInstance) :=
  Mongoose.populate (Mongoose.findById BookInstances id)
    (fun s i => option_map (with_book s) i).

Definition bookinstance_detail (rt : Runtime) (req : Request) : Prog :=
  Exec (find_populated_instance (param_id req)) (fun r =>
    match r with
    | Err err => finish (next err)
    | Ok None => finish (next (not_found "Book copy"))
    | Ok (Some bookinstance) =>
        match pi_book bookinstance with
        | None => Throw "TypeError: Cannot read property 'title' of null"
        | Some book =>
            finish (render "bookinstance_detail"
                      [("title", LText ("Copy: " ++ Book.title book));
                       ("bookinstance",
                        LPopulatedInstance (Some bookinstance))])
        end
    end).

Definition bookinstance_create_get (rt : Runtime) (req : Request) : Prog :=
  Exec (Mongoose.find Books (all _)) (fun r =>
    match r with
    | Err err => finish (next err)
    | Ok books =>
        finish (render "bookinstance_form"
                  [("title", LText "Create BookInstance");
                   ("book_list", LBooks books)])
    end).

(** [req.body] of the book instance form after its chains. *)
Record InstanceBody := mkInstanceBody {
  ib_book : string;
  ib_imprint : string;
  ib_status : string;
  ib_due_back : DateValue
}.

Definition bookinstance_chains (req : Request)
  : InstanceBody * list ValidationError :=
  let '(book, e1) :=
    body "book" [trim; isLength 1 "Book must be specified"; escape]
      (req_body req "book") in
  let '(imprint, e2) :=
    body "imprint" [trim; isLength 1 "Imprint must be specified"; escape]
      (req_body req "imprint") in
  let '(status, e3) := body "status" [escape] (req_body req "status") in
  let '(due_back, e4) :=
    body_date "due_back" "Invalid date" (req_body req "due_back") in
  (mkInstanceBody book imprint status due_back, e1 ++ e2 ++ e3 ++ e4).

(** [new BookInstance({ ..., _id })]: a book that does not cast leaves the
    path unset; [due_back] defaults to [Date.now] when the body gives
    [undefined]. *)
Definition new_BookInstance (rt : Runtime) (id : Id) (b : InstanceBody)
  : BookInstance.t :=
  BookInstance.make id (castObjectId (ib_book b)) (ib_imprint b) (ib_status b)
    (match cast_date (ib_due_back b) with
     | NoDate => ADate (date_now rt)
     | d => d
     end).

(** The re-render of the book instance form on errors.  The locals are
    built with [bookinstance.book._id], which throws when the candidate has
    no book. *)
Definition bookinstance_form_again (title : string)
  (bookinstance : BookInstance.t) (errors : list ValidationError) : Prog :=
  Exec (Mongoose.find Books (all _)) (fun r =>
    match r with
    | Err err => finish (next err)
    | Ok books =>
        match BookInstance.book bookinstance with
        | None => Throw "TypeError: Cannot read property '_id' of undefined"
        | Some book =>
            finish (render "bookinstance_form"
                      [("title", LText title);
                       ("book_list", LBooks books);
                       ("selected_book", LId book);
                       ("errors", LErrors errors);
                       ("bookinstance", LInstance (Some bookinstance))])
        end
    end).

Definition bookinstance_create_post (rt : Runtime) (req : Request) : Prog :=
  let '(req_body', errors) := bookinstance_chains req in
  let bookinstance := new_BookInstance rt (new_id rt) req_body' in
  if negb (isEmpty errors) then
    bookinstance_form_again "Create BookInstance" bookinstance errors
  else
    Exec (Mongoose.save BookInstances bookinstance) (fun r =>
      match r with
      | Err err => finish (next err)
      | Ok _ => finish (redirect (BookInstance.url bookinstance))
      end).

Definition bookinstance_delete_get (rt : Runtime) (req : Request) : Prog :=
  Exec (find_populated_instance (param_id req)) (fun r =>
    match r with
    | Err err => finish (next err)
    | Ok bookinstance =>
        let page :=
          finish (render "bookinstance_delete"
                    [("title", LText "Delete BookInstance");
                     ("bookinstance", LPopulatedInstance bookinstance)]) in
        match bookinstance with
        | None => Call (redirect "/catalog/bookinstances") page
        | Some _ => page
        end
    end).

Definition bookinstance_delete_post (rt : Runtime) (req : Request) : Prog :=
  Exec (Mongoose.findByIdAndRemove BookInstances (cast (req_body req "id")))
    (fun r =>
       match r with
       | Err err => finish (next err)
       | Ok _ => finish (redirect "/catalog/bookinstances")
       end).

Definition bookinstance_update_get (rt : Runtime) (req : Request) : Prog :=
  parallel2
    (find_populated_instance (param_id req))
    (Mongoose.find Books (all _))
    (fun r =>
       match r with
       | Err err => finish (next err)
       | Ok (None, _) => finish (next (not_found "Book copy"))
       | Ok (Some bookinstance, books) =>
           match pi_book bookinstance with
           | None => Throw "TypeError: Cannot read property '_id' of null"
           | Some book =>
               finish (render "bookinstance_form"
                         [("title", LText "Update  BookInstance");
                          ("book_list", LBooks books);
                          ("selected_book", LId (Book._id book));
                          ("bookinstance",
                           LPopulatedInstance (Some bookinstance))])
           end
       end).

Definition bookinstance_update_post (rt : Runtime) (req : Request) : Prog :=
  let '(req_body', errors) := bookinstance_chains req in
  let bookinstance := new_BookInstance rt (route_id rt req) req_body' in
  if negb (isEmpty errors) then
    bookinstance_form_again "Update BookInstance" bookinstance errors
  else
    Exec (Mongoose.findByIdAndUpdate BookInstances (param_id req)
            bookinstance)
      (fun r =>
         match r with
         | Err err => finish (next err)
         | Ok None => Throw "TypeError: Cannot read property 'url' of null"
         | Ok (Some thebookinstance) =>
             finish (redirect (BookInstance.url thebookinstance))
         end).

(** ** The routes of the catalog *)

(** Every exported handler, by its name in the controllers. *)
Definition controllers : list (string * (Runtime -> Request -> Prog)) :=
  [("index", index);
   ("book_list", book_list);
   ("book_detail", book_detail);
   ("book_create_get", book_create_get);
   ("book_create_post", book_create_post);
   ("book_delete_get", book_delete_get);
   ("book_delete_post", book_delete_post);
   ("book_update_get", book_update_get);
   ("book_update_post", book_update_post);
   ("author_list", author_list);
   ("author_detail", author_detail);
   ("author_create_get", author_create_get);
   ("author_create_post", author_create_post);
   ("author_delete_get", author_delete_get);
   ("author_delete_post", author_delete_post);
   ("author_update_get", author_update_get);
   ("author_update_post", author_update_post);
   ("genre_list", genre_list);
   ("genre_detail", genre_detail);
   ("genre_create_get", genre_create_get);
   ("genre_create_post", genre_create_post);
   ("genre_delete_get", genre_delete_get);
   ("genre_delete_post", genre_delete_post);
   ("genre_update_get", genre_update_get);
   ("genre_update_post", genre_update_post);
   ("bookinstance_list", bookinstance_list);
   ("bookinstance_detail", bookinstance_detail);
   ("bookinstance_create_get", bookinstance_create_get);
   ("bookinstance_create_post", bookinstance_create_post);
   ("bookinstance_delete_get", bookinstance_delete_get);
   ("bookinstance_delete_post", bookinstance_delete_post);
   ("bookinstance_update_get", bookinstance_update_get);
   ("bookinstance_update_post", bookinstance_update_post)].

(** The create and update forms, and for each: the POST handler, what
    [validationResult(req).array()] holds when the final middleware runs
    ([None] when the genre conversion threw before any chain ran), and the
    view of the form. *)
Inductive Form :=
| AuthorCreate | AuthorUpdate
| GenreCreate | GenreUpdate
| BookCreate | BookUpdate
| BookInstanceCreate | BookInstanceUpdate.

Definition post (fm : Form) : Runtime -> Request -> Prog :=
  match fm with
  | AuthorCreate => author_create_post
  | AuthorUpdate => author_update_post
  | GenreCreate => genre_create_post
  | GenreUpdate => genre_update_post
  | BookCreate => book_create_post
  | BookUpdate => book_update_post
  | BookInstanceCreate => bookinstance_create_post
  | BookInstanceUpdate => bookinstance_update_post
  end.

Definition book_validation (req : Request)
  : option (BookBody * list ValidationError) :=
  match genre_to_array (req_genre req) with
  | Ok genre => Some (book_chains req genre)
  | Err _ => None
  end.

Definition validation (fm : Form) (req : Request)
  : option (list ValidationError) :=
  match fm with
  | AuthorCreate | AuthorUpdate => Some (snd (author_chains req))
  | GenreCreate => Some (snd (genre_create_chain req))
  | GenreUpdate => Some (snd (genre_update_chain req))
  | BookCreate | BookUpdate => option_map snd (book_validation req)
  | BookInstanceCreate | BookInstanceUpdate =>
      Some (snd (bookinstance_chains req))
  end.

Definition form_view (fm : Form) : string :=
  match fm with
  | AuthorCreate | AuthorUpdate => "author_form"
  | GenreCreate | GenreUpdate => "genre_form"
  | BookCreate | BookUpdate => "book_form"
  | BookInstanceCreate | BookInstanceUpdate => "bookinstance_form"
  end.

(** The candidate book of a book POST: the sanitized body under the
    identifier the route gives it. *)
Definition book_candidate (id : Id) (req : Request) : option Book.t :=
  option_map (fun v => new_Book id (fst v)) (book_validation req).

(** ** Reading a trace *)

Definition answers (t : list Event) : list Answer :=
  flat_map (fun ev => match ev with EAnswer a => [a] | _ => [] end) t.

(** The store operations of a trace that write. *)
Definition writes (t : list Event) : list (Model * Op) :=
  flat_map (fun ev =>
    match ev with
    | EStore m o _ => if is_read o then [] else [(m, o)]
    | _ => []
    end) t.

(** The errors with which reads of a trace failed, in order. *)
Definition failed_reads (t : list Event) : list Error :=
  flat_map (fun ev =>
    match ev with
    | EStore _ o (Some e) => if is_read o then [e] else []
    | _ => []
    end) t.

Definition thrown (t : list Event) : list string :=
  flat_map (fun ev => match ev with EThrow x => [x] | _ => [] end) t.

(** ** The rest of app.js, and what a store may satisfy *)

(** app.js, after the routers: [next(createError(404))]. *)
Definition catch_404 (rt : Runtime) (req : Request) : Prog :=
  finish (next (mkError "Not Found" (Some 404))).

(** The error page as the error handler fills it, for a given status. *)
Definition error_page (env : string) (code : nat) (e : Error) : Response :=
  Page code "error"
    [("message", LText (message e));
     ("error", LError (if env =? "development" then Some e else None))].

(** The handlers of the GET routes. *)
Definition get_controllers : list (string * (Runtime -> Request -> Prog)) :=
  [("index", index);
   ("book_list", book_list);
   ("book_detail", book_detail);
   ("book_create_get", book_create_get);
   ("book_delete_get", book_delete_get);
   ("book_update_get", book_update_get);
   ("author_list", author_list);
   ("author_detail", author_detail);
   ("author_create_get", author_create_get);
   ("author_delete_get", author_delete_get);
   ("author_update_get", author_update_get);
   ("genre_list", genre_list);
   ("genre_detail", genre_detail);
   ("genre_create_get", genre_create_get);
   ("genre_delete_get", genre_delete_get);
   ("genre_update_get", genre_update_get);
   ("bookinstance_list", bookinstance_list);
   ("bookinstance_detail", bookinstance_detail);
   ("bookinstance_create_get", bookinstance_create_get);
   ("bookinstance_delete_get", bookinstance_delete_get);
   ("bookinstance_update_get", bookinstance_update_get)].

(** The four delete GET handlers, which redirect without returning. *)
Definition delete_get_names : list string :=
  ["author_delete_get"; "genre_delete_get"; "book_delete_get";
   "bookinstance_delete_get"].

Definition resolves (D : Type) (key : D -> Id) (l : list D) (id : Id) : bool :=
  match lookup key id l with
  | Some _ => true
  | None => false
  end.

(** Every book has an author, which is a stored author. *)
Definition authors_resolve (s : Store) : bool :=
  forallb (fun b => is_set (resolve Author._id (authors s) (Book.author b)))
    (books s).

(** Every book instance has a book, which is a stored book. *)
Definition books_resolve (s : Store) : bool :=
  forallb (fun i => is_set (resolve Book._id (books s) (BookInstance.book i)))
    (bookinstances s).

(** What the date chain accepts without an error: an absent or empty
    value, and a value [isISO8601] accepts. *)
Definition date_accepted (r : Raw) : bool :=
  match r with
  | None => true
  | Some s => (s =? "") || isISO8601 s
  end.

(** The characters [escape] replaces, the ampersand apart: the angle
    brackets, both quotes, slash, backslash and backquote. *)
Definition is_markup (c : ascii) : bool :=
  existsb (Nat.eqb (nat_of_ascii c)) [60; 62; 34; 39; 47; 92; 96].

(** A string without any of them. *)
Definition markup_free (s : string) : bool :=
  Str.all_chars (fun c => negb (is_markup c)) s.

(** The errors with which writes of a trace failed, in order. *)
Definition failed_writes (t : list Event) : list Error :=
  flat_map (fun ev =>
    match ev with
    | EStore _ o (Some e) => if is_read o then [] else [e]
    | _ => []
    end) t.

(** Whether the document a form is about is stored under [id]. *)
Definition stored (fm : Form) (id : Id) (s : Store) : bool :=
  match fm with
  | AuthorCreate | AuthorUpdate => resolves Author._id (authors s) id
  | GenreCreate | GenreUpdate => resolves Genre._id (genres s) id
  | BookCreate | BookUpdate => resolves Book._id (books s) id
  | BookInstanceCreate | BookInstanceUpdate =>
      resolves BookInstance._id (bookinstances s) id
  end.

Definition update_forms : list Form :=
  [AuthorUpdate; GenreUpdate; BookUpdate; BookInstanceUpdate].

(** Every reference to an author or a book is to a stored document. *)
Definition references_resolve (s : Store) : bool :=
  authors_resolve s && books_resolve s.

(** No string occurs twice. *)
Fixpoint distinct (l : list string) : bool :=
  match l with
  | [] => true
  | x :: r => negb (existsb (String.eqb x) r) && distinct r
  end.

(** No two genres have the same name. *)
Definition distinct_genre_names (s : Store) : bool :=
  distinct (map Genre.name (genres s)).

(** A list of strings in ascending order. *)
Fixpoint ascending (l : list string) : bool :=
  match l with
  | [] => true
  | x :: r =>
      match r with
      | [] => true
      | y :: _ => negb (y <? x) && ascending r
      end
  end.

(** ** What a form is given back

    The values a POST handler is to show again, stated from the request
    alone, for the theorems to compare the handlers with. *)

(** The sanitized value of a text field: trimmed, then escaped. *)
Definition sanitized (r : Raw) : string :=
  Str.escape (Str.trim (toString r)).

(** The value of a date field after its chain: an absent or empty value
    is left as it is, any other is what [toDate] makes of it. *)
Definition date_value (r : Raw) : DateValue :=
  match r with
  | None => DUndefined
  | Some EmptyString => DEmpty
  | Some s =>
      match toDate s with
      | Some d => DDate d
      | None => DNull
      end
  end.

(** The date path of a document built from that value. *)
Definition date_path (r : Raw) : DateField :=
  match r with
  | None => NoDate
  | Some EmptyString => NullDate
  | Some s =>
      match toDate s with
      | Some d => ADate d
      | None => NullDate
      end
  end.

(** Every entry of a submitted array of references is an ObjectId. *)
Definition all_cast (l : list (option string)) : Prop :=
  forall value, In (Some value) l -> castObjectId value <> None.

(** The ObjectIds of the entries, one by one. *)
Definition cast_each (l : list (option string)) : list (option Id) :=
  map (fun x =>
         match x with
         | Some value => castObjectId value
         | None => None
         end) l.

(** The candidate of a book form whose genre field was converted to the
    array [genre]: the sanitized texts, the author when it is an ObjectId,
    and the genres when all of them are ObjectIds. *)
Definition book_shown (req : Request) (genre : list (option string))
  (b : Book.t) : Prop :=
  let entries := map (option_map Str.escape) genre in
  Book.title b = sanitized (req_body req "title")
  /\ Book.author b = castObjectId (sanitized (req_body req "author"))
  /\ Book.summary b = sanitized (req_body req "summary")
  /\ Book.isbn b = sanitized (req_body req "isbn")
  /\ (all_cast entries -> Book.genre b = cast_each entries)
  /\ (~ all_cast entries -> Book.genre b = []).

(** The candidate of a book instance form. *)
Definition instance_shown (rt : Runtime) (req : Request) (i : BookInstance.t)
  : Prop :=
  BookInstance.book i = castObjectId (sanitized (req_body req "book"))
  /\ BookInstance.imprint i = sanitized (req_body req "imprint")
  /\ BookInstance.status i = Str.escape (toString (req_body req "status"))
  /\ BookInstance.due_back i =
     match date_path (req_body req "due_back") with
     | NoDate => ADate (date_now rt)
     | d => d
     end.

(** The identifier of the candidate of an update form: that of the route,
    when the route has one. *)
Definition keeps_route_id (req : Request) (id : Id) : Prop :=
  forall route, castObjectId (params_id req) = Some route -> id = route.

(** The locals of a re-rendered form carry the candidate of the request. *)
Definition candidate_shown (fm : Form) (rt : Runtime) (req : Request)
  (locals : Locals) : Prop :=
  match fm with
  | AuthorCreate =>
      exists b,
        In ("author", LAuthorBody b) locals
        /\ ab_first_name b = sanitized (req_body req "first_name")
        /\ ab_family_name b = sanitized (req_body req "family_name")
        /\ ab_date_of_birth b = date_value (req_body req "date_of_birth")
        /\ ab_date_of_death b = date_value (req_body req "date_of_death")
  | AuthorUpdate =>
      exists a,
        In ("author", LAuthor (Some a)) locals
        /\ keeps_route_id req (Author._id a)
        /\ Author.first_name a = sanitized (req_body req "first_name")
        /\ Author.family_name a = sanitized (req_body req "family_name")
        /\ Author.date_of_birth a = date_path (req_body req "date_of_birth")
        /\ Author.date_of_death a = date_path (req_body req "date_of_death")
  | GenreCreate =>
      exists g,
        In ("genre", LGenre (Some g)) locals
        /\ Genre._id g = new_id rt
        /\ Genre.name g = sanitized (req_body req "name")
  | GenreUpdate =>
      exists g,
        In ("genre", LGenre (Some g)) locals
        /\ keeps_route_id req (Genre._id g)
        /\ Genre.name g = sanitized (req_body req "name")
  | BookCreate =>
      exists b,
        In ("book", LBook (Some b)) locals
        /\ Book._id b = new_id rt
        /\ forall genre, genre_to_array (req_genre req) = Ok genre ->
                         book_shown req genre b
  | BookUpdate =>
      exists b,
        In ("book", LBook (Some b)) locals
        /\ keeps_route_id req (Book._id b)
        /\ forall genre, genre_to_array (req_genre req) = Ok genre ->
                         book_shown req genre b
  | BookInstanceCreate =>
      exists i book,
        In ("bookinstance", LInstance (Some i)) locals
        /\ In ("selected_book", LId book) locals
        /\ BookInstance.book i = Some book
        /\ BookInstance._id i = new_id rt
        /\ instance_shown rt req i
  | BookInstanceUpdate =>
      exists i book,
        In ("bookinstance", LInstance (Some i)) locals
        /\ In ("selected_book", LId book) locals
        /\ BookInstance.book i = Some book
        /\ keeps_route_id req (BookInstance._id i)
        /\ instance_shown rt req i
  end.

(** A non-empty array of references that holds no identifier. *)
Definition only_nulls (l : list (option Id)) : bool :=
  match l with
  | [] => false
  | _ => forallb (fun r => negb (is_set r)) l
  end.

(** A book instance form whose book is no ObjectId. *)
Definition names_no_book (fm : Form) (req : Request) : Prop :=
  (fm = BookInstanceCreate \/ fm = BookInstanceUpdate)
  /\ castObjectId (sanitized (req_body req "book")) = None.

(** ** Sample data *)

(** Stand-ins for the two validator.js date functions, for closed runs. *)
Definition ten_characters (s : string) : bool := (String.length s =? 10)%nat.
Definition epoch (s : string) : option Date := Some 0%Z.

Definition is_hex (c : ascii) : bool :=
  let n := nat_of_ascii c in
  (((48 <=? n) && (n <=? 57)) || ((97 <=? n) && (n <=? 102)))%nat.

(** Stand-in for the cast, for closed runs: a string of 24 hexadecimal
    digits in lower case is its own ObjectId, and the cast of any other
    string fails. *)
Definition hex24 (s : string) : option Id :=
  if (String.length s =? 24)%nat && Str.all_chars is_hex s then Some s
  else None.

Definition tolkien_id : Id := "0000000000000000000000a1".
Definition fantasy_id : Id := "0000000000000000000000c1".
Definition poetry_id : Id := "0000000000000000000000c2".
Definition hobbit_id : Id := "0000000000000000000000b1".
Definition copy1_id : Id := "0000000000000000000000d1".

(** A well-formed identifier that no document has. *)
Definition nobody_id : Id := "0000000000000000000000ff".

Definition tolkien : Author.t :=
  Author.make tolkien_id "John" "Tolkien" NoDate NoDate.

Definition fantasy : Genre.t := Genre.make fantasy_id "Fantasy".
Definition poetry : Genre.t := Genre.make poetry_id "Poetry".

Definition the_hobbit : Book.t :=
  Book.make hobbit_id "The Hobbit" (Some tolkien_id) "There and back again"
    "9780261102217" [Some poetry_id] [].

Definition copy1 : BookInstance.t :=
  BookInstance.make copy1_id (Some hobbit_id) "Allen and Unwin, 1937"
    "Available" NullDate.

Definition library : Store :=
  mkStore [tolkien] [fantasy; poetry] [the_hobbit] [copy1].

Definition rt0 : Runtime := mkRuntime "0000000000000000000000e1" 1000%Z.
Definition rt1 : Runtime := mkRuntime "0000000000000000000000e2" 2000%Z.

(** A request given by its route parameter, its text fields and its genre
    field. *)
Fixpoint fields (l : list (string * string)) (field : string) : Raw :=
  match l with
  | [] => None
  | (k, v) :: r => if k =? field then Some v else fields r field
  end.

Definition request (id : string) (l : list (string * string)) (g : GenreField)
  : Request :=
  mkRequest id (fields l) g.

Definition db_down : Error := mkError "MongoNetworkError" None.

Definition no_request : Request := mkRequest "" (fun _ => None) GUndefined.

(** The update POST of the spec's scenario: an empty title, one genre. *)
Definition empty_title_post : Request :=
  request hobbit_id
    [("title", ""); ("author", tolkien_id); ("summary", "S"); ("isbn", "I")]
    (GArray [fantasy_id]).

(** The same POST with a second genre entry that is no ObjectId. *)
Definition empty_title_post_junk : Request :=
  request hobbit_id
    [("title", ""); ("author", tolkien_id); ("summary", "S"); ("isbn", "I")]
    (GArray [fantasy_id; "junk"]).

(** An author create POST whose first name is blank. *)
Definition nameless_author : Request :=
  request "" [("first_name", "  "); ("family_name", "Tolkien")] GUndefined.

(** A genre create POST naming a genre that is stored. *)
Definition fantasy_again : Request :=
  request "" [("name", " Fantasy ")] GUndefined.

(** An author update POST for the stored author. *)
Definition rename_tolkien : Request :=
  request tolkien_id [("first_name", "JRR"); ("family_name", "Tolkien")]
    GUndefined.

(** The genre delete POST whose URL names Fantasy and whose body names
    Poetry. *)
Definition delete_fantasy_body_poetry : Request :=
  request fantasy_id [("id", poetry_id)] GUndefined.

(** A book update POST whose genre is the JSON number [n]. *)
Definition numeric_genre_post (n : Z) : Request :=
  request hobbit_id
    [("title", "The Hobbit"); ("author", tolkien_id); ("summary", "S");
     ("isbn", "I")]
    (GNumber n).

(** An author create POST with two plain names, and the detail request
    for the identifier it draws. *)
Definition new_author_post : Request :=
  request "" [("first_name", "Ursula"); ("family_name", "LeGuin")] GUndefined.

Definition detail_of (id : string) : Request := request id [] GUndefined.

(** A book create POST with the given author and genre field. *)
Definition book_post (author : string) (g : GenreField) : Request :=
  request ""
    [("title", "Earthsea"); ("author", author); ("summary", "S");
     ("isbn", "I")]
    g.

(** Book instance POSTs for a book, with a status. *)
Definition copy_post (id book status : string) : Request :=
  request id [("book", book); ("imprint", "London"); ("status", status)]
    GUndefined.

(** A book instance create POST that names no book. *)
Definition bookless_copy_post : Request :=
  request "" [("book", ""); ("imprint", "London"); ("status", "Available")]
    GUndefined.

(** A genre POST for the route [id] with the name [name]. *)
Definition genre_post (id : string) (name : string) : Request :=
  request id [("name", name)] GUndefined.

(** A book update POST that selects the genre Fantasy. *)
Definition hobbit_update : Request :=
  request hobbit_id
    [("title", "The Hobbit"); ("author", tolkien_id); ("summary", "S");
     ("isbn", "I")]
    (GArray [fantasy_id]).

(** A delete POST whose body names [id]. *)
Definition delete_post_of (field id : string) : Request :=
  request "" [(field, id)] GUndefined.

(** The database fails the first operation of the request. *)
Definition first_fails : Faults :=
  fun n => match n with 0 => Some db_down | _ => None end.

(** ** Tactics *)

Ltac unfold_controllers :=
  unfold index, book_list, book_detail, book_create_get, book_create_post,
    book_delete_get, book_delete_post, book_update_get, book_update_post,
    author_list, author_detail, author_create_get, author_create_post,
    author_delete_get, author_delete_post, author_update_get,
    author_update_post, genre_list, genre_detail, genre_create_get,
    genre_create_post, genre_delete_get, genre_delete_post, genre_update_get,
    genre_update_post, bookinstance_list, bookinstance_detail,
    bookinstance_create_get, bookinstance_create_post,
    bookinstance_delete_get, bookinstance_delete_post,
    bookinstance_update_get, bookinstance_update_post, book_form_again,
    bookinstance_form_again, parallel2, parallel3, finish.

(** Runs a handler symbolically: computes as far as the next undetermined
    test (what the database imposes, the result of a lookup, the outcome of
    validation) and splits on it, innermost test first. *)
Ltac split_run :=
  unfold trace, store_after;
  repeat
    (cbn -[String.eqb author_chains book_chains bookinstance_chains
           genre_create_chain genre_update_chain genre_to_array isEmpty];
     match goal with
     | |- context [match ?f ?n with Some _ => _ | None => _ end] =>
         destruct (f n) eqn:?
     | |- context [match ?x with _ => _ end] =>
         lazymatch x with
         | context [run] => fail
         | context [match _ with _ => _ end] => fail
         | _ => destruct x eqn:?
         end
     end).

(** Membership in a list that is written out. *)
Ltac in_list := simpl; repeat (try (left; reflexivity); right).

(** ** Validation *)

Lemma escape_empty (s : string) : Str.escape s = "" -> s = "".
Proof.
  destruct s as [|c r]; [reflexivity|].
  simpl. unfold Str.escape_char.
  destruct (nat_of_ascii c) as [|n]; [discriminate|].
  do 96 (destruct n as [|n]; [discriminate|]).
  discriminate.
Qed.

Lemma genre_create_chain_eq (req : Request) :
  genre_create_chain req =
  let name := Str.trim (toString (req_body req "name")) in
  (Str.escape name,
   if (1 <=? String.length name)%nat then []
   else [mkVErr "name" "Genre name required" name]).
Proof.
  unfold genre_create_chain, body. cbn [run_links].
  unfold Str.isLength.
  destruct (1 <=? _)%nat; reflexivity.
Qed.

Lemma genre_update_chain_eq (req : Request) :
  genre_update_chain req =
  let name := Str.trim (toString (req_body req "name")) in
  (Str.escape name,
   if (3 <=? String.length name)%nat then []
   else [mkVErr "name" "Genre name must contain at least 3 characters" name]).
Proof.
  unfold genre_update_chain, body. cbn [run_links].
  unfold Str.isLength.
  destruct (3 <=? _)%nat; reflexivity.
Qed.

(** C8: the Genre create chain accepts exactly the names whose trimmed
    length is at least 1 and the Genre update chain exactly those whose
    trimmed length is at least 3; on a trimmed name of length 1 or 2 the
    create POST goes on to its store lookup while the update POST
    re-renders the form with the length error. *)
Theorem genre_name_threshold_differs (req : Request) :
  let name := Str.trim (toString (req_body req "name")) in
  (snd (genre_create_chain req) = [] <-> 1 <= String.length name)
  /\ (snd (genre_update_chain req) = [] <-> 3 <= String.length name)
  /\ (String.length name = 1 \/ String.length name = 2 ->
      snd (genre_create_chain req) = []
      /\ snd (genre_update_chain req) =
         [mkVErr "name" "Genre name must contain at least 3 characters" name]
      /\ forall rt f s,
          (exists r t,
              trace (genre_create_post rt req) f s
              = EStore MGenre OFindOne r :: t)
          /\ trace (genre_update_post rt req) f s =
             [EAnswer (render "genre_form"
                [("title", LText "Update Genre");
                 ("genre",
                  LGenre (Some (Genre.make (route_id rt req)
                                  (Str.escape name))));
                 ("errors",
                  LErrors [mkVErr "name"
                    "Genre name must contain at least 3 characters" name])])]).
Proof.
  intros name.
  assert (Hc : snd (genre_create_chain req) = [] <-> 1 <= String.length name).
  { rewrite genre_create_chain_eq. cbn zeta. fold name. cbn [snd].
    destruct (Nat.leb_spec 1 (String.length name)); split;
      intros; try reflexivity; try discriminate; lia. }
  assert (Hu : snd (genre_update_chain req) = [] <-> 3 <= String.length name).
  { rewrite genre_update_chain_eq. cbn zeta. fold name. cbn [snd].
    destruct (Nat.leb_spec 3 (String.length name)); split;
      intros; try reflexivity; try discriminate; lia. }
  split; [exact Hc|]. split; [exact Hu|].
  intros Hlen.
  assert (H1 : (1 <=? String.length name)%nat = true)
    by (apply Nat.leb_le; lia).
  assert (H3 : (3 <=? String.length name)%nat = false)
    by (apply Nat.leb_gt; lia).
  split; [apply Hc; lia|].
  split.
  { rewrite genre_update_chain_eq. cbn zeta. fold name. rewrite H3.
    reflexivity. }
  intros rt f s. split.
  - unfold genre_create_post. rewrite genre_create_chain_eq. cbn zeta.
    fold name. rewrite H1. unfold trace. cbn.
    destruct (f 0); [|destruct (find _ _)]; cbn;
      repeat match goal with
             | |- context [let '(_, _) := ?x in _] => destruct x
             end; cbn; eauto.
  - unfold genre_update_post. rewrite genre_update_chain_eq. cbn zeta.
    fold name. rewrite H3. reflexivity.
Qed.

(** ** Store failures *)

(** C10: the home page always renders the index view, whatever the count
    queries do: the first failure, if any, is the [error] variable of the
    template, the store is untouched, nothing is thrown and [next] is never
    called, so the response is the index page and never the error page. *)
Theorem index_always_renders_index (rt : Runtime) (req : Request)
  (f : Faults) (s : Store) :
  let t := trace (index rt req) f s in
  store_after (index rt req) f s = s
  /\ thrown t = []
  /\ exists data,
      answers t =
        [render "index"
           [("title", LText "Local Library Home");
            ("error", LError (hd_error (failed_reads t)));
            ("data", LCounts data)]]
      /\ forall env,
          response env t =
            Some (Page 200 "index"
                    [("title", LText "Local Library Home");
                     ("error", LError (hd_error (failed_reads t)));
                     ("data", LCounts data)]).
Proof.
  unfold index, count_tasks, finish.
  split_run; cbn; repeat split; eexists; split; reflexivity.
Qed.

(** What the error handler shows of an error: the status is the error's
    own when it has one (a status of 0 counts as none) and 500 otherwise;
    the message is always shown, the error itself only in development. *)
Lemma error_handler_page (env : string) (e : Error) :
  exists code detail,
    error_handler env e =
      Page code "error"
        [("message", LText (message e)); ("error", LError detail)]
    /\ (status e = None -> code = 500)
    /\ (forall c, status e = Some c -> c <> 0 -> code = c)
    /\ (detail = Some e <-> env = "development")
    /\ (detail = None <-> env <> "development").
Proof.
  unfold error_handler.
  destruct (String.eqb_spec env "development") as [Hd | Hd];
    do 2 eexists; (split; [reflexivity|]);
    (split; [intros ->; reflexivity|]);
    (split; [intros c -> Hc; destruct c; [contradiction|reflexivity]|]);
    split; split; intros; congruence.
Qed.

(** [book_list] cannot forward a failed read: calling the unbound [next]
    throws in the query callback, and the request gets no response. *)
Lemma book_list_read_failure_throws (env : string) (rt : Runtime)
  (req : Request) (f : Faults) (s : Store) (e : Error) :
  f 0 = Some e ->
  trace (book_list rt req) f s =
    [EStore MBook OFind (Some e);
     EThrow "ReferenceError: next is not defined"]
  /\ response env (trace (book_list rt req) f s) = None.
Proof.
  intros H. unfold book_list, trace. cbn. rewrite H. cbn. auto.
Qed.

(** C4, as the code has it: in every handler but [index] (which renders the
    error itself; [book_list] is left aside), a failed store read is not
    handled locally.  The first read that fails ends the handler with
    [next(err)] as its only answer, nothing is written, and the response is
    the error page of the error handler: the error's status when it has one
    (and is not 0), 500 otherwise, the error itself shown only in
    development. *)
Theorem read_failure_reaches_error_handler
  (name : string) (handler : Runtime -> Request -> Prog) :
  In (name, handler) controllers ->
  name <> "index" ->
  name <> "book_list" ->
  forall (env : string) (rt : Runtime) (req : Request) (f : Faults)
         (s : Store) (e : Error) (es : list Error),
    failed_reads (trace (handler rt req) f s) = e :: es ->
    answers (trace (handler rt req) f s) = [next e]
    /\ thrown (trace (handler rt req) f s) = []
    /\ store_after (handler rt req) f s = s
    /\ response env (trace (handler rt req) f s) = Some (error_handler env e)
    /\ exists code detail,
        error_handler env e =
          Page code "error"
            [("message", LText (message e)); ("error", LError detail)]
        /\ (status e = None -> code = 500)
        /\ (forall c, status e = Some c -> c <> 0 -> code = c)
        /\ (detail = Some e <-> env = "development")
        /\ (detail = None <-> env <> "development").
Proof.
  intros Hin Hindex Hlist env rt req f s e es.
  unfold controllers in Hin. simpl in Hin.
  repeat (destruct Hin as [Hin | Hin]; [injection Hin as <- <-|]);
    try contradiction; try congruence.
  all: unfold_controllers.
  all: split_run; cbn; intros H; try discriminate.
  all: injection H as <- <-.
  all: repeat (split; [reflexivity|]); apply error_handler_page.
Qed.

(** ** The referential guard *)

Lemma cast_some (value : string) (id : Id) :
  castObjectId value = Some id -> cast (Some value) = ObjectId id.
Proof. unfold cast. intros ->. reflexivity. Qed.

Lemma cast_none (value : string) :
  castObjectId value = None -> cast (Some value) = NoCast value.
Proof. unfold cast. intros ->. reflexivity. Qed.

Lemma refers_true (id : Id) (r : option Id) : refers id r = true <-> r = Some id.
Proof.
  destruct r as [x|]; simpl; [|split; discriminate].
  rewrite String.eqb_eq. split; congruence.
Qed.

(** What a condition on a reference selects. *)
Lemma filter_refers (D : Type) (path : D -> option Id) (id : Id) (l : list D)
  (d : D) :
  In d (filter (fun x => refers id (path x)) l) <-> In d l /\ path d = Some id.
Proof. rewrite filter_In, refers_true. reflexivity. Qed.

Lemma filter_refers_any (id : Id) (l : list Book.t) (b : Book.t) :
  In b (filter (fun x => existsb (refers id) (Book.genre x)) l) <->
  In b l /\ In (Some id) (Book.genre b).
Proof.
  rewrite filter_In, existsb_exists. split.
  - intros [Hin [r [Hr E]]]. apply refers_true in E. subst r. auto.
  - intros [Hin Hr]. split; [exact Hin|]. exists (Some id).
    split; [exact Hr|]. apply refers_true. reflexivity.
Qed.

(** The error page as the error handler fills it for an error without a
    status. *)
Lemma error_handler_500 (env : string) (e : Error) :
  status e = None -> error_handler env e = error_page env 500 e.
Proof. unfold error_handler, error_page. intros ->. reflexivity. Qed.

(** C3, as the code has it: on a delete GET whose route identifier is an
    ObjectId, the response is the redirect to the entity's list exactly
    when no stored document has that identifier; when one has, the response
    is the confirmation page with the target and its dependents, the
    documents that refer to the identifier (the database answering the
    reads).  A route identifier that is no ObjectId fails the reads with a
    cast error, whatever the database does, and the response is the error
    page with status 500.  The store is left as it is in every case. *)
Theorem delete_get_redirects_only_when_missing (env : string) (rt : Runtime)
  (req : Request) (s : Store) :
  (forall h f,
      In h [author_delete_get; genre_delete_get; book_delete_get] ->
      store_after (h rt req) f s = s)
  /\ match castObjectId (params_id req) with
     | None =>
         exists e,
           status e = None
           /\ forall h f,
               In h [author_delete_get; genre_delete_get; book_delete_get] ->
               failed_reads (trace (h rt req) f s) = [e; e]
               /\ answers (trace (h rt req) f s) = [next e]
               /\ response env (trace (h rt req) f s)
                  = Some (error_page env 500 e)
     | Some id =>
         (let t := trace (author_delete_get rt req) no_faults s in
          match lookup Author._id id (authors s) with
          | None => response env t = Some (Redirection "/catalog/authors")
          | Some author =>
              exists author_books,
                t = [EStore MAuthor OFindById None; EStore MBook OFind None;
                     EAnswer (render "author_delete"
                       [("title", LText "Delete Author");
                        ("author", LAuthor (Some author));
                        ("author_books", LBooks author_books)])]
                /\ response env t =
                   Some (Page 200 "author_delete"
                       [("title", LText "Delete Author");
                        ("author", LAuthor (Some author));
                        ("author_books", LBooks author_books)])
                /\ forall b, In b author_books <->
                             In b (books s) /\ Book.author b = Some id
          end)
         /\ (let t := trace (genre_delete_get rt req) no_faults s in
             match lookup Genre._id id (genres s) with
             | None => response env t = Some (Redirection "/catalog/genres")
             | Some genre =>
                 exists genre_books,
                   t = [EStore MGenre OFindById None; EStore MBook OFind None;
                        EAnswer (render "genre_delete"
                          [("title", LText "Delete Genre");
                           ("genre", LGenre (Some genre));
                           ("genre_books", LBooks genre_books)])]
                   /\ response env t =
                      Some (Page 200 "genre_delete"
                          [("title", LText "Delete Genre");
                           ("genre", LGenre (Some genre));
                           ("genre_books", LBooks genre_books)])
                   /\ forall b, In b genre_books <->
                                In b (books s) /\ In (Some id) (Book.genre b)
             end)
         /\ (let t := trace (book_delete_get rt req) no_faults s in
             match lookup Book._id id (books s) with
             | None => response env t = Some (Redirection "/catalog/books")
             | Some book =>
                 exists populated book_instances,
                   t = [EStore MBook OFindById None;
                        EStore MBookInstance OFind None;
                        EAnswer (render "book_delete"
                          [("title", LText "Delete Book");
                           ("book", LPopulatedBook (Some populated));
                           ("book_instances", LInstances book_instances)])]
                   /\ response env t =
                      Some (Page 200 "book_delete"
                          [("title", LText "Delete Book");
                           ("book", LPopulatedBook (Some populated));
                           ("book_instances", LInstances book_instances)])
                   /\ pb_book populated = book
                   /\ forall i, In i book_instances <->
                                In i (bookinstances s)
                                /\ BookInstance.book i = Some id
             end)
     end.
Proof.
  split.
  - intros h f [<- | [<- | [<- | []]]]; unfold_controllers;
      unfold param_id, cast; split_run; reflexivity.
  - destruct (castObjectId (params_id req)) as [id|] eqn:Hid.
    + pose proof (cast_some Hid) as Hc. cbv zeta.
      split; [|split].
      * destruct (lookup Author._id id (authors s)) eqn:Hl; [eexists|];
          unfold author_delete_get, parallel2, finish, trace, param_id;
          rewrite Hc; cbn -[lookup]; rewrite Hl; cbn; [|reflexivity].
        split; [reflexivity|]. split; [reflexivity|].
        intros b. apply filter_refers.
      * destruct (lookup Genre._id id (genres s)) eqn:Hl; [eexists|];
          unfold genre_delete_get, parallel2, finish, trace, param_id;
          rewrite Hc; cbn -[lookup]; rewrite Hl; cbn; [|reflexivity].
        split; [reflexivity|]. split; [reflexivity|].
        intros b. apply filter_refers_any.
      * destruct (lookup Book._id id (books s)) eqn:Hl; [do 2 eexists|];
          unfold book_delete_get, find_populated_book, parallel2, finish,
            trace, param_id;
          rewrite Hc; cbn -[lookup]; rewrite Hl; cbn; [|reflexivity].
        split; [reflexivity|]. split; [reflexivity|].
        split; [reflexivity|].
        intros i. apply (filter_refers BookInstance.book).
    + pose proof (cast_none Hid) as Hc.
      exists (CastError (params_id req)). split; [reflexivity|].
      intros h f [<- | [<- | [<- | []]]]; unfold_controllers;
        unfold trace, param_id, find_populated_book; rewrite Hc; cbn;
        rewrite error_handler_500 by reflexivity; repeat split.
Qed.

(** After the redirect for a missing target the three handlers do not
    return: they go on to call [render] with a [null] target, which can no
    longer send a response. *)
Lemma delete_get_missing_target_goes_on (rt : Runtime) (req : Request)
  (s : Store) (id : Id) :
  castObjectId (params_id req) = Some id ->
  lookup Author._id id (authors s) = None ->
  exists author_books,
    answers (trace (author_delete_get rt req) no_faults s) =
      [redirect "/catalog/authors";
       render "author_delete"
         [("title", LText "Delete Author");
          ("author", LAuthor None);
          ("author_books", LBooks author_books)]].
Proof.
  intros Hid Hnone.
  unfold author_delete_get, parallel2, finish, trace, param_id.
  rewrite (cast_some Hid). cbn -[lookup]. rewrite Hnone. cbn. eauto.
Qed.

(** The guard of the author and book delete POSTs, which look up and
    remove by the same body field: while a dependent refers to the
    submitted identifier the store is left as it is and the confirmation
    page is rendered with the blocking documents. *)
Lemma author_delete_post_blocked (rt : Runtime) (req : Request) (s : Store)
  (authorid : string) (id : Id) (book : Book.t) :
  req_body req "authorid" = Some authorid ->
  castObjectId authorid = Some id ->
  In book (books s) ->
  Book.author book = Some id ->
  store_after (author_delete_post rt req) no_faults s = s
  /\ exists author_books,
      answers (trace (author_delete_post rt req) no_faults s) =
        [render "author_delete"
           [("title", LText "Delete Author");
            ("author", LAuthor (lookup Author._id id (authors s)));
            ("author_books", LBooks author_books)]]
      /\ In book author_books.
Proof.
  intros Hbody Hid Hin Hauthor.
  assert (Hdep : In book
            (filter (fun x => refers id (Book.author x)) (books s)))
    by (apply filter_refers; auto).
  unfold author_delete_post, parallel2, finish, trace, store_after.
  rewrite Hbody, (cast_some Hid). cbn.
  destruct (filter _ (books s)) as [|b0 more]; [contradiction|].
  cbn. split; [reflexivity|]. eexists. split; [reflexivity|exact Hdep].
Qed.

Lemma book_delete_post_blocked (rt : Runtime) (req : Request) (s : Store)
  (bookid : string) (id : Id) (copy : BookInstance.t) :
  req_body req "id" = Some bookid ->
  castObjectId bookid = Some id ->
  In copy (bookinstances s) ->
  BookInstance.book copy = Some id ->
  store_after (book_delete_post rt req) no_faults s = s
  /\ exists book book_instances,
      answers (trace (book_delete_post rt req) no_faults s) =
        [render "book_delete"
           [("title", LText "Delete Book");
            ("book", LPopulatedBook book);
            ("book_instances", LInstances book_instances)]]
      /\ option_map pb_book book = lookup Book._id id (books s)
      /\ In copy book_instances.
Proof.
  intros Hbody Hid Hin Hbook.
  assert (Hdep : In copy
            (filter (fun x => refers id (BookInstance.book x))
               (bookinstances s)))
    by (apply (filter_refers BookInstance.book); auto).
  unfold book_delete_post, find_populated_book, parallel2, finish, trace,
    store_after.
  rewrite Hbody, (cast_some Hid). cbn -[lookup].
  destruct (filter _ (bookinstances s)) as [|c0 more]; [contradiction|].
  cbn -[lookup]. split; [reflexivity|]. do 2 eexists.
  split; [reflexivity|]. split; [|exact Hdep].
  destruct (lookup Book._id id (books s)); reflexivity.
Qed.

(** The genre delete POST guards the identifier of the route: with books
    in that genre nothing is removed. *)
Lemma genre_delete_post_blocked (rt : Runtime) (req : Request) (s : Store)
  (id : Id) (book : Book.t) :
  castObjectId (params_id req) = Some id ->
  In book (books s) ->
  In (Some id) (Book.genre book) ->
  store_after (genre_delete_post rt req) no_faults s = s
  /\ exists genre_books,
      answers (trace (genre_delete_post rt req) no_faults s) =
        [render "genre_delete"
           [("title", LText "Delete Genre");
            ("genre", LGenre (lookup Genre._id id (genres s)));
            ("genre_books", LBooks genre_books)]]
      /\ In book genre_books.
Proof.
  intros Hid Hin Hgenre.
  assert (Hdep : In book
            (filter (fun x => existsb (refers id) (Book.genre x)) (books s)))
    by (apply filter_refers_any; auto).
  unfold genre_delete_post, parallel2, finish, trace, store_after, param_id.
  rewrite (cast_some Hid). cbn.
  destruct (filter _ (books s)) as [|b0 more]; [contradiction|].
  cbn. split; [reflexivity|]. eexists. split; [reflexivity|exact Hdep].
Qed.

(** ** Form re-rendering *)

Lemma name_chain_eq (field m1 m2 : string) (r : Raw) :
  body field [trim; isLength 1 m1; escape; isAlphanumeric m2] r =
  let t := Str.trim (toString r) in
  (Str.escape t,
   (if Str.isLength 1 t then [] else [mkVErr field m1 t])
   ++ (if Str.isAlphanumeric (Str.escape t) then []
       else [mkVErr field m2 (Str.escape t)])).
Proof.
  unfold body. cbn [run_links].
  destruct (Str.isLength 1 _); destruct (Str.isAlphanumeric _); reflexivity.
Qed.

Lemma text_chain_eq (field m : string) (r : Raw) :
  body field [trim; isLength 1 m; escape] r =
  let t := Str.trim (toString r) in
  (Str.escape t, if Str.isLength 1 t then [] else [mkVErr field m t]).
Proof.
  unfold body. cbn [run_links]. destruct (Str.isLength 1 _); reflexivity.
Qed.

Lemma body_date_value (field message : string) (r : Raw) :
  fst (body_date field message r) = date_value r.
Proof. destruct r as [[|c s]|]; reflexivity. Qed.

Lemma cast_date_value (r : Raw) : cast_date (date_value r) = date_path r.
Proof.
  destruct r as [[|c s]|]; try reflexivity.
  cbn. destruct (toDate (String c s)); reflexivity.
Qed.

Lemma author_chains_fst (req : Request) :
  fst (author_chains req) =
  mkAuthorBody (sanitized (req_body req "first_name"))
    (sanitized (req_body req "family_name"))
    (date_value (req_body req "date_of_birth"))
    (date_value (req_body req "date_of_death")).
Proof.
  unfold author_chains. rewrite !name_chain_eq. cbn zeta.
  rewrite <- (body_date_value "date_of_birth" "Invalid date of birth").
  rewrite <- (body_date_value "date_of_death" "Invalid date of death").
  destruct (body_date "date_of_birth" _ _).
  destruct (body_date "date_of_death" _ _). reflexivity.
Qed.

Lemma book_chains_eq (req : Request) (genre : list (option string)) :
  book_chains req genre =
  let title := Str.trim (toString (req_body req "title")) in
  let author := Str.trim (toString (req_body req "author")) in
  let summary := Str.trim (toString (req_body req "summary")) in
  let isbn := Str.trim (toString (req_body req "isbn")) in
  (mkBookBody (Str.escape title) (Str.escape author) (Str.escape summary)
     (Str.escape isbn) (map (option_map Str.escape) genre),
   (if Str.isLength 1 title then []
    else [mkVErr "title" "Title must not be empty." title])
   ++ (if Str.isLength 1 author then []
       else [mkVErr "author" "Author must not be empty." author])
   ++ (if Str.isLength 1 summary then []
       else [mkVErr "summary" "Summary must not be empty." summary])
   ++ (if Str.isLength 1 isbn then []
       else [mkVErr "isbn" "ISBN must not be empty" isbn])).
Proof. unfold book_chains. rewrite !text_chain_eq. reflexivity. Qed.

Lemma bookinstance_chains_eq (req : Request) :
  bookinstance_chains req =
  let book := Str.trim (toString (req_body req "book")) in
  let imprint := Str.trim (toString (req_body req "imprint")) in
  (mkInstanceBody (Str.escape book) (Str.escape imprint)
     (Str.escape (toString (req_body req "status")))
     (fst (body_date "due_back" "Invalid date" (req_body req "due_back"))),
   (if Str.isLength 1 book then []
    else [mkVErr "book" "Book must be specified" book])
   ++ (if Str.isLength 1 imprint then []
       else [mkVErr "imprint" "Imprint must be specified" imprint])
   ++ snd (body_date "due_back" "Invalid date" (req_body req "due_back"))).
Proof.
  unfold bookinstance_chains. rewrite !text_chain_eq. cbn zeta.
  unfold body at 1. cbn [run_links].
  destruct (body_date _ _ _). reflexivity.
Qed.

(** The cast of an array of references is the cast of each entry when all
    of them cast, and fails otherwise. *)
Lemma cast_refs_spec (l : list (option string)) :
  match cast_refs l with
  | Some ids => all_cast l /\ ids = cast_each l
  | None => ~ all_cast l
  end.
Proof.
  unfold all_cast. induction l as [|x r IH]; cbn [cast_refs cast_each map].
  - split; [intros value []|reflexivity].
  - destruct x as [value|].
    + destruct (castObjectId value) as [id|] eqn:Hv.
      * destruct (cast_refs r) as [r'|].
        -- destruct IH as [Hall ->]. split; [|reflexivity].
           intros v [E | Hin]; [|apply Hall; exact Hin].
           injection E as <-. rewrite Hv. discriminate.
        -- intros Hall. apply IH. intros v Hin. apply Hall. right. exact Hin.
      * intros Hall. apply (Hall value); [left; reflexivity|exact Hv].
    + destruct (cast_refs r) as [r'|]; cbn [option_map].
      * destruct IH as [Hall ->]. split; [|reflexivity].
        intros v [E | Hin]; [discriminate|apply Hall; exact Hin].
      * intros Hall. apply IH. intros v Hin. apply Hall. right. exact Hin.
Qed.

Lemma new_Book_shown (id : Id) (req : Request) (genre : list (option string)) :
  book_shown req genre (new_Book id (fst (book_chains req genre))).
Proof.
  rewrite book_chains_eq. cbn zeta. cbn [fst]. unfold book_shown, new_Book.
  cbn [Book.title Book.author Book.summary Book.isbn Book.genre bb_title
       bb_author bb_summary bb_isbn bb_genre].
  pose proof (cast_refs_spec (map (option_map Str.escape) genre)) as H.
  destruct (cast_refs (map (option_map Str.escape) genre)) as [ids|].
  - destruct H as [Hall ->]. repeat split. intros Hn. contradiction.
  - repeat split. intros Hall. contradiction.
Qed.

Lemma new_BookInstance_shown (rt : Runtime) (id : Id) (req : Request) :
  instance_shown rt req (new_BookInstance rt id (fst (bookinstance_chains req))).
Proof.
  rewrite bookinstance_chains_eq. cbn zeta. cbn [fst].
  unfold instance_shown, new_BookInstance.
  cbn [BookInstance.book BookInstance.imprint BookInstance.status
       BookInstance.due_back ib_book ib_imprint ib_status ib_due_back].
  rewrite body_date_value, cast_date_value. repeat split.
Qed.

Lemma route_id_keeps (rt : Runtime) (req : Request) :
  keeps_route_id req (route_id rt req).
Proof. unfold keeps_route_id, route_id. intros route ->. reflexivity. Qed.

Lemma filter_all (D : Type) (l : list D) : filter (fun _ => true) l = l.
Proof. induction l; simpl; congruence. Qed.

Lemma not_isEmpty (es : list ValidationError) : es <> [] -> isEmpty es = false.
Proof. destruct es; [contradiction|reflexivity]. Qed.

Lemma author_chains_first_name (req : Request) :
  Str.trim (toString (req_body req "first_name")) = "" ->
  exists es,
    snd (author_chains req) =
      mkVErr "first_name" "First name must be specified." ""
      :: mkVErr "first_name" "First name has non-alphanumeric characters." ""
      :: es.
Proof.
  intros H. unfold author_chains, body. cbn [run_links]. rewrite H.
  cbn -[body_date].
  repeat match goal with
         | |- context [let '(_, _) := ?x in _] => destruct x
         end.
  cbn. eauto.
Qed.

(** A create or update POST whose validation leaves errors writes nothing,
    whatever the database does. *)
Lemma invalid_post_writes_nothing (fm : Form) (rt : Runtime) (req : Request)
  (es : list ValidationError) (f : Faults) (s : Store) :
  validation fm req = Some es ->
  es <> [] ->
  store_after (post fm rt req) f s = s
  /\ writes (trace (post fm rt req) f s) = [].
Proof.
  intros Hv Hes. pose proof (not_isEmpty Hes) as Hne.
  destruct fm; cbn [validation] in Hv; cbn [post];
    try (unfold book_validation in *;
         destruct (genre_to_array (req_genre req)) as [?|genre] eqn:Hg;
         cbn in Hv; [discriminate|]);
    injection Hv as Hv; unfold_controllers; try rewrite Hg;
    match goal with
    | H : snd ?c = es |- _ =>
        destruct c as [b es'] eqn:Hc; cbn [snd fst] in *; subst es'
    end;
    rewrite Hne; cbn [negb]; split; split_run; reflexivity.
Qed.

(** With the reads of the form answered, such a POST renders its form
    again with the errors and the candidate, unless it is a book instance
    form whose book is no ObjectId: then the handler throws while it builds
    the locals, and no response is sent. *)
Lemma invalid_post_rerenders (fm : Form) (rt : Runtime) (req : Request)
  (es : list ValidationError) (s : Store) (env : string) :
  validation fm req = Some es ->
  es <> [] ->
  let t := trace (post fm rt req) no_faults s in
  (names_no_book fm req ->
   answers t = []
   /\ thrown t = ["TypeError: Cannot read property '_id' of undefined"]
   /\ response env t = None)
  /\ (~ names_no_book fm req ->
      exists locals,
        answers t = [render (form_view fm) locals]
        /\ response env t = Some (Page 200 (form_view fm) locals)
        /\ In ("errors", LErrors es) locals
        /\ candidate_shown fm rt req locals).
Proof.
  intros Hv Hes. pose proof (not_isEmpty Hes) as Hne.
  unfold names_no_book.
  destruct fm; cbn [validation] in Hv; cbn [post form_view candidate_shown];
    try (unfold book_validation in *;
         destruct (genre_to_array (req_genre req)) as [?|genre] eqn:Hg;
         cbn in Hv; [discriminate|]);
    injection Hv as Hv; cbv zeta.
  - (* AuthorCreate *)
    pose proof (author_chains_fst req) as Hb.
    unfold author_create_post, finish, trace.
    destruct (author_chains req) as [b es']. cbn [fst snd] in *. subst b es'.
    rewrite Hne. cbn.
    split; [intros [[H | H] _]; discriminate|]. intros _.
    eexists. split; [reflexivity|]. split; [reflexivity|].
    split; [in_list|]. eexists. split; [in_list|].
    repeat split.
  - (* AuthorUpdate *)
    pose proof (author_chains_fst req) as Hb.
    unfold author_update_post, finish, trace.
    destruct (author_chains req) as [b es']. cbn [fst snd] in *. subst b es'.
    rewrite Hne. cbn.
    split; [intros [[H | H] _]; discriminate|]. intros _.
    eexists. split; [reflexivity|]. split; [reflexivity|].
    split; [in_list|]. eexists. split; [in_list|].
    cbn. rewrite !cast_date_value.
    split; [apply route_id_keeps|]. repeat split.
  - (* GenreCreate *)
    unfold genre_create_post, finish, trace, genre_create_chain in *.
    rewrite text_chain_eq in *. cbn zeta in *. cbn [snd] in Hv.
    rewrite Hv, Hne. cbn.
    split; [intros [[H | H] _]; discriminate|]. intros _.
    eexists. split; [reflexivity|]. split; [reflexivity|].
    split; [in_list|]. eexists. split; [in_list|].
    repeat split.
  - (* GenreUpdate *)
    unfold genre_update_post, finish, trace.
    rewrite genre_update_chain_eq in *. cbn zeta in *. cbn [snd] in Hv.
    rewrite Hv, Hne. cbn.
    split; [intros [[H | H] _]; discriminate|]. intros _.
    eexists. split; [reflexivity|]. split; [reflexivity|].
    split; [in_list|]. eexists. split; [in_list|].
    split; [apply route_id_keeps|reflexivity].
  - (* BookCreate *)
    pose proof (new_Book_shown (new_id rt) req genre) as Hshown.
    unfold book_create_post, book_form_again, parallel2, finish, trace.
    rewrite Hg. destruct (book_chains req genre) as [b es'].
    cbn [fst snd] in *. subst es'. rewrite Hne. cbn -[new_Book mark_checked].
    split; [intros [[H | H] _]; discriminate|]. intros _.
    eexists. split; [reflexivity|]. split; [reflexivity|].
    split; [in_list|]. eexists. split; [in_list|].
    split; [reflexivity|].
    intros genre' Hg'. injection Hg' as <-. exact Hshown.
  - (* BookUpdate *)
    pose proof (new_Book_shown (route_id rt req) req genre) as Hshown.
    unfold book_update_post, book_form_again, parallel2, finish, trace.
    rewrite Hg. destruct (book_chains req genre) as [b es'].
    cbn [fst snd] in *. subst es'. rewrite Hne. cbn -[new_Book mark_checked].
    split; [intros [[H | H] _]; discriminate|]. intros _.
    eexists. split; [reflexivity|]. split; [reflexivity|].
    split; [in_list|]. eexists. split; [in_list|].
    split; [apply route_id_keeps|].
    intros genre' Hg'. injection Hg' as <-. exact Hshown.
  - (* BookInstanceCreate *)
    pose proof (new_BookInstance_shown rt (new_id rt) req) as Hshown.
    unfold bookinstance_create_post, bookinstance_form_again, finish, trace.
    destruct (bookinstance_chains req) as [b es']. cbn [fst snd] in *.
    subst es'. rewrite Hne. cbn -[new_BookInstance].
    destruct Hshown as (Hbook & Hrest).
    rewrite Hbook.
    destruct (castObjectId (sanitized (req_body req "book"))) as [book|]
      eqn:Hcast; cbn -[new_BookInstance].
    + split; [intros [_ H]; discriminate|]. intros _.
      eexists. split; [reflexivity|]. split; [reflexivity|].
      split; [in_list|]. exists (new_BookInstance rt (new_id rt) b), book.
      split; [in_list|].
      split; [in_list|].
      split; [exact Hbook|]. split; [reflexivity|].
      split; [rewrite Hcast; exact Hbook|exact Hrest].
    + split; [intros _; repeat split|].
      intros H. exfalso. apply H. split; [left|]; reflexivity.
  - (* BookInstanceUpdate *)
    pose proof (new_BookInstance_shown rt (route_id rt req) req) as Hshown.
    unfold bookinstance_update_post, bookinstance_form_again, finish, trace.
    destruct (bookinstance_chains req) as [b es']. cbn [fst snd] in *.
    subst es'. rewrite Hne. cbn -[new_BookInstance].
    destruct Hshown as (Hbook & Hrest).
    rewrite Hbook.
    destruct (castObjectId (sanitized (req_body req "book"))) as [book|]
      eqn:Hcast; cbn -[new_BookInstance].
    + split; [intros [_ H]; discriminate|]. intros _.
      eexists. split; [reflexivity|]. split; [reflexivity|].
      split; [in_list|]. exists (new_BookInstance rt (route_id rt req) b), book.
      split; [in_list|].
      split; [in_list|].
      split; [exact Hbook|]. split; [apply route_id_keeps|].
      split; [rewrite Hcast; exact Hbook|exact Hrest].
    + split; [intros _; repeat split|].
      intros H. exfalso. apply H. split; [right|]; reflexivity.
Qed.

Lemma indexOf_lower (id : Id) (l : list (option Id)) : (-1 <= indexOf id l)%Z.
Proof.
  induction l as [|x r IH]; simpl; [lia|].
  destruct (refers id x); [lia|].
  destruct (Z.ltb_spec (indexOf id r) 0); lia.
Qed.

(** [indexOf(id) > -1] is membership. *)
Lemma indexOf_found (id : Id) (l : list (option Id)) :
  (-1 <? indexOf id l)%Z = true <-> In (Some id) l.
Proof.
  induction l as [|x r IH]; simpl.
  - split; [discriminate|contradiction].
  - destruct (refers id x) eqn:Hx.
    + apply refers_true in Hx. subst. split; auto.
    + assert (x <> Some id)
        by (intros E; apply (proj2 (refers_true id x)) in E; congruence).
      pose proof (indexOf_lower id r).
      destruct (Z.ltb_spec (indexOf id r) 0) as [Hlt | Hge].
      * split; [discriminate|].
        intros [E | Hin]; [congruence|].
        apply IH in Hin. apply Z.ltb_lt in Hin. lia.
      * split; intros _.
        -- right. apply IH. apply Z.ltb_lt. lia.
        -- apply Z.ltb_lt. lia.
Qed.

Lemma mark_checked_spec (book : Book.t) (all_genres : list Genre.t) :
  map fst (mark_checked book all_genres) = all_genres
  /\ forall g checked,
      In (g, checked) (mark_checked book all_genres) ->
      In g all_genres
      /\ (checked = true <-> In (Some (Genre._id g)) (Book.genre book)).
Proof.
  unfold mark_checked. split.
  - rewrite map_map. simpl. apply map_id.
  - intros g checked Hin. apply in_map_iff in Hin.
    destruct Hin as [g' [E Hin]]. injection E as -> <-.
    split; [assumption|]. apply indexOf_found.
Qed.

Lemma book_chains_title_empty (req : Request) (genre : list (option string)) :
  req_body req "title" = Some "" ->
  exists rest,
    snd (book_chains req genre) =
      mkVErr "title" "Title must not be empty." "" :: rest
    /\ bb_genre (fst (book_chains req genre)) =
       map (option_map Str.escape) genre.
Proof.
  intros H. unfold book_chains, body. rewrite H.
  cbn [toString run_links].
  change (Str.trim "") with "". change (Str.isLength 1 "") with false.
  cbn iota.
  repeat match goal with
         | |- context [let '(_, _) := ?x in _] => destruct x
         end.
  cbn. eauto.
Qed.

(** C2: a book create or update POST that fails validation reads all
    authors and all genres again and renders the book form with the
    errors, the candidate and the whole genre list, where a genre is checked
    exactly when its identifier is in the genre list of the candidate (the
    database answering both reads).  The candidate is the book built from
    the sanitized body: its genre list holds the submitted identifiers when
    all of them are ObjectIds, and is empty otherwise.  For an update POST
    with an empty title and one genre, the errors hold the title error
    "Title must not be empty." and a stored genre with the submitted
    identifier is checked. *)
Theorem book_post_invalid_checks_submitted_genres
  (fm : Form) (rt : Runtime) (req : Request) (s : Store)
  (genre : list (option string)) (es : list ValidationError) :
  fm = BookCreate \/ fm = BookUpdate ->
  genre_to_array (req_genre req) = Ok genre ->
  validation fm req = Some es ->
  es <> [] ->
  exists book checklist,
    trace (post fm rt req) no_faults s =
      [EStore MAuthor OFind None; EStore MGenre OFind None;
       EAnswer (render "book_form"
         [("title",
           LText (match fm with BookCreate => "Create Book" | _ => "Update Book"
                  end));
          ("authors", LAuthors (authors s));
          ("genres", LChecklist checklist);
          ("book", LBook (Some book));
          ("errors", LErrors es)])]
    /\ book_shown req genre book
    /\ map fst checklist = genres s
    /\ (forall g checked,
          In (g, checked) checklist ->
          (checked = true <-> In (Some (Genre._id g)) (Book.genre book)))
    /\ (fm = BookUpdate ->
        req_body req "title" = Some "" ->
        forall submitted id,
          req_genre req = GArray [submitted] ->
          castObjectId (Str.escape submitted) = Some id ->
          In (mkVErr "title" "Title must not be empty." "") es
          /\ Book.genre book = [Some id]
          /\ forall g, In g (genres s) -> Genre._id g = id ->
                       In (g, true) checklist).
Proof.
  intros Hfm Hg Hv Hes.
  pose proof (not_isEmpty Hes) as Hne.
  set (id := match fm with BookCreate => new_id rt | _ => route_id rt req end).
  set (book := new_Book id (fst (book_chains req genre))).
  exists book, (mark_checked book (genres s)).
  assert (Hes' : snd (book_chains req genre) = es).
  { destruct Hfm as [-> | ->]; cbn [validation] in Hv;
      unfold book_validation in Hv; rewrite Hg in Hv;
      injection Hv as Hv; exact Hv. }
  split; [|split; [|split; [|split]]].
  - subst book id.
    destruct Hfm as [-> | ->]; cbn [post];
      unfold book_create_post, book_update_post; rewrite Hg;
      destruct (book_chains req genre) as [b es']; cbn [fst snd] in *;
      subst es'; rewrite Hne;
      unfold book_form_again, parallel2, finish, trace;
      cbn -[mark_checked new_Book]; rewrite !filter_all; reflexivity.
  - apply new_Book_shown.
  - apply mark_checked_spec.
  - intros g checked Hin.
    apply (proj2 (mark_checked_spec book (genres s))) in Hin.
    exact (proj2 Hin).
  - intros -> Htitle submitted gid Hgenre Hcast.
    rewrite Hgenre in Hg. injection Hg as <-.
    destruct (book_chains_title_empty req [Some submitted] Htitle)
      as [rest [He Hb]].
    subst es.
    assert (Hbg : Book.genre book = [Some gid]).
    { subst book. unfold new_Book. cbn [Book.genre]. rewrite Hb.
      cbn [map option_map cast_refs]. rewrite Hcast. reflexivity. }
    split; [rewrite He; left; reflexivity|]. split; [exact Hbg|].
    intros g Hin Hid. unfold mark_checked.
    apply in_map_iff. exists g. split; [|assumption].
    f_equal. apply indexOf_found. rewrite Hid, Hbg.
    left. reflexivity.
Qed.

(** A genre list with one entry that is no ObjectId does not cast as a
    whole: the candidate's genre list is empty and the form checks no
    genre, also not the stored genres that were submitted with it. *)
Lemma book_post_junk_genre_checks_nothing (id : Id) (req : Request)
  (genre : list (option string)) (junk : string) (s : Store) :
  In (Some junk) genre ->
  castObjectId (Str.escape junk) = None ->
  let book := new_Book id (fst (book_chains req genre)) in
  Book.genre book = []
  /\ forall g checked,
      In (g, checked) (mark_checked book (genres s)) -> checked = false.
Proof.
  intros Hin Hjunk book.
  assert (Hbg : Book.genre book = []).
  { pose proof (new_Book_shown id req genre) as H.
    unfold book_shown in H. cbv zeta in H.
    destruct H as (_ & _ & _ & _ & _ & Hempty). apply Hempty. intros Hall.
    apply (Hall (Str.escape junk)); [|exact Hjunk].
    apply in_map_iff. exists (Some junk). split; [reflexivity|exact Hin]. }
  split; [exact Hbg|].
  intros g checked Hc.
  apply (proj2 (mark_checked_spec book (genres s))) in Hc.
  destruct Hc as [_ Hc]. rewrite Hbg in Hc.
  destruct checked; [|reflexivity].
  exfalso. apply (proj1 Hc). reflexivity.
Qed.

(** ** Creating and updating *)

Lemma lookup_key (D : Type) (key : D -> Id) (id : Id) (l : list D) (d : D) :
  lookup key id l = Some d -> key d = id.
Proof.
  unfold lookup. intros H. apply find_some in H. destruct H as [_ H].
  unfold has_id in H. apply String.eqb_eq. exact H.
Qed.

Lemma find_append (D : Type) (p : D -> bool) (l l' : list D) :
  find p (l ++ l') =
  match find p l with
  | Some d => Some d
  | None => find p l'
  end.
Proof.
  induction l as [|d r IH]; simpl; [reflexivity|].
  destruct (p d); [reflexivity|exact IH].
Qed.

Lemma replace_first_keys (D : Type) (key : D -> Id) (id : Id) (d' : D)
  (l : list D) :
  key d' = id -> map key (replace_first key id d' l) = map key l.
Proof.
  intros Hk. induction l as [|d r IH]; simpl; [reflexivity|].
  unfold has_id at 1. destruct (String.eqb_spec (key d) id) as [E | E]; simpl.
  - congruence.
  - rewrite IH. reflexivity.
Qed.

Lemma has_id_true (D : Type) (key : D -> Id) (id : Id) (d : D) :
  has_id key id d = true <-> key d = id.
Proof. unfold has_id. apply String.eqb_eq. Qed.

Lemma has_id_false (D : Type) (key : D -> Id) (id : Id) (d : D) :
  has_id key id d = false <-> key d <> id.
Proof. unfold has_id. apply String.eqb_neq. Qed.

Lemma lookup_remove_first_other (D : Type) (key : D -> Id) (id id' : Id)
  (l : list D) :
  id' <> id -> lookup key id' (remove_first key id l) = lookup key id' l.
Proof.
  intros Hne. unfold lookup. induction l as [|d r IH]; simpl; [reflexivity|].
  destruct (has_id key id d) eqn:E; destruct (has_id key id' d) eqn:E';
    simpl; try rewrite E'; try reflexivity; try exact IH.
  apply has_id_true in E. apply has_id_true in E'. congruence.
Qed.

Lemma lookup_none_not_in (D : Type) (key : D -> Id) (id : Id) (l : list D) :
  lookup key id l = None <-> ~ In id (map key l).
Proof using.
  clear isISO8601 toDate castObjectId.
  unfold lookup. induction l as [|d r IH]; simpl; [tauto|].
  destruct (has_id key id d) eqn:E.
  - apply has_id_true in E. split; [discriminate|]. intros H. exfalso.
    apply H. left. exact E.
  - apply has_id_false in E. rewrite IH. tauto.
Qed.

Lemma existsb_eqb_in (x : string) (l : list string) :
  existsb (String.eqb x) l = true <-> In x l.
Proof.
  rewrite existsb_exists. split.
  - intros [y [Hin E]]. apply String.eqb_eq in E. subst. exact Hin.
  - intros Hin. exists x. split; [exact Hin|apply String.eqb_refl].
Qed.

Lemma distinct_NoDup (l : list string) : distinct l = true <-> NoDup l.
Proof.
  induction l as [|x r IH]; simpl.
  - split; [constructor|reflexivity].
  - rewrite andb_true_iff, negb_true_iff, IH. split.
    + intros [Hx Hr]. constructor; [|exact Hr].
      intros Hin. apply existsb_eqb_in in Hin. congruence.
    + intros H. inversion H as [|? ? Hx Hr]; subst. split; [|exact Hr].
      destruct (existsb (String.eqb x) r) eqn:E; [|reflexivity].
      apply existsb_eqb_in in E. contradiction.
Qed.

Lemma lookup_remove_first_same (D : Type) (key : D -> Id) (id : Id)
  (l : list D) :
  distinct (map key l) = true -> lookup key id (remove_first key id l) = None.
Proof using.
  clear isISO8601 toDate castObjectId.
  intros Hd. apply distinct_NoDup in Hd.
  induction l as [|d r IH]; simpl; [reflexivity|].
  simpl in Hd. apply NoDup_cons_iff in Hd. destruct Hd as [Hx Hr].
  destruct (has_id key id d) eqn:E.
  - apply has_id_true in E. apply lookup_none_not_in. rewrite <- E. exact Hx.
  - unfold lookup. simpl. rewrite E. apply IH. exact Hr.
Qed.

Lemma remove_first_absent (D : Type) (key : D -> Id) (id : Id) (l : list D) :
  lookup key id l = None -> remove_first key id l = l.
Proof.
  unfold lookup. induction l as [|d r IH]; simpl; [reflexivity|].
  destruct (has_id key id d); [discriminate|].
  intros H. rewrite IH; [reflexivity|exact H].
Qed.

Lemma remove_first_present (D : Type) (key : D -> Id) (id : Id) (l : list D)
  (d : D) :
  lookup key id l = Some d -> S (length (remove_first key id l)) = length l.
Proof.
  unfold lookup. induction l as [|x r IH]; simpl; [discriminate|].
  destruct (has_id key id x); [reflexivity|].
  intros H. simpl. rewrite IH; [reflexivity|exact H].
Qed.

Lemma remove_first_incl (D : Type) (key : D -> Id) (id : Id) (l : list D)
  (d : D) :
  In d (remove_first key id l) -> In d l.
Proof using.
  clear isISO8601 toDate castObjectId.
  induction l as [|x r IH]; simpl; [tauto|].
  destruct (has_id key id x); simpl; intuition.
Qed.

Lemma remove_first_keeps (D : Type) (key : D -> Id) (id : Id) (l : list D)
  (d : D) :
  In d l -> key d <> id -> In d (remove_first key id l).
Proof using.
  clear isISO8601 toDate castObjectId.
  induction l as [|x r IH]; simpl; [tauto|].
  intros [E | Hin] Hne.
  - subst x. apply has_id_false in Hne. rewrite Hne. left. reflexivity.
  - destruct (has_id key id x); [exact Hin|]. right. apply IH; assumption.
Qed.

Lemma lookup_replace_first (D : Type) (key : D -> Id) (id : Id) (d' old : D)
  (l : list D) :
  key d' = id ->
  lookup key id l = Some old ->
  lookup key id (replace_first key id d' l) = Some d'.
Proof.
  intros Hk. apply has_id_true in Hk. unfold lookup.
  induction l as [|x r IH]; simpl; [discriminate|].
  destruct (has_id key id x) eqn:E.
  - intros _. simpl. rewrite Hk. reflexivity.
  - intros H. simpl. rewrite E. apply IH. exact H.
Qed.

Lemma lookup_replace_first_other (D : Type) (key : D -> Id) (id id' : Id)
  (d' : D) (l : list D) :
  key d' = id -> id' <> id ->
  lookup key id' (replace_first key id d' l) = lookup key id' l.
Proof.
  intros Hk Hne. unfold lookup.
  assert (Hd : has_id key id' d' = false)
    by (apply has_id_false; congruence).
  induction l as [|x r IH]; simpl; [reflexivity|].
  destruct (has_id key id x) eqn:E.
  - simpl. rewrite Hd. apply has_id_true in E.
    assert (Hx : has_id key id' x = false)
      by (apply has_id_false; congruence).
    rewrite Hx. reflexivity.
  - simpl. destruct (has_id key id' x); [reflexivity|exact IH].
Qed.

Lemma param_id_some (req : Request) (id : Id) :
  castObjectId (params_id req) = Some id -> param_id req = ObjectId id.
Proof. unfold param_id. apply cast_some. Qed.

Lemma route_id_some (rt : Runtime) (req : Request) (id : Id) :
  castObjectId (params_id req) = Some id -> route_id rt req = id.
Proof. unfold route_id. intros ->. reflexivity. Qed.

(** C7: a genre create POST whose trimmed name has at least one character
    first looks for a stored genre with the sanitized name.  If there is
    one, the response redirects to the detail URL of the first such genre
    and nothing is inserted; if there is none, the new genre is saved at
    the end of the collection and the response redirects to its detail URL
    (the database answering; the identifier drawn for the new document is
    not yet in the collection).  Lookup and insert are two separate store
    operations. *)
Theorem genre_create_post_looks_up_before_insert (rt : Runtime)
  (req : Request) (s : Store) :
  1 <= String.length (Str.trim (toString (req_body req "name"))) ->
  lookup Genre._id (new_id rt) (genres s) = None ->
  let name := Str.escape (Str.trim (toString (req_body req "name"))) in
  match List.find (fun g => Genre.name g =? name) (genres s) with
  | Some found =>
      Genre.name found = name
      /\ In found (genres s)
      /\ trace (genre_create_post rt req) no_faults s =
         [EStore MGenre OFindOne None; EAnswer (redirect (Genre.url found))]
      /\ store_after (genre_create_post rt req) no_faults s = s
  | None =>
      let genre := Genre.make (new_id rt) name in
      (forall g, In g (genres s) -> Genre.name g <> name)
      /\ trace (genre_create_post rt req) no_faults s =
         [EStore MGenre OFindOne None; EStore MGenre OSave None;
          EAnswer (redirect (Genre.url genre))]
      /\ store_after (genre_create_post rt req) no_faults s =
         mkStore (authors s) (genres s ++ [genre]) (books s) (bookinstances s)
      /\ lookup Genre._id (new_id rt)
           (genres (store_after (genre_create_post rt req) no_faults s))
         = Some genre
  end.
Proof.
  intros Hlen Hfresh name.
  assert (Hname : (name =? "") = false).
  { apply String.eqb_neq. intros E. apply escape_empty in E.
    rewrite E in Hlen. simpl in Hlen. lia. }
  unfold genre_create_post. rewrite genre_create_chain_eq. cbn zeta.
  fold name. apply Nat.leb_le in Hlen. rewrite Hlen.
  unfold trace, store_after, lookup in *.
  cbn -[String.eqb].
  destruct (find (fun g => Genre.name g =? name) (genres s)) as [found|]
    eqn:Hfind.
  - apply find_some in Hfind. destruct Hfind as [Hin Hn].
    apply String.eqb_eq in Hn.
    cbn. auto.
  - cbn -[String.eqb]. unfold Genre.valid. cbn -[String.eqb].
    rewrite Hname. cbn -[String.eqb]. rewrite Hfresh.
    cbn -[String.eqb].
    split; [|split; [reflexivity|split; [reflexivity|]]].
    + intros g Hin E. apply (find_none _ _ Hfind) in Hin.
      apply String.eqb_neq in Hin. contradiction.
    + rewrite find_append, Hfresh. cbn -[String.eqb].
      unfold has_id. cbn -[String.eqb]. rewrite String.eqb_refl. reflexivity.
Qed.

(** What an update by identifier does to a collection in which the
    identifier is stored, the update carrying that identifier. *)
Lemma findByIdAndUpdate_stored (D : Type) (C : Collection D) (id : Id)
  (d old : D) (s : Store) :
  c_key C d = id ->
  lookup (c_key C) id (c_get C s) = Some old ->
  q_refused (Mongoose.findByIdAndUpdate C (ObjectId id) d) = None
  /\ q_run (Mongoose.findByIdAndUpdate C (ObjectId id) d) s =
     Ok (Some old,
         c_set C (replace_first (c_key C) id (c_apply C old d) (c_get C s)) s).
Proof.
  intros Hk Hold. split; [reflexivity|].
  cbn -[lookup replace_first String.eqb]. rewrite Hold, Hk, String.eqb_refl.
  reflexivity.
Qed.

(** C9: a successful update POST for an author, a book or a book
    instance writes a candidate that carries the identifier of the route:
    the only store operation is the update by that identifier; afterwards
    the identifier resolves to the document with the submitted values
    (a reference that is no ObjectId, and a date of an author that is
    absent, keep their stored value), every other identifier resolves as
    before, the identifiers of the collection are the same, in the same
    order, and the response redirects to the detail URL of that same
    identifier (the database answering, the route identifier being that
    of a stored document).  The identifier a fresh document would draw
    plays no part in the three handlers. *)
Theorem update_post_keeps_identifier (rt : Runtime) (req : Request)
  (s : Store) (id : Id) :
  castObjectId (params_id req) = Some id ->
  (forall old,
      snd (author_chains req) = [] ->
      lookup Author._id id (authors s) = Some old ->
      let s' := store_after (author_update_post rt req) no_faults s in
      trace (author_update_post rt req) no_faults s =
        [EStore MAuthor OFindByIdAndUpdate None;
         EAnswer (redirect ("/catalog/author/" ++ id))]
      /\ lookup Author._id id (authors s') =
         Some (Author.make id
                 (sanitized (req_body req "first_name"))
                 (sanitized (req_body req "family_name"))
                 (match date_path (req_body req "date_of_birth") with
                  | NoDate => Author.date_of_birth old
                  | d => d
                  end)
                 (match date_path (req_body req "date_of_death") with
                  | NoDate => Author.date_of_death old
                  | d => d
                  end))
      /\ (forall id', id' <> id ->
            lookup Author._id id' (authors s') = lookup Author._id id' (authors s))
      /\ map Author._id (authors s') = map Author._id (authors s)
      /\ (genres s', books s', bookinstances s')
         = (genres s, books s, bookinstances s))
  /\ (forall old genre,
        genre_to_array (req_genre req) = Ok genre ->
        snd (book_chains req genre) = [] ->
        lookup Book._id id (books s) = Some old ->
        let s' := store_after (book_update_post rt req) no_faults s in
        trace (book_update_post rt req) no_faults s =
          [EStore MBook OFindByIdAndUpdate None;
           EAnswer (redirect ("/catalog/book/" ++ id))]
        /\ (exists book,
              lookup Book._id id (books s') = Some book
              /\ Book._id book = id
              /\ Book.title book = sanitized (req_body req "title")
              /\ Book.author book =
                 match castObjectId (sanitized (req_body req "author")) with
                 | Some author => Some author
                 | None => Book.author old
                 end
              /\ Book.summary book = sanitized (req_body req "summary")
              /\ Book.isbn book = sanitized (req_body req "isbn")
              /\ (all_cast (map (option_map Str.escape) genre) ->
                  Book.genre book
                  = cast_each (map (option_map Str.escape) genre))
              /\ (~ all_cast (map (option_map Str.escape) genre) ->
                  Book.genre book = [])
              /\ Book.invalidated book = [])
        /\ (forall id', id' <> id ->
              lookup Book._id id' (books s') = lookup Book._id id' (books s))
        /\ map Book._id (books s') = map Book._id (books s)
        /\ (authors s', genres s', bookinstances s')
           = (authors s, genres s, bookinstances s))
  /\ (forall old,
        snd (bookinstance_chains req) = [] ->
        lookup BookInstance._id id (bookinstances s) = Some old ->
        let s' := store_after (bookinstance_update_post rt req) no_faults s in
        trace (bookinstance_update_post rt req) no_faults s =
          [EStore MBookInstance OFindByIdAndUpdate None;
           EAnswer (redirect ("/catalog/bookinstance/" ++ id))]
        /\ lookup BookInstance._id id (bookinstances s') =
           Some (BookInstance.make id
                   (match castObjectId (sanitized (req_body req "book")) with
                    | Some book => Some book
                    | None => BookInstance.book old
                    end)
                   (sanitized (req_body req "imprint"))
                   (Str.escape (toString (req_body req "status")))
                   (match date_path (req_body req "due_back") with
                    | NoDate => ADate (date_now rt)
                    | d => d
                    end))
        /\ (forall id', id' <> id ->
              lookup BookInstance._id id' (bookinstances s')
              = lookup BookInstance._id id' (bookinstances s))
        /\ map BookInstance._id (bookinstances s')
           = map BookInstance._id (bookinstances s)
        /\ (authors s', genres s', books s') = (authors s, genres s, books s))
  /\ (forall fresh fresh' now,
        author_update_post (mkRuntime fresh now) req
        = author_update_post (mkRuntime fresh' now) req
        /\ book_update_post (mkRuntime fresh now) req
           = book_update_post (mkRuntime fresh' now) req
        /\ bookinstance_update_post (mkRuntime fresh now) req
           = bookinstance_update_post (mkRuntime fresh' now) req).
Proof.
  intros Hid.
  pose proof (param_id_some req Hid) as Hparam.
  split; [|split; [|split]].
  - intros old Hes Hold s'.
    pose proof (lookup_key _ _ _ Hold) as Hk.
    set (candidate := new_Author id (fst (author_chains req))).
    destruct (@findByIdAndUpdate_stored _ Authors id candidate old s eq_refl Hold)
      as [Hq Hr].
    assert (Hrun :
      run (author_update_post rt req) no_faults 0 s =
      ([EStore MAuthor OFindByIdAndUpdate None;
        EAnswer (redirect ("/catalog/author/" ++ id))],
       mkStore
         (replace_first Author._id id (c_apply Authors old candidate)
            (authors s))
         (genres s) (books s) (bookinstances s))).
    { unfold author_update_post. rewrite (route_id_some rt req Hid), Hparam.
      subst candidate.
      destruct (author_chains req) as [b es]. cbn [snd fst] in *. subst es.
      cbn [isEmpty negb run]. rewrite Hq. cbn [no_faults]. rewrite Hr.
      cbn. unfold Author.url. rewrite Hk. reflexivity. }
    subst s'. unfold trace, store_after. rewrite Hrun.
    cbn [fst snd authors genres books bookinstances].
    split; [reflexivity|]. split; [|split; [|split; [|reflexivity]]].
    + erewrite lookup_replace_first; [|reflexivity|exact Hold].
      subst candidate. rewrite author_chains_fst.
      cbn. rewrite <- !cast_date_value. unfold set_date.
      destruct (cast_date (date_value (req_body req "date_of_birth")));
        destruct (cast_date (date_value (req_body req "date_of_death")));
        reflexivity.
    + intros id' Hne. apply lookup_replace_first_other; [reflexivity|exact Hne].
    + apply replace_first_keys. reflexivity.
  - intros old genre Hg Hes Hold s'.
    pose proof (lookup_key _ _ _ Hold) as Hk.
    set (candidate := new_Book id (fst (book_chains req genre))).
    destruct (@findByIdAndUpdate_stored _ Books id candidate old s eq_refl Hold)
      as [Hq Hr].
    assert (Hrun :
      run (book_update_post rt req) no_faults 0 s =
      ([EStore MBook OFindByIdAndUpdate None;
        EAnswer (redirect ("/catalog/book/" ++ id))],
       mkStore (authors s) (genres s)
         (replace_first Book._id id (c_apply Books old candidate) (books s))
         (bookinstances s))).
    { unfold book_update_post. rewrite (route_id_some rt req Hid), Hparam, Hg.
      subst candidate.
      destruct (book_chains req genre) as [b es]. cbn [snd fst] in *. subst es.
      cbn [isEmpty negb run]. rewrite Hq. cbn [no_faults]. rewrite Hr.
      cbn. unfold Book.url. rewrite Hk. reflexivity. }
    subst s'. unfold trace, store_after. rewrite Hrun.
    cbn [fst snd authors genres books bookinstances].
    split; [reflexivity|]. split; [|split; [|split; [|reflexivity]]].
    + exists (c_apply Books old candidate).
      split; [apply lookup_replace_first with (old := old);
              [reflexivity|exact Hold]|].
      pose proof (new_Book_shown id req genre) as Hshown.
      fold candidate in Hshown. unfold book_shown in Hshown.
      cbv zeta in Hshown.
      destruct Hshown as (Ht & Ha & Hs & Hi & Hg1 & Hg2).
      cbn [c_apply Books Book._id Book.title Book.author Book.summary
           Book.isbn Book.genre Book.invalidated].
      rewrite Ht, Ha, Hs, Hi. unfold set_ref.
      repeat split; try assumption.
      destruct (castObjectId (sanitized (req_body req "author")));
        reflexivity.
    + intros id' Hne. apply lookup_replace_first_other; [reflexivity|exact Hne].
    + apply replace_first_keys. reflexivity.
  - intros old Hes Hold s'.
    pose proof (lookup_key _ _ _ Hold) as Hk.
    set (candidate := new_BookInstance rt id (fst (bookinstance_chains req))).
    destruct (@findByIdAndUpdate_stored _ BookInstances id candidate old s eq_refl Hold)
      as [Hq Hr].
    assert (Hrun :
      run (bookinstance_update_post rt req) no_faults 0 s =
      ([EStore MBookInstance OFindByIdAndUpdate None;
        EAnswer (redirect ("/catalog/bookinstance/" ++ id))],
       mkStore (authors s) (genres s) (books s)
         (replace_first BookInstance._id id
            (c_apply BookInstances old candidate) (bookinstances s)))).
    { unfold bookinstance_update_post.
      rewrite (route_id_some rt req Hid), Hparam. subst candidate.
      destruct (bookinstance_chains req) as [b es]. cbn [snd fst] in *.
      subst es.
      cbn [isEmpty negb run]. rewrite Hq. cbn [no_faults]. rewrite Hr.
      cbn. unfold BookInstance.url. rewrite Hk. reflexivity. }
    subst s'. unfold trace, store_after. rewrite Hrun.
    cbn [fst snd authors genres books bookinstances].
    split; [reflexivity|]. split; [|split; [|split; [|reflexivity]]].
    + erewrite lookup_replace_first; [|reflexivity|exact Hold].
      subst candidate. rewrite bookinstance_chains_eq. cbn zeta. cbn [fst].
      unfold new_BookInstance.
      cbn [c_apply BookInstances BookInstance._id BookInstance.book
           BookInstance.imprint BookInstance.status BookInstance.due_back
           ib_book ib_imprint ib_status ib_due_back].
      rewrite body_date_value, cast_date_value. unfold set_ref, set_date.
      fold (sanitized (req_body req "book")).
      destruct (castObjectId (sanitized (req_body req "book")));
        destruct (date_path (req_body req "due_back")); reflexivity.
    + intros id' Hne. apply lookup_replace_first_other; [reflexivity|exact Hne].
    + apply replace_first_keys. reflexivity.
  - intros fresh fresh' now.
    unfold author_update_post, book_update_post, bookinstance_update_post,
      new_BookInstance.
    rewrite !(route_id_some _ req Hid). cbn [date_now]. repeat split.
Qed.

(** The genre conversion on what a form submits: no value, one value,
    several values. *)
Lemma genre_to_array_of_form_values :
  genre_to_array GUndefined = Ok []
  /\ (forall s, genre_to_array (GText s) = Ok [Some s])
  /\ (forall l, genre_to_array (GArray l) = Ok (map Some l))
  /\ forall req rt,
      req_genre req = GUndefined ->
      option_map Book.genre (book_candidate (route_id rt req) req) = Some []
      /\ option_map Book.genre (book_candidate (new_id rt) req) = Some [].
Proof.
  repeat split; unfold book_candidate, book_validation; rewrite H;
    cbn [genre_to_array option_map]; unfold book_chains;
    repeat match goal with
           | |- context [let '(_, _) := ?x in _] => destruct x
           end; reflexivity.
Qed.

(** ** Further properties of the controllers *)

(** *** Pages *)

Lemma error_handler_404 (env : string) (what : string) :
  error_handler env (not_found what) = error_page env 404 (not_found what).
Proof. reflexivity. Qed.

(** X1: a detail page whose route identifier is an ObjectId that no
    document has answers with [next] of a 404 error, which the error
    handler renders with status 404; when a document has it, the page
    renders the document with its dependents, the documents that refer to
    the identifier.  A book instance whose book does not resolve makes the
    detail page throw while it builds the title (the database answering).
    A route identifier that is no ObjectId fails the read with a cast
    error, whatever the database does, and the response is the error page
    with status 500.  A request no router matches gets the 404 page. *)
Theorem detail_pages_404_for_unknown_id (env : string) (rt : Runtime)
  (req : Request) (s : Store) :
  match castObjectId (params_id req) with
  | None =>
      exists e,
        status e = None
        /\ forall h f,
            In h [author_detail; genre_detail; book_detail;
                  bookinstance_detail] ->
            hd_error (failed_reads (trace (h rt req) f s)) = Some e
            /\ answers (trace (h rt req) f s) = [next e]
            /\ response env (trace (h rt req) f s)
               = Some (error_page env 500 e)
  | Some id =>
      (let t := trace (author_detail rt req) no_faults s in
       match lookup Author._id id (authors s) with
       | None =>
           answers t = [next (not_found "Author")]
           /\ response env t = Some (error_page env 404 (not_found "Author"))
       | Some author =>
           exists author_books,
             answers t =
               [render "author_detail"
                  [("title", LText "Author Detail");
                   ("author", LAuthor (Some author));
                   ("author_books", LBooks author_books)]]
             /\ forall b, In b author_books <->
                          In b (books s) /\ Book.author b = Some id
       end)
      /\ (let t := trace (genre_detail rt req) no_faults s in
          match lookup Genre._id id (genres s) with
          | None =>
              answers t = [next (not_found "Genre")]
              /\ response env t
                 = Some (error_page env 404 (not_found "Genre"))
          | Some genre =>
              exists genre_books,
                answers t =
                  [render "genre_detail"
                     [("title", LText "Genre Detail");
                      ("genre", LGenre (Some genre));
                      ("genre_books", LBooks genre_books)]]
                /\ forall b, In b genre_books <->
                             In b (books s) /\ In (Some id) (Book.genre b)
          end)
      /\ (let t := trace (book_detail rt req) no_faults s in
          match lookup Book._id id (books s) with
          | None =>
              answers t = [next (not_found "Book")]
              /\ response env t = Some (error_page env 404 (not_found "Book"))
          | Some book =>
              exists populated book_instances,
                answers t =
                  [render "book_detail"
                     [("title", LText (Book.title book));
                      ("book", LPopulatedBook (Some populated));
                      ("book_instances", LInstances book_instances)]]
                /\ pb_book populated = book
                /\ pb_author populated =
                   match Book.author book with
                   | Some author => lookup Author._id author (authors s)
                   | None => None
                   end
                /\ forall i, In i book_instances <->
                             In i (bookinstances s)
                             /\ BookInstance.book i = Some id
          end)
      /\ (let t := trace (bookinstance_detail rt req) no_faults s in
          match lookup BookInstance._id id (bookinstances s) with
          | None =>
              answers t = [next (not_found "Book copy")]
              /\ response env t
                 = Some (error_page env 404 (not_found "Book copy"))
          | Some copy =>
              match
                match BookInstance.book copy with
                | Some book => lookup Book._id book (books s)
                | None => None
                end
              with
              | None =>
                  answers t = [] /\ thrown t <> [] /\ response env t = None
              | Some book =>
                  answers t =
                    [render "bookinstance_detail"
                       [("title", LText ("Copy: " ++ Book.title book));
                        ("bookinstance",
                         LPopulatedInstance
                           (Some (mkPopulatedInstance copy (Some book))))]]
              end
          end)
  end
  /\ (forall f,
        response env (trace (catch_404 rt req) f s)
        = Some (error_page env 404 (mkError "Not Found" (Some 404)))).
Proof.
  split; [|intros f; reflexivity].
  destruct (castObjectId (params_id req)) as [id|] eqn:Hid.
  - pose proof (param_id_some req Hid) as Hc. cbv zeta.
    split; [|split; [|split]].
    + destruct (lookup Author._id id (authors s)) eqn:Hl; [eexists|];
        unfold author_detail, parallel2, finish, trace;
        rewrite Hc; cbn -[lookup]; rewrite Hl; cbn; [|auto].
      split; [reflexivity|]. intros b. apply filter_refers.
    + destruct (lookup Genre._id id (genres s)) eqn:Hl; [eexists|];
        unfold genre_detail, parallel2, finish, trace;
        rewrite Hc; cbn -[lookup]; rewrite Hl; cbn; [|auto].
      split; [reflexivity|]. intros b. apply filter_refers_any.
    + destruct (lookup Book._id id (books s)) eqn:Hl; [do 2 eexists|];
        unfold book_detail, find_populated_book, parallel2, finish, trace;
        rewrite Hc; cbn -[lookup]; rewrite Hl; cbn -[lookup]; [|auto].
      split; [reflexivity|]. split; [reflexivity|]. split; [reflexivity|].
      intros i. apply (filter_refers BookInstance.book).
    + destruct (lookup BookInstance._id id (bookinstances s)) as [copy|]
        eqn:Hl;
        unfold bookinstance_detail, find_populated_instance, finish, trace;
        rewrite Hc; cbn -[lookup]; rewrite Hl; cbn -[lookup]; [|auto].
      unfold with_book, resolve.
      destruct (BookInstance.book copy) as [book|]; cbn -[lookup].
      * destruct (lookup Book._id book (books s)); cbn; [reflexivity|].
        repeat split; discriminate.
      * repeat split; discriminate.
  - exists (CastError (params_id req)). split; [reflexivity|].
    intros h f [<- | [<- | [<- | [<- | []]]]]; unfold_controllers;
      unfold trace, param_id, find_populated_book, find_populated_instance;
      rewrite (cast_none Hid); split_run; cbn; repeat split.
Qed.

Lemma forallb_nulls (l : list (option Id)) :
  forallb (fun r => negb (is_set r)) l = true <->
  forall id, ~ In (Some id) l.
Proof.
  rewrite forallb_forall. split.
  - intros H id Hin. specialize (H _ Hin). discriminate.
  - intros H [id|] Hin; [exfalso; apply (H id); exact Hin|reflexivity].
Qed.

Lemma resolve_genres_nulls (s : Store) (refs : list (option Id)) :
  only_nulls refs = true -> In None (resolve_genres s refs).
Proof.
  unfold only_nulls, resolve_genres.
  destruct refs as [|r refs']; [discriminate|]. intros H. rewrite H.
  cbn. left. reflexivity.
Qed.

Lemma resolve_genres_docs (s : Store) (refs : list (option Id)) :
  only_nulls refs = false -> ~ In None (resolve_genres s refs).
Proof.
  unfold only_nulls, resolve_genres.
  destruct refs as [|r refs']; [intros _ []|]. intros H. rewrite H.
  intros Hin. apply in_flat_map in Hin. destruct Hin as [x [_ Hx]].
  destruct (resolve Genre._id (genres s) x); [|contradiction].
  destruct Hx as [E | []]. discriminate.
Qed.

Lemma is_current_none (g : Genre.t) (l : list (option Genre.t)) :
  is_current g l = None <-> In None l.
Proof.
  induction l as [|x r IH]; cbn; [split; [discriminate|contradiction]|].
  destruct x as [bg|].
  - destruct (is_current g r); cbn.
    + split; [discriminate|]. intros [E | H]; [discriminate|].
      apply IH in H. discriminate.
    + split; [|reflexivity]. intros _. right. apply IH. reflexivity.
  - split; [|reflexivity]. intros _. left. reflexivity.
Qed.

Lemma is_current_some (g : Genre.t) (l : list (option Genre.t)) (c : bool) :
  is_current g l = Some c ->
  (c = true <-> exists bg, In (Some bg) l /\ Genre._id g = Genre._id bg).
Proof.
  revert c. induction l as [|x r IH]; cbn; intros c H.
  - injection H as <-. split; [discriminate|]. intros [bg [[] _]].
  - destruct x as [bg|]; [|discriminate].
    destruct (is_current g r) as [c'|]; [|discriminate].
    cbn in H. injection H as <-. specialize (IH c' eq_refl).
    rewrite orb_true_iff, String.eqb_eq, IH. split.
    + intros [E | [bg' [Hin E]]]; [exists bg|exists bg']; auto.
    + intros [bg' [[E | Hin] E']].
      * injection E as <-. left. exact E'.
      * right. exists bg'. auto.
Qed.

(** The nested loop throws when there is a genre to go through and the
    populated array has a [null] entry; otherwise it lists the genres and
    checks those among the populated ones. *)
Lemma mark_current_spec (book : PopulatedBook) (all_genres : list Genre.t) :
  match mark_current book all_genres with
  | None => all_genres <> [] /\ In None (pb_genre book)
  | Some checklist =>
      (all_genres = [] \/ ~ In None (pb_genre book))
      /\ map fst checklist = all_genres
      /\ forall g checked,
          In (g, checked) checklist ->
          (checked = true <->
           exists bg, In (Some bg) (pb_genre book)
                      /\ Genre._id g = Genre._id bg)
  end.
Proof.
  induction all_genres as [|g r IH]; cbn [mark_current].
  - split; [left; reflexivity|]. split; [reflexivity|]. intros g c [].
  - destruct (is_current g (pb_genre book)) as [c|] eqn:Hc.
    + assert (Hnn : ~ In None (pb_genre book)).
      { intros Hin. apply is_current_none with (g := g) in Hin. congruence. }
      destruct (mark_current book r) as [r'|].
      * destruct IH as (_ & Hm & Hr). split; [right; exact Hnn|].
        split; [cbn; rewrite Hm; reflexivity|].
        intros g' c' [E | Hin]; [|apply Hr; exact Hin].
        injection E as <- <-. apply is_current_some. exact Hc.
      * destruct IH as [_ Hin]. contradiction.
    + apply is_current_none in Hc. split; [discriminate|exact Hc].
Qed.

Lemma resolve_genres_in (s : Store) (refs : list (option Id)) (g : Genre.t) :
  In (Some g) (resolve_genres s refs) ->
  In (Some (Genre._id g)) refs.
Proof.
  unfold resolve_genres.
  destruct (forallb _ refs).
  - intros H. apply in_map_iff in H. destruct H as [x [E _]]. discriminate.
  - intros H. apply in_flat_map in H. destruct H as [r [Hr Hg]].
    destruct r as [id|]; [|contradiction]. cbn [resolve] in Hg.
    destruct (lookup Genre._id id (genres s)) as [g'|] eqn:E; [|contradiction].
    destruct Hg as [Hg | []]. injection Hg as <-.
    apply lookup_key in E. rewrite E. exact Hr.
Qed.

Lemma resolve_genres_found (s : Store) (refs : list (option Id)) (g : Genre.t) :
  In g (genres s) ->
  In (Some (Genre._id g)) refs ->
  exists g', In (Some g') (resolve_genres s refs)
             /\ Genre._id g' = Genre._id g.
Proof using.
  clear isISO8601 toDate castObjectId.
  intros Hg Hr. unfold resolve_genres.
  destruct (forallb _ refs) eqn:Hn.
  - exfalso. apply (proj1 (forallb_nulls refs) Hn (Genre._id g)). exact Hr.
  - destruct (lookup Genre._id (Genre._id g) (genres s)) as [g'|] eqn:E.
    + exists g'. split; [|apply lookup_key in E; exact E].
      apply in_flat_map.
      exists (Some (Genre._id g)). split; [exact Hr|]. cbn [resolve].
      rewrite E. left. reflexivity.
    + exfalso. apply lookup_none_not_in in E. apply E. apply in_map. exact Hg.
Qed.

(** X2: an update GET whose route identifier is an ObjectId that no
    document has answers with the 404 error as well; when a document has
    it, the handler renders the form filled from the stored document, the
    book form with all authors and the book instance form with all books
    and the book of the copy selected.  A book whose genre array holds
    nothing but [null] entries makes the book form throw when there is a
    genre to check, and a copy whose book does not resolve makes the book
    instance form throw (the database answering).  A route identifier that
    is no ObjectId fails the read with a cast error, whatever the database
    does, and the response is the error page with status 500. *)
Theorem update_forms_404_for_unknown_id (env : string) (rt : Runtime)
  (req : Request) (s : Store) :
  match castObjectId (params_id req) with
  | None =>
      exists e,
        status e = None
        /\ forall h f,
            In h [author_update_get; genre_update_get; book_update_get;
                  bookinstance_update_get] ->
            hd_error (failed_reads (trace (h rt req) f s)) = Some e
            /\ answers (trace (h rt req) f s) = [next e]
            /\ response env (trace (h rt req) f s)
               = Some (error_page env 500 e)
  | Some id =>
      (let t := trace (author_update_get rt req) no_faults s in
       match lookup Author._id id (authors s) with
       | None =>
           answers t = [next (not_found "Author")]
           /\ response env t = Some (error_page env 404 (not_found "Author"))
       | Some author =>
           answers t =
             [render "author_form"
                [("title", LText "Update Author");
                 ("author", LAuthor (Some author))]]
       end)
      /\ (let t := trace (genre_update_get rt req) no_faults s in
          match lookup Genre._id id (genres s) with
          | None =>
              answers t = [next (not_found "Genre")]
              /\ response env t
                 = Some (error_page env 404 (not_found "Genre"))
          | Some genre =>
              answers t =
                [render "genre_form"
                   [("title", LText "Update Genre");
                    ("genre", LGenre (Some genre))]]
          end)
      /\ (let t := trace (book_update_get rt req) no_faults s in
          match lookup Book._id id (books s) with
          | None =>
              answers t = [next (not_found "Book")]
              /\ response env t = Some (error_page env 404 (not_found "Book"))
          | Some book =>
              match genres s with
              | [] => false
              | _ => only_nulls (Book.genre book)
              end = true
              /\ answers t = [] /\ thrown t <> [] /\ response env t = None
              \/ match genres s with
                 | [] => false
                 | _ => only_nulls (Book.genre book)
                 end = false
                 /\ exists checklist populated,
                     answers t =
                       [render "book_form"
                          [("title", LText "Update Book");
                           ("authors", LAuthors (authors s));
                           ("genres", LChecklist checklist);
                           ("book", LPopulatedBook (Some populated))]]
                     /\ pb_book populated = book
                     /\ map fst checklist = genres s
          end)
      /\ (let t := trace (bookinstance_update_get rt req) no_faults s in
          match lookup BookInstance._id id (bookinstances s) with
          | None =>
              answers t = [next (not_found "Book copy")]
              /\ response env t
                 = Some (error_page env 404 (not_found "Book copy"))
          | Some copy =>
              match
                match BookInstance.book copy with
                | Some book => lookup Book._id book (books s)
                | None => None
                end
              with
              | None =>
                  answers t = [] /\ thrown t <> [] /\ response env t = None
              | Some book =>
                  answers t =
                    [render "bookinstance_form"
                       [("title", LText "Update  BookInstance");
                        ("book_list", LBooks (books s));
                        ("selected_book", LId (Book._id book));
                        ("bookinstance",
                         LPopulatedInstance
                           (Some (mkPopulatedInstance copy (Some book))))]]
              end
          end)
  end.
Proof.
  destruct (castObjectId (params_id req)) as [id|] eqn:Hid.
  - pose proof (param_id_some req Hid) as Hc. cbv zeta.
    split; [|split; [|split]].
    + destruct (lookup Author._id id (authors s)) eqn:Hl;
        unfold author_update_get, finish, trace;
        rewrite Hc; cbn -[lookup]; rewrite Hl; cbn; auto.
    + destruct (lookup Genre._id id (genres s)) eqn:Hl;
        unfold genre_update_get, finish, trace;
        rewrite Hc; cbn -[lookup]; rewrite Hl; cbn; auto.
    + destruct (lookup Book._id id (books s)) as [book|] eqn:Hl;
        unfold book_update_get, find_populated_book, parallel3, finish, trace;
        rewrite Hc; cbn -[lookup mark_current with_author_genre];
        rewrite Hl; cbn -[lookup mark_current with_author_genre];
        rewrite ?filter_all; [|auto].
      pose proof (mark_current_spec (with_author_genre s book) (genres s))
        as Hm.
      destruct (mark_current (with_author_genre s book) (genres s))
        as [checklist|]; cbn -[with_author_genre].
      * right. destruct Hm as (Hok & Hmap & _). split.
        -- destruct (genres s) as [|g r] eqn:Hgs; [reflexivity|].
           destruct (only_nulls (Book.genre book)) eqn:Hn; [|reflexivity].
           exfalso. destruct Hok as [E | Hnn]; [discriminate|].
           apply Hnn. cbn [with_author_genre pb_genre].
           apply resolve_genres_nulls. exact Hn.
        -- exists checklist, (with_author_genre s book).
           split; [reflexivity|]. split; [reflexivity|exact Hmap].
      * left. destruct Hm as [Hne Hnull].
        split; [|repeat split; discriminate].
        destruct (genres s) as [|g r]; [contradiction|].
        destruct (only_nulls (Book.genre book)) eqn:Hn; [reflexivity|].
        exfalso. apply (resolve_genres_docs s _ Hn). exact Hnull.
    + destruct (lookup BookInstance._id id (bookinstances s)) as [copy|]
        eqn:Hl;
        unfold bookinstance_update_get, find_populated_instance, parallel2,
          finish, trace;
        rewrite Hc; cbn -[lookup]; rewrite Hl; cbn -[lookup];
        rewrite ?filter_all; [|auto].
      unfold with_book, resolve.
      destruct (BookInstance.book copy) as [book|]; cbn -[lookup].
      * destruct (lookup Book._id book (books s)); cbn; [reflexivity|].
        repeat split; discriminate.
      * repeat split; discriminate.
  - exists (CastError (params_id req)). split; [reflexivity|].
    intros h f [<- | [<- | [<- | [<- | []]]]]; unfold_controllers;
      unfold trace, param_id, find_populated_book, find_populated_instance;
      rewrite (cast_none Hid); split_run; cbn; repeat split.
Qed.

(** X3: the handler of a GET route never writes: whatever the database
    does, it issues no writing operation and leaves the store as it was. *)
Theorem get_routes_never_write
  (name : string) (handler : Runtime -> Request -> Prog) :
  In (name, handler) get_controllers ->
  forall (rt : Runtime) (req : Request) (f : Faults) (s : Store),
    store_after (handler rt req) f s = s
    /\ writes (trace (handler rt req) f s) = [].
Proof.
  intros Hin rt req f s.
  unfold get_controllers in Hin. simpl in Hin.
  repeat (destruct Hin as [Hin | Hin]; [injection Hin as <- <-|]);
    try contradiction.
  all: unfold_controllers; unfold index, count_tasks.
  all: split_run; cbn; split; reflexivity.
Qed.

(** X4: whatever the database does, a handler answers exactly once or
    throws, never both and never neither; only the four delete GET
    handlers, which redirect without returning, may answer twice, and they
    never throw. *)
Theorem handlers_answer_once
  (name : string) (handler : Runtime -> Request -> Prog) :
  In (name, handler) controllers ->
  forall (rt : Runtime) (req : Request) (f : Faults) (s : Store),
    let t := trace (handler rt req) f s in
    if existsb (String.eqb name) delete_get_names
    then (length (answers t) = 1 \/ length (answers t) = 2) /\ thrown t = []
    else length (answers t) + length (thrown t) = 1.
Proof.
  intros Hin rt req f s.
  unfold controllers in Hin. simpl in Hin.
  repeat (destruct Hin as [Hin | Hin]; [injection Hin as <- <-|]);
    try contradiction.
  all: cbn [existsb delete_get_names]; cbn -[trace].
  all: unfold_controllers; unfold index, count_tasks.
  all: split_run; cbn; auto.
Qed.

(** *** Deleting *)

Lemma store_eta (s : Store) :
  mkStore (authors s) (genres s) (books s) (bookinstances s) = s.
Proof. destruct s. reflexivity. Qed.

(** X5: the book instance delete POST removes unconditionally.  When the
    submitted identifier is an ObjectId, the only answer is the redirect to
    the list, the collection loses the copy with that identifier and
    nothing else, an identifier that is not stored changes nothing, and
    when identifiers are unique the copy no longer resolves (the database
    answering).  When it is no ObjectId the removal is refused with a cast
    error, whatever the database does: nothing is removed and the response
    is the error page with status 500. *)
Theorem bookinstance_delete_post_removes (env : string) (rt : Runtime)
  (req : Request) (s : Store) (submitted : string) :
  req_body req "id" = Some submitted ->
  match castObjectId submitted with
  | None =>
      exists e,
        status e = None
        /\ forall f,
            let t := trace (bookinstance_delete_post rt req) f s in
            failed_writes t = [e]
            /\ answers t = [next e]
            /\ store_after (bookinstance_delete_post rt req) f s = s
            /\ response env t = Some (error_page env 500 e)
  | Some id =>
      let t := trace (bookinstance_delete_post rt req) no_faults s in
      let s' := store_after (bookinstance_delete_post rt req) no_faults s in
      t = [EStore MBookInstance OFindByIdAndRemove None;
           EAnswer (redirect "/catalog/bookinstances")]
      /\ (forall id', id' <> id ->
            lookup BookInstance._id id' (bookinstances s')
            = lookup BookInstance._id id' (bookinstances s))
      /\ (lookup BookInstance._id id (bookinstances s) = None -> s' = s)
      /\ (forall copy,
            lookup BookInstance._id id (bookinstances s) = Some copy ->
            S (length (bookinstances s')) = length (bookinstances s))
      /\ (distinct (map BookInstance._id (bookinstances s)) = true ->
          lookup BookInstance._id id (bookinstances s') = None)
      /\ (authors s', genres s', books s') = (authors s, genres s, books s)
  end.
Proof using castObjectId.
  clear isISO8601 toDate.
  intros Hbody.
  destruct (castObjectId submitted) as [id|] eqn:Hid.
  - intros t s'.
    assert (Hs : s' = mkStore (authors s) (genres s) (books s)
                        (remove_first BookInstance._id id (bookinstances s))).
    { subst s'. unfold bookinstance_delete_post, store_after.
      rewrite Hbody, (cast_some Hid). reflexivity. }
    split.
    { subst t. unfold bookinstance_delete_post, trace.
      rewrite Hbody, (cast_some Hid). reflexivity. }
    rewrite Hs. cbn [authors genres books bookinstances].
    split; [intros id' Hne; apply lookup_remove_first_other; exact Hne|].
    split; [|split; [|split; [|reflexivity]]].
    + intros H. rewrite (remove_first_absent _ _ _ H). apply store_eta.
    + intros copy H. exact (remove_first_present _ _ _ H).
    + apply lookup_remove_first_same.
  - exists (CastError submitted). split; [reflexivity|].
    intros f. unfold bookinstance_delete_post, finish, trace, store_after.
    rewrite Hbody, (cast_none Hid). cbn. repeat split.
Qed.

(** X6: the book instance delete GET: when the route identifier is an
    ObjectId, the response is the redirect to the list exactly when no
    copy has it, and the confirmation page with the copy otherwise (the
    database answering); when it is no ObjectId the read is refused with a
    cast error and the response is the error page with status 500.  The
    store is left as it is in every case. *)
Theorem bookinstance_delete_get_redirects_when_missing (env : string)
  (rt : Runtime) (req : Request) (s : Store) :
  (forall f, store_after (bookinstance_delete_get rt req) f s = s)
  /\ match castObjectId (params_id req) with
     | None =>
         exists e,
           status e = None
           /\ forall f,
               let t := trace (bookinstance_delete_get rt req) f s in
               failed_reads t = [e]
               /\ answers t = [next e]
               /\ response env t = Some (error_page env 500 e)
     | Some id =>
         let t := trace (bookinstance_delete_get rt req) no_faults s in
         match lookup BookInstance._id id (bookinstances s) with
         | None =>
             response env t = Some (Redirection "/catalog/bookinstances")
         | Some copy =>
             exists populated,
               answers t =
                 [render "bookinstance_delete"
                    [("title", LText "Delete BookInstance");
                     ("bookinstance", LPopulatedInstance (Some populated))]]
               /\ response env t =
                  Some (Page 200 "bookinstance_delete"
                    [("title", LText "Delete BookInstance");
                     ("bookinstance", LPopulatedInstance (Some populated))])
               /\ pi_instance populated = copy
               /\ pi_book populated =
                  match BookInstance.book copy with
                  | Some book => lookup Book._id book (books s)
                  | None => None
                  end
         end
     end.
Proof.
  split.
  - intros f. unfold bookinstance_delete_get, find_populated_instance, finish.
    split_run; reflexivity.
  - destruct (castObjectId (params_id req)) as [id|] eqn:Hid.
    + cbv zeta.
      destruct (lookup BookInstance._id id (bookinstances s)) as [copy|]
        eqn:Hl; [eexists|];
        unfold bookinstance_delete_get, find_populated_instance, finish,
          trace;
        rewrite (param_id_some req Hid); cbn -[lookup]; rewrite Hl;
        cbn -[lookup]; [|reflexivity].
      repeat split.
    + exists (CastError (params_id req)). split; [reflexivity|].
      intros f.
      unfold bookinstance_delete_get, find_populated_instance, finish, trace,
        param_id.
      rewrite (cast_none Hid). cbn. repeat split.
Qed.

Lemma filter_nil_iff (D : Type) (p : D -> bool) (l : list D) :
  filter p l = [] <-> forall d, In d l -> p d = false.
Proof.
  split.
  - intros Hf d Hin. destruct (p d) eqn:E; [|reflexivity].
    assert (H : In d (filter p l)) by (apply filter_In; split; assumption).
    rewrite Hf in H. contradiction.
  - intros H. induction l as [|x r IH]; [reflexivity|]. cbn.
    rewrite (H x) by (left; reflexivity). apply IH.
    intros d Hin. apply H. right. exact Hin.
Qed.

Lemma refers_false (id : Id) (r : option Id) :
  refers id r = false <-> r <> Some id.
Proof.
  rewrite <- refers_true. destruct (refers id r); split; congruence.
Qed.

(** X7: the author and the book delete POST decide by the dependents of
    the submitted identifier alone.  While a book has the author (a copy
    has the book) the store is left as it is and the confirmation page is
    rendered with the dependents; when none has, the document with that
    identifier is removed (if there is none, nothing changes), every other
    identifier resolves as before, and the answer is the redirect to the
    list; with unique identifiers the target no longer resolves (the
    database answering, the submitted identifier being an ObjectId).  A
    submitted identifier that is no ObjectId fails the reads with a cast
    error: nothing is removed, whatever the database does, and the
    response is the error page with status 500. *)
Theorem delete_post_decides_by_dependents (env : string) (rt : Runtime)
  (req : Request) (s : Store) :
  (forall submitted,
      req_body req "authorid" = Some submitted ->
      match castObjectId submitted with
      | None =>
          exists e,
            status e = None
            /\ forall f,
                let t := trace (author_delete_post rt req) f s in
                failed_reads t = [e; e]
                /\ answers t = [next e]
                /\ store_after (author_delete_post rt req) f s = s
                /\ response env t = Some (error_page env 500 e)
      | Some id =>
          let t := trace (author_delete_post rt req) no_faults s in
          let s' := store_after (author_delete_post rt req) no_faults s in
          ((exists b, In b (books s) /\ Book.author b = Some id) ->
           s' = s
           /\ exists author_books,
               answers t =
                 [render "author_delete"
                    [("title", LText "Delete Author");
                     ("author", LAuthor (lookup Author._id id (authors s)));
                     ("author_books", LBooks author_books)]]
               /\ forall b, In b author_books <->
                            In b (books s) /\ Book.author b = Some id)
          /\ ((forall b, In b (books s) -> Book.author b <> Some id) ->
              answers t = [redirect "/catalog/authors"]
              /\ writes t = [(MAuthor, OFindByIdAndRemove)]
              /\ (forall id', id' <> id ->
                    lookup Author._id id' (authors s')
                    = lookup Author._id id' (authors s))
              /\ (lookup Author._id id (authors s) = None -> s' = s)
              /\ (forall author,
                    lookup Author._id id (authors s) = Some author ->
                    S (length (authors s')) = length (authors s))
              /\ (distinct (map Author._id (authors s)) = true ->
                  lookup Author._id id (authors s') = None)
              /\ (genres s', books s', bookinstances s')
                 = (genres s, books s, bookinstances s))
      end)
  /\ (forall submitted,
        req_body req "id" = Some submitted ->
        match castObjectId submitted with
        | None =>
            exists e,
              status e = None
              /\ forall f,
                  let t := trace (book_delete_post rt req) f s in
                  failed_reads t = [e; e]
                  /\ answers t = [next e]
                  /\ store_after (book_delete_post rt req) f s = s
                  /\ response env t = Some (error_page env 500 e)
        | Some id =>
            let t := trace (book_delete_post rt req) no_faults s in
            let s' := store_after (book_delete_post rt req) no_faults s in
            ((exists i, In i (bookinstances s)
                        /\ BookInstance.book i = Some id) ->
             s' = s
             /\ exists book book_instances,
                 answers t =
                   [render "book_delete"
                      [("title", LText "Delete Book");
                       ("book", LPopulatedBook book);
                       ("book_instances", LInstances book_instances)]]
                 /\ option_map pb_book book = lookup Book._id id (books s)
                 /\ forall i, In i book_instances <->
                              In i (bookinstances s)
                              /\ BookInstance.book i = Some id)
            /\ ((forall i, In i (bookinstances s) ->
                           BookInstance.book i <> Some id) ->
                answers t = [redirect "/catalog/books"]
                /\ writes t = [(MBook, OFindByIdAndRemove)]
                /\ (forall id', id' <> id ->
                      lookup Book._id id' (books s')
                      = lookup Book._id id' (books s))
                /\ (lookup Book._id id (books s) = None -> s' = s)
                /\ (forall book,
                      lookup Book._id id (books s) = Some book ->
                      S (length (books s')) = length (books s))
                /\ (distinct (map Book._id (books s)) = true ->
                    lookup Book._id id (books s') = None)
                /\ (authors s', genres s', bookinstances s')
                   = (authors s, genres s, bookinstances s))
        end).
Proof using castObjectId.
  clear isISO8601 toDate.
  split.
  - intros submitted Hbody.
    destruct (castObjectId submitted) as [id|] eqn:Hid.
    + cbv zeta. split.
      * intros [b0 [Hin0 Ha0]].
        assert (Hdep : In b0
                  (filter (fun x => refers id (Book.author x)) (books s)))
          by (apply filter_refers; auto).
        unfold author_delete_post, parallel2, finish, trace, store_after.
        rewrite Hbody, (cast_some Hid). cbn -[lookup].
        destruct (filter _ (books s)) as [|b1 more] eqn:Hf; [contradiction|].
        cbn -[lookup]. split; [reflexivity|]. eexists.
        split; [reflexivity|]. intros b. rewrite <- Hf. apply filter_refers.
      * intros Hnone.
        assert (Hf : filter (fun x => refers id (Book.author x)) (books s)
                     = []).
        { apply filter_nil_iff. intros b Hin. apply refers_false.
          apply Hnone. exact Hin. }
        unfold author_delete_post, parallel2, finish, trace, store_after.
        rewrite Hbody, (cast_some Hid). cbn -[lookup remove_first].
        rewrite Hf. cbn -[lookup remove_first].
        split; [reflexivity|]. split; [reflexivity|].
        split; [intros id' Hne; apply lookup_remove_first_other; exact Hne|].
        split; [|split; [|split; [|reflexivity]]].
        -- intros H. rewrite (remove_first_absent _ _ _ H). apply store_eta.
        -- intros author H. exact (remove_first_present _ _ _ H).
        -- apply lookup_remove_first_same.
    + exists (CastError submitted). split; [reflexivity|].
      intros f. unfold author_delete_post, parallel2, finish, trace,
        store_after.
      rewrite Hbody, (cast_none Hid). cbn. repeat split.
  - intros submitted Hbody.
    destruct (castObjectId submitted) as [id|] eqn:Hid.
    + cbv zeta. split.
      * intros [i0 [Hin0 Hb0]].
        assert (Hdep : In i0
                  (filter (fun x => refers id (BookInstance.book x))
                     (bookinstances s)))
          by (apply (filter_refers BookInstance.book); auto).
        unfold book_delete_post, find_populated_book, parallel2, finish,
          trace, store_after.
        rewrite Hbody, (cast_some Hid). cbn -[lookup].
        destruct (filter _ (bookinstances s)) as [|i1 more] eqn:Hf;
          [contradiction|].
        cbn -[lookup]. split; [reflexivity|]. do 2 eexists.
        split; [reflexivity|]. split.
        -- destruct (lookup Book._id id (books s)); reflexivity.
        -- intros i. rewrite <- Hf.
           apply (filter_refers BookInstance.book).
      * intros Hnone.
        assert (Hf : filter (fun x => refers id (BookInstance.book x))
                       (bookinstances s) = []).
        { apply filter_nil_iff. intros i Hin. apply refers_false.
          apply Hnone. exact Hin. }
        unfold book_delete_post, find_populated_book, parallel2, finish,
          trace, store_after.
        rewrite Hbody, (cast_some Hid). cbn -[lookup remove_first].
        rewrite Hf. cbn -[lookup remove_first].
        split; [reflexivity|]. split; [reflexivity|].
        split; [intros id' Hne; apply lookup_remove_first_other; exact Hne|].
        split; [|split; [|split; [|reflexivity]]].
        -- intros H. rewrite (remove_first_absent _ _ _ H). apply store_eta.
        -- intros book H. exact (remove_first_present _ _ _ H).
        -- apply lookup_remove_first_same.
    + exists (CastError submitted). split; [reflexivity|].
      intros f. unfold book_delete_post, find_populated_book, parallel2,
        finish, trace, store_after.
      rewrite Hbody, (cast_none Hid). cbn. repeat split.
Qed.

(** X8: when the body of a genre delete POST names the genre of the URL,
    as the confirmation form submits it, the guard holds for genres too:
    while a book is in the genre the store is left as it is and the
    confirmation page is rendered with those books; when none is, the genre
    is removed, no book refers to it, and the answer is the redirect to the
    list (the database answering, the identifier being an ObjectId).  An
    identifier that is no ObjectId fails the reads with a cast error:
    nothing is removed and the response is the error page with status
    500. *)
Theorem genre_delete_post_same_id (env : string) (rt : Runtime)
  (req : Request) (s : Store) :
  req_body req "id" = Some (params_id req) ->
  match castObjectId (params_id req) with
  | None =>
      exists e,
        status e = None
        /\ forall f,
            let t := trace (genre_delete_post rt req) f s in
            failed_reads t = [e; e]
            /\ answers t = [next e]
            /\ store_after (genre_delete_post rt req) f s = s
            /\ response env t = Some (error_page env 500 e)
  | Some id =>
      let t := trace (genre_delete_post rt req) no_faults s in
      let s' := store_after (genre_delete_post rt req) no_faults s in
      ((exists b, In b (books s) /\ In (Some id) (Book.genre b)) ->
       s' = s
       /\ exists genre_books,
           answers t =
             [render "genre_delete"
                [("title", LText "Delete Genre");
                 ("genre", LGenre (lookup Genre._id id (genres s)));
                 ("genre_books", LBooks genre_books)]]
           /\ forall b, In b genre_books <->
                        In b (books s) /\ In (Some id) (Book.genre b))
      /\ ((forall b, In b (books s) -> ~ In (Some id) (Book.genre b)) ->
          answers t = [redirect "/catalog/genres"]
          /\ writes t = [(MGenre, OFindByIdAndRemove)]
          /\ (forall id', id' <> id ->
                lookup Genre._id id' (genres s')
                = lookup Genre._id id' (genres s))
          /\ (forall genre,
                lookup Genre._id id (genres s) = Some genre ->
                S (length (genres s')) = length (genres s))
          /\ (distinct (map Genre._id (genres s)) = true ->
              lookup Genre._id id (genres s') = None)
          /\ (forall b, In b (books s') -> ~ In (Some id) (Book.genre b))
          /\ (authors s', books s', bookinstances s')
             = (authors s, books s, bookinstances s))
  end.
Proof using castObjectId.
  clear isISO8601 toDate.
  intros Hbody.
  destruct (castObjectId (params_id req)) as [id|] eqn:Hid.
  - cbv zeta. split.
    + intros [b0 [Hin0 Hg0]].
      assert (Hdep : In b0
                (filter (fun x => existsb (refers id) (Book.genre x))
                   (books s)))
        by (apply filter_refers_any; auto).
      unfold genre_delete_post, parallel2, finish, trace, store_after.
      rewrite Hbody, (param_id_some req Hid), (cast_some Hid).
      cbn -[lookup].
      destruct (filter _ (books s)) as [|b1 more] eqn:Hf; [contradiction|].
      cbn -[lookup]. split; [reflexivity|]. eexists.
      split; [reflexivity|]. intros b. rewrite <- Hf.
      apply filter_refers_any.
    + intros Hnone.
      assert (Hf : filter (fun x => existsb (refers id) (Book.genre x))
                     (books s) = []).
      { apply filter_nil_iff. intros b Hin.
        destruct (existsb (refers id) (Book.genre b)) eqn:E; [|reflexivity].
        exfalso. apply (Hnone b Hin).
        apply (filter_refers_any id (books s) b). apply filter_In. auto. }
      unfold genre_delete_post, parallel2, finish, trace, store_after.
      rewrite Hbody, (param_id_some req Hid), (cast_some Hid).
      cbn -[lookup remove_first]. rewrite Hf. cbn -[lookup remove_first].
      split; [reflexivity|]. split; [reflexivity|].
      split; [intros id' Hne; apply lookup_remove_first_other; exact Hne|].
      split; [|split; [|split; [|reflexivity]]].
      * intros genre H. exact (remove_first_present _ _ _ H).
      * apply lookup_remove_first_same.
      * exact Hnone.
  - exists (CastError (params_id req)). split; [reflexivity|].
    intros f.
    unfold genre_delete_post, parallel2, finish, trace, store_after, param_id.
    rewrite Hbody, (cast_none Hid). cbn. repeat split.
Qed.

(** What the three delete POSTs can do to the store, whatever the
    database does. *)
Lemma author_delete_post_store (rt : Runtime) (req : Request) (f : Faults)
  (s : Store) :
  let s' := store_after (author_delete_post rt req) f s in
  s' = s
  \/ exists id,
      (forall b, In b (books s) -> Book.author b <> Some id)
      /\ s' = mkStore (remove_first Author._id id (authors s)) (genres s)
                (books s) (bookinstances s).
Proof.
  intros s'. subst s'.
  unfold author_delete_post, parallel2, finish, store_after.
  destruct (cast (req_body req "authorid")) as [|id|value];
    cbn -[lookup remove_first].
  - destruct (f 0); destruct (f 1); cbn -[lookup remove_first]; auto.
    destruct (filter _ (books s)); cbn -[lookup remove_first]; auto.
    destruct (f 2); cbn -[lookup remove_first]; auto.
  - destruct (f 0); destruct (f 1); cbn -[lookup remove_first]; auto.
    destruct (filter _ (books s)) eqn:Hf; cbn -[lookup remove_first]; auto.
    destruct (f 2); cbn -[lookup remove_first]; auto.
    right. exists id. split; [|reflexivity].
    intros b Hin. apply refers_false.
    exact (proj1 (filter_nil_iff _ _) Hf b Hin).
  - auto.
Qed.

Lemma book_delete_post_store (rt : Runtime) (req : Request) (f : Faults)
  (s : Store) :
  let s' := store_after (book_delete_post rt req) f s in
  s' = s
  \/ exists id,
      (forall i, In i (bookinstances s) -> BookInstance.book i <> Some id)
      /\ s' = mkStore (authors s) (genres s)
                (remove_first Book._id id (books s)) (bookinstances s).
Proof.
  intros s'. subst s'.
  unfold book_delete_post, find_populated_book, parallel2, finish,
    store_after.
  destruct (cast (req_body req "id")) as [|id|value];
    cbn -[lookup remove_first].
  - destruct (f 0); destruct (f 1); cbn -[lookup remove_first]; auto.
    destruct (filter _ (bookinstances s)); cbn -[lookup remove_first]; auto.
    destruct (f 2); cbn -[lookup remove_first]; auto.
  - destruct (f 0); destruct (f 1); cbn -[lookup remove_first]; auto.
    destruct (filter _ (bookinstances s)) eqn:Hf;
      cbn -[lookup remove_first]; auto.
    destruct (f 2); cbn -[lookup remove_first]; auto.
    right. exists id. split; [|reflexivity].
    intros i Hin. apply refers_false.
    exact (proj1 (filter_nil_iff _ _) Hf i Hin).
  - auto.
Qed.

Lemma bookinstance_delete_post_store (rt : Runtime) (req : Request)
  (f : Faults) (s : Store) :
  let s' := store_after (bookinstance_delete_post rt req) f s in
  s' = s
  \/ exists id,
      s' = mkStore (authors s) (genres s) (books s)
             (remove_first BookInstance._id id (bookinstances s)).
Proof.
  intros s'. subst s'.
  unfold bookinstance_delete_post, finish, store_after.
  destruct (cast (req_body req "id")) as [|id|value];
    cbn -[lookup remove_first]; auto.
  - destruct (f 0); cbn -[lookup remove_first]; auto.
  - destruct (f 0); cbn -[lookup remove_first]; eauto.
Qed.

Lemma forallb_incl (D : Type) (p : D -> bool) (l l' : list D) :
  (forall d, In d l' -> In d l) -> forallb p l = true -> forallb p l' = true.
Proof.
  intros Hincl H. apply forallb_forall. intros d Hin.
  rewrite forallb_forall in H. apply H. apply Hincl. exact Hin.
Qed.

Lemma resolve_remove_first_other (D : Type) (key : D -> Id) (id : Id)
  (l : list D) (r : option Id) :
  r <> Some id ->
  resolve key (remove_first key id l) r = resolve key l r.
Proof.
  destruct r as [x|]; [|reflexivity]. intros Hne. cbn [resolve].
  apply lookup_remove_first_other. congruence.
Qed.

(** X9: the three guarded or unconditional delete POSTs of authors, books
    and book instances keep references whole: when every book's author and
    every copy's book resolve before the request, they still do after it,
    whatever the request and whatever the database does. *)
Theorem delete_posts_keep_references (rt : Runtime) (req : Request)
  (f : Faults) (s : Store) :
  references_resolve s = true ->
  references_resolve (store_after (author_delete_post rt req) f s) = true
  /\ references_resolve (store_after (book_delete_post rt req) f s) = true
  /\ references_resolve (store_after (bookinstance_delete_post rt req) f s)
     = true.
Proof using castObjectId.
  clear isISO8601 toDate.
  unfold references_resolve. intros H. apply andb_true_iff in H.
  destruct H as [Ha Hb].
  split; [|split].
  - destruct (author_delete_post_store rt req f s) as [-> | [id [Hf ->]]].
    + rewrite Ha, Hb. reflexivity.
    + apply andb_true_iff. split; [|exact Hb].
      unfold authors_resolve in *. cbn [books authors].
      apply forallb_forall. intros b Hin.
      rewrite forallb_forall in Ha. specialize (Ha b Hin).
      rewrite resolve_remove_first_other; [exact Ha|].
      apply Hf. exact Hin.
  - destruct (book_delete_post_store rt req f s) as [-> | [id [Hf ->]]].
    + rewrite Ha, Hb. reflexivity.
    + apply andb_true_iff. split.
      * unfold authors_resolve in *. cbn [books authors].
        revert Ha. apply forallb_incl. intros b. apply remove_first_incl.
      * unfold books_resolve in *. cbn [books bookinstances].
        apply forallb_forall. intros i Hin.
        rewrite forallb_forall in Hb. specialize (Hb i Hin).
        rewrite resolve_remove_first_other; [exact Hb|].
        apply Hf. exact Hin.
  - destruct (bookinstance_delete_post_store rt req f s) as [-> | [id ->]].
    + rewrite Ha, Hb. reflexivity.
    + apply andb_true_iff. split; [exact Ha|].
      unfold books_resolve in *. cbn [books bookinstances].
      revert Hb. apply forallb_incl. intros i. apply remove_first_incl.
Qed.

(** *** Genres *)

Lemma genre_create_post_store (rt : Runtime) (req : Request) (f : Faults)
  (s : Store) :
  let name := fst (genre_create_chain req) in
  let s' := store_after (genre_create_post rt req) f s in
  s' = s
  \/ (List.find (fun g => Genre.name g =? name) (genres s) = None
      /\ s' = mkStore (authors s)
                (genres s ++ [Genre.make (new_id rt) name])
                (books s) (bookinstances s)).
Proof.
  intros name s'. subst s' name.
  unfold genre_create_post, finish, store_after.
  destruct (genre_create_chain req) as [name errors]. cbn [fst].
  destruct (isEmpty errors); cbn -[lookup String.eqb Genre.valid]; auto.
  destruct (f 0); cbn -[lookup String.eqb Genre.valid]; auto.
  destruct (find _ (genres s)) eqn:Hfind;
    cbn -[lookup String.eqb Genre.valid]; auto.
  destruct (Genre.valid _); cbn -[lookup String.eqb]; auto.
  destruct (f 1); cbn -[lookup String.eqb]; auto.
  destruct (lookup _ _ _); cbn -[lookup String.eqb]; auto.
Qed.

Lemma NoDup_snoc (A : Type) (l : list A) (x : A) :
  NoDup l -> ~ In x l -> NoDup (l ++ [x]).
Proof.
  induction l as [|a r IH]; simpl; intros Hd Hx.
  - constructor; [tauto|constructor].
  - apply NoDup_cons_iff in Hd. destruct Hd as [Ha Hr].
    constructor.
    + rewrite in_app_iff. simpl. intuition congruence.
    + apply IH; tauto.
Qed.

Lemma NoDup_map_injective (A B : Type) (g : A -> B) (l : list A) (a b : A) :
  NoDup (map g l) -> In a l -> In b l -> g a = g b -> a = b.
Proof.
  induction l as [|x r IH]; simpl; [tauto|].
  intros Hd Ha Hb E. apply NoDup_cons_iff in Hd. destruct Hd as [Hx Hr].
  destruct Ha as [-> | Ha]; destruct Hb as [-> | Hb]; auto.
  - exfalso. apply Hx. rewrite E. apply in_map. exact Hb.
  - exfalso. apply Hx. rewrite <- E. apply in_map. exact Ha.
Qed.

Lemma replace_first_in (D : Type) (key : D -> Id) (id : Id) (d' old : D)
  (l : list D) :
  lookup key id l = Some old -> In d' (replace_first key id d' l).
Proof.
  unfold lookup. induction l as [|x r IH]; simpl; [discriminate|].
  destruct (has_id key id x); [left; reflexivity|].
  intros H. right. apply IH. exact H.
Qed.

Lemma replace_first_keeps (D : Type) (key : D -> Id) (id : Id) (d' d : D)
  (l : list D) :
  In d l -> key d <> id -> In d (replace_first key id d' l).
Proof using.
  clear isISO8601 toDate castObjectId.
  induction l as [|x r IH]; simpl; [tauto|].
  intros [E | Hin] Hne.
  - subst x. apply has_id_false in Hne. rewrite Hne. left. reflexivity.
  - destruct (has_id key id x); right; [exact Hin|]. apply IH; assumption.
Qed.

(** X10: the genre create POST keeps genre names distinct: if no two
    stored genres have the same name before the request, none do after
    it, whatever the request and whatever the database does. *)
Theorem genre_create_post_keeps_names_distinct (rt : Runtime)
  (req : Request) (f : Faults) (s : Store) :
  distinct_genre_names s = true ->
  distinct_genre_names (store_after (genre_create_post rt req) f s) = true.
Proof.
  unfold distinct_genre_names. intros Hd.
  destruct (genre_create_post_store rt req f s) as [-> | [Hfind ->]];
    [exact Hd|].
  cbn [genres]. rewrite map_app. cbn [map Genre.name].
  apply distinct_NoDup. apply distinct_NoDup in Hd.
  apply NoDup_snoc; [exact Hd|].
  intros Hin. apply in_map_iff in Hin. destruct Hin as [g [Hn Hg]].
  apply (find_none _ _ Hfind) in Hg.
  apply String.eqb_neq in Hg. contradiction.
Qed.

(** X11: the genre update POST makes no such check.  Its only store
    operation is the update, and renaming a stored genre to the name of
    another stored genre succeeds: afterwards two genres have that name
    (the database answering, the route identifier being that of the stored
    genre). *)
Theorem genre_update_post_can_duplicate_names (rt : Runtime) (req : Request)
  (s : Store) (id : Id) (old other : Genre.t) :
  3 <= String.length (Str.trim (toString (req_body req "name"))) ->
  castObjectId (params_id req) = Some id ->
  lookup Genre._id id (genres s) = Some old ->
  In other (genres s) ->
  Genre._id other <> id ->
  Genre.name other = fst (genre_update_chain req) ->
  let s' := store_after (genre_update_post rt req) no_faults s in
  let renamed := Genre.make id (Genre.name other) in
  trace (genre_update_post rt req) no_faults s =
    [EStore MGenre OFindByIdAndUpdate None;
     EAnswer (redirect (Genre.url old))]
  /\ lookup Genre._id id (genres s') = Some renamed
  /\ In other (genres s')
  /\ distinct_genre_names s' = false.
Proof using castObjectId.
  clear isISO8601 toDate.
  intros Hlen Hid Hold Hin Hne Hname s' renamed.
  destruct (@findByIdAndUpdate_stored _ Genres id renamed old s eq_refl Hold)
    as [Hq Hr].
  assert (Hrun :
    run (genre_update_post rt req) no_faults 0 s =
    ([EStore MGenre OFindByIdAndUpdate None;
      EAnswer (redirect (Genre.url old))],
     mkStore (authors s)
       (replace_first Genre._id id renamed (genres s))
       (books s) (bookinstances s))).
  { unfold genre_update_post.
    rewrite (route_id_some rt req Hid), (param_id_some req Hid).
    subst renamed. rewrite Hname in *.
    rewrite genre_update_chain_eq in *. cbn zeta in *.
    apply Nat.leb_le in Hlen. rewrite Hlen in *. cbn [fst] in *.
    cbn [isEmpty negb run]. rewrite Hq. cbn [no_faults]. rewrite Hr.
    reflexivity. }
  subst s'. unfold trace, store_after. rewrite Hrun. cbn [fst snd genres].
  assert (H1 : lookup Genre._id id
                 (replace_first Genre._id id renamed (genres s))
               = Some renamed)
    by (apply lookup_replace_first with (old := old); [reflexivity|exact Hold]).
  assert (H2 : In other (replace_first Genre._id id renamed (genres s)))
    by (apply replace_first_keeps; assumption).
  split; [reflexivity|]. split; [exact H1|]. split; [exact H2|].
  unfold distinct_genre_names. cbn [genres].
  destruct (distinct _) eqn:Hd; [|reflexivity].
  exfalso. apply distinct_NoDup in Hd.
  assert (Hr' : In renamed (replace_first Genre._id id renamed (genres s)))
    by (apply replace_first_in with (old := old); exact Hold).
  pose proof (NoDup_map_injective _ _ renamed other Hd Hr' H2 eq_refl) as E.
  apply Hne. rewrite <- E. reflexivity.
Qed.

(** *** Sanitized values *)

Lemma app_nil_both (A : Type) (l l' : list A) :
  l ++ l' = [] <-> l = [] /\ l' = [].
Proof.
  split; [apply app_eq_nil|]. intros [-> ->]. reflexivity.
Qed.

Lemma if_nil (A : Type) (b : bool) (x : A) :
  (if b then [] else [x]) = [] <-> b = true.
Proof. destruct b; split; congruence. Qed.

(** [escape] leaves a string of letters and digits as it is, and a string
    it changes is no longer one. *)
Lemma escape_alnum (s : string) :
  Str.all_chars Str.is_alnum (Str.escape s) = true -> Str.escape s = s.
Proof.
  induction s as [|c r IH]; [reflexivity|].
  destruct c as [b0 b1 b2 b3 b4 b5 b6 b7].
  destruct b0, b1, b2, b3, b4, b5, b6, b7; cbn [Str.escape];
    match goal with
    | |- context [Str.escape_char ?c] =>
        let e := eval vm_compute in (Str.escape_char c) in
        change (Str.escape_char c) with e
    end;
    cbn [append Str.all_chars];
    match goal with
    | |- context [Str.is_alnum ?c] =>
        let e := eval vm_compute in (Str.is_alnum c) in
        change (Str.is_alnum c) with e
    end;
    cbn [andb]; intros H; try discriminate H; f_equal; apply IH; exact H.
Qed.

Lemma isAlphanumeric_escape (s : string) :
  Str.isAlphanumeric (Str.escape s) = true ->
  Str.escape s = s /\ s <> "".
Proof.
  intros H.
  assert (Ha : Str.all_chars Str.is_alnum (Str.escape s) = true).
  { unfold Str.isAlphanumeric in H.
    destruct (Str.escape s); [discriminate|exact H]. }
  split; [apply escape_alnum; exact Ha|].
  intros ->. discriminate H.
Qed.

Lemma author_chains_passed (req : Request) :
  snd (author_chains req) = [] ->
  let first := Str.trim (toString (req_body req "first_name")) in
  let family := Str.trim (toString (req_body req "family_name")) in
  ab_first_name (fst (author_chains req)) = first
  /\ ab_family_name (fst (author_chains req)) = family
  /\ Str.isAlphanumeric first = true
  /\ Str.isAlphanumeric family = true.
Proof.
  unfold author_chains. rewrite !name_chain_eq. cbn zeta.
  destruct (body_date "date_of_birth" _ _) as [dob e3].
  destruct (body_date "date_of_death" _ _) as [dod e4].
  cbn [fst snd ab_first_name ab_family_name].
  intros H.
  repeat match goal with
         | H : _ ++ _ = [] |- _ => apply app_nil_both in H; destruct H
         end.
  repeat match goal with
         | H : (if _ then [] else [_]) = [] |- _ => apply if_nil in H
         end.
  repeat match goal with
         | H : Str.isAlphanumeric (Str.escape ?t) = true |- _ =>
             let E := fresh "E" in
             destruct (isAlphanumeric_escape _ H) as [E _];
             rewrite E in *; clear E
         end.
  auto.
Qed.

(** *** Creating *)

(** X12: an author create POST that passes validation with names of at
    most 100 characters stores the author under the identifier drawn for
    it and redirects to its URL.  The stored names are the submitted names
    trimmed, and consist of letters and digits only; the author then
    resolves, and its detail page, asked for that identifier, renders it
    with the books that have it as their author (the database answering,
    the identifier not yet in the collection). *)
Theorem author_create_post_stores_trimmed_names (rt : Runtime)
  (req detail : Request) (s : Store) :
  snd (author_chains req) = [] ->
  String.length (Str.trim (toString (req_body req "first_name"))) <= 100 ->
  String.length (Str.trim (toString (req_body req "family_name"))) <= 100 ->
  lookup Author._id (new_id rt) (authors s) = None ->
  castObjectId (params_id detail) = Some (new_id rt) ->
  let author := new_Author (new_id rt) (fst (author_chains req)) in
  let s' := store_after (author_create_post rt req) no_faults s in
  trace (author_create_post rt req) no_faults s =
    [EStore MAuthor OSave None;
     EAnswer (redirect ("/catalog/author/" ++ new_id rt))]
  /\ s' = mkStore (authors s ++ [author]) (genres s) (books s)
            (bookinstances s)
  /\ Author.first_name author
     = Str.trim (toString (req_body req "first_name"))
  /\ Author.family_name author
     = Str.trim (toString (req_body req "family_name"))
  /\ Str.isAlphanumeric (Author.first_name author) = true
  /\ Str.isAlphanumeric (Author.family_name author) = true
  /\ lookup Author._id (new_id rt) (authors s') = Some author
  /\ answers (trace (author_detail rt detail) no_faults s') =
     [render "author_detail"
        [("title", LText "Author Detail");
         ("author", LAuthor (Some author));
         ("author_books",
          LBooks (filter (fun b => match Book.author b with
                                   | Some a => a =? new_id rt
                                   | None => false
                                   end) (books s)))]].
Proof.
  intros Hes Hl1 Hl2 Hfresh Hid author s'.
  destruct (author_chains_passed req Hes) as (H1 & H2 & Ha1 & Ha2).
  assert (Hvalid : Author.valid author = true).
  { unfold Author.valid, author, new_Author.
    cbn [Author.first_name Author.family_name]. rewrite H1, H2.
    apply Nat.leb_le in Hl1. apply Nat.leb_le in Hl2. rewrite Hl1, Hl2.
    destruct (Str.trim (toString (req_body req "first_name")));
      [discriminate Ha1|].
    destruct (Str.trim (toString (req_body req "family_name")));
      [discriminate Ha2|].
    reflexivity. }
  assert (Hrun :
    run (author_create_post rt req) no_faults 0 s =
    ([EStore MAuthor OSave None;
      EAnswer (redirect ("/catalog/author/" ++ new_id rt))],
     mkStore (authors s ++ [author]) (genres s) (books s) (bookinstances s))).
  { unfold author_create_post. subst author.
    destruct (author_chains req) as [b es]. cbn [snd fst] in *. subst es.
    cbn -[lookup Author.valid new_Author]. rewrite Hvalid.
    cbn -[lookup Author.valid new_Author].
    change (Author._id (new_Author (new_id rt) b)) with (new_id rt).
    rewrite Hfresh. reflexivity. }
  assert (Hlook : lookup Author._id (new_id rt) (authors s ++ [author])
                  = Some author).
  { unfold lookup in *. rewrite find_append, Hfresh. cbn.
    unfold has_id. cbn. rewrite String.eqb_refl. reflexivity. }
  subst s'. unfold store_after, trace at 1. rewrite Hrun. cbn [fst snd].
  split; [reflexivity|]. split; [reflexivity|].
  split; [exact H1|]. split; [exact H2|].
  split; [subst author; cbn; rewrite H1; exact Ha1|].
  split; [subst author; cbn; rewrite H2; exact Ha2|].
  cbn [authors]. split; [exact Hlook|].
  unfold author_detail, parallel2, finish, trace.
  rewrite (param_id_some detail Hid).
  cbn -[lookup]. rewrite Hlook. reflexivity.
Qed.

Lemma isLength_1 (s : string) : Str.isLength 1 s = true <-> s <> "".
Proof.
  unfold Str.isLength. destruct s; simpl; split; congruence.
Qed.

Lemma escape_not_empty (s : string) : s <> "" -> (Str.escape s =? "") = false.
Proof.
  intros H. apply String.eqb_neq. intros E. apply H. apply escape_empty.
  exact E.
Qed.

(** The date chain leaves no error exactly on what [date_accepted]
    accepts. *)
Lemma body_date_ok (field message : string) (r : Raw) :
  snd (body_date field message r) = [] <-> date_accepted r = true.
Proof.
  unfold body_date, date_accepted.
  destruct r as [[|c s]|]; cbn; try tauto.
  destruct (isISO8601 (String c s)); cbn; split; congruence.
Qed.

Lemma book_forms_validation_aux (req : Request) (genre : list (option string)) :
  snd (book_chains req genre) = [] <->
  Str.trim (toString (req_body req "title")) <> ""
  /\ Str.trim (toString (req_body req "author")) <> ""
  /\ Str.trim (toString (req_body req "summary")) <> ""
  /\ Str.trim (toString (req_body req "isbn")) <> "".
Proof.
  rewrite book_chains_eq. cbn zeta. cbn [snd].
  rewrite !app_nil_both, !if_nil, !isLength_1. tauto.
Qed.

Lemma bookinstance_validation_aux (req : Request) :
  snd (bookinstance_chains req) = [] <->
  Str.trim (toString (req_body req "book")) <> ""
  /\ Str.trim (toString (req_body req "imprint")) <> ""
  /\ date_accepted (req_body req "due_back") = true.
Proof.
  rewrite bookinstance_chains_eq. cbn zeta. cbn [snd].
  rewrite !app_nil_both, !if_nil, !isLength_1, body_date_ok. tauto.
Qed.

(** X13: validation of the book form passes exactly when title, author,
    summary and ISBN are not blank, whatever the genre selection is; that
    of the book instance form exactly when book and imprint are not blank
    and the due date is absent, empty or an ISO 8601 date, whatever the
    status is. *)
Theorem book_forms_validation (req : Request) (genre : list (option string)) :
  (snd (book_chains req genre) = [] <->
   Str.trim (toString (req_body req "title")) <> ""
   /\ Str.trim (toString (req_body req "author")) <> ""
   /\ Str.trim (toString (req_body req "summary")) <> ""
   /\ Str.trim (toString (req_body req "isbn")) <> "")
  /\ (snd (bookinstance_chains req) = [] <->
      Str.trim (toString (req_body req "book")) <> ""
      /\ Str.trim (toString (req_body req "imprint")) <> ""
      /\ date_accepted (req_body req "due_back") = true).
Proof.
  split; [apply book_forms_validation_aux|apply bookinstance_validation_aux].
Qed.

(** What [save] does with a valid document whose identifier is new, and
    with a document the validators refuse. *)
Lemma save_valid (D : Type) (C : Collection D) (d : D) (s : Store) :
  c_valid C d = true ->
  lookup (c_key C) (c_key C d) (c_get C s) = None ->
  q_refused (Mongoose.save C d) = None
  /\ q_run (Mongoose.save C d) s = Ok (tt, c_set C (c_get C s ++ [d]) s).
Proof.
  intros Hv Hfresh. unfold Mongoose.save.
  cbn -[lookup]. rewrite Hv, Hfresh. split; reflexivity.
Qed.

Lemma save_invalid (D : Type) (C : Collection D) (d : D) :
  c_valid C d = false ->
  q_refused (Mongoose.save C d)
  = Some (Mongoose.ValidationError (c_model C)).
Proof. intros Hv. unfold Mongoose.save. cbn. rewrite Hv. reflexivity. Qed.

Lemma lookup_appended (D : Type) (key : D -> Id) (l : list D) (d : D) :
  lookup key (key d) l = None -> lookup key (key d) (l ++ [d]) = Some d.
Proof.
  unfold lookup. intros Hfresh. rewrite find_append, Hfresh. cbn.
  unfold has_id. rewrite String.eqb_refl. reflexivity.
Qed.

(** X14: a book create POST that passes validation issues one store
    operation, the save.  When the submitted author and every submitted
    genre are ObjectIds, the book is stored under the identifier drawn for
    it, with the sanitized values, and the response redirects to its URL;
    neither the author nor the genres are looked up, so a book whose author
    is not stored is stored all the same and leaves a reference that does
    not resolve (the database answering, the identifier not yet in the
    collection).  When the author or a genre is no ObjectId the save is
    refused, whatever the database does: nothing is stored and the response
    is the error page with status 500. *)
Theorem book_create_post_checks_no_reference (env : string) (rt : Runtime)
  (req : Request) (s : Store) (genre : list (option string)) :
  genre_to_array (req_genre req) = Ok genre ->
  snd (book_chains req genre) = [] ->
  lookup Book._id (new_id rt) (books s) = None ->
  let entries := map (option_map Str.escape) genre in
  (forall author,
      castObjectId (sanitized (req_body req "author")) = Some author ->
      all_cast entries ->
      let s' := store_after (book_create_post rt req) no_faults s in
      let book :=
        Book.make (new_id rt) (sanitized (req_body req "title")) (Some author)
          (sanitized (req_body req "summary"))
          (sanitized (req_body req "isbn")) (cast_each entries) [] in
      trace (book_create_post rt req) no_faults s =
        [EStore MBook OSave None;
         EAnswer (redirect ("/catalog/book/" ++ new_id rt))]
      /\ books s' = books s ++ [book]
      /\ lookup Book._id (new_id rt) (books s') = Some book
      /\ (authors s', genres s', bookinstances s')
         = (authors s, genres s, bookinstances s)
      /\ (lookup Author._id author (authors s) = None ->
          references_resolve s' = false))
  /\ (castObjectId (sanitized (req_body req "author")) = None
      \/ ~ all_cast entries ->
      exists e,
        status e = None
        /\ forall f,
            let t := trace (book_create_post rt req) f s in
            failed_writes t = [e]
            /\ answers t = [next e]
            /\ store_after (book_create_post rt req) f s = s
            /\ response env t = Some (error_page env 500 e)).
Proof.
  intros Hg Hes Hfresh entries.
  pose proof (proj1 (book_forms_validation_aux req genre) Hes)
    as (Ht & Ha & Hs & Hi).
  pose proof (cast_refs_spec entries) as Hrefs.
  assert (Hb : fst (book_chains req genre) =
               mkBookBody (sanitized (req_body req "title"))
                 (sanitized (req_body req "author"))
                 (sanitized (req_body req "summary"))
                 (sanitized (req_body req "isbn")) entries)
    by (rewrite book_chains_eq; reflexivity).
  unfold book_create_post. rewrite Hg.
  destruct (book_chains req genre) as [b es]. cbn [fst snd] in *.
  subst b es. cbn [isEmpty negb].
  split.
  - intros author Hauthor Hall.
    set (book := Book.make (new_id rt) _ (Some author) _ _ _ []).
    assert (Hbook : new_Book (new_id rt)
                      (mkBookBody (sanitized (req_body req "title"))
                         (sanitized (req_body req "author"))
                         (sanitized (req_body req "summary"))
                         (sanitized (req_body req "isbn")) entries) = book).
    { unfold new_Book. cbn [bb_title bb_author bb_summary bb_isbn bb_genre].
      rewrite Hauthor.
      destruct (cast_refs entries) as [ids|]; [|contradiction].
      destruct Hrefs as [_ ->]. reflexivity. }
    assert (Hvalid : Book.valid book = true).
    { unfold Book.valid, book, sanitized. cbn.
      rewrite !escape_not_empty by assumption. reflexivity. }
    destruct (@save_valid _ Books book s Hvalid Hfresh) as [Hq Hr].
    assert (Hrun :
      run (Exec (Mongoose.save Books book) (fun r =>
             match r with
             | Err err => finish (next err)
             | Ok _ => finish (redirect (Book.url book))
             end)) no_faults 0 s =
      ([EStore MBook OSave None;
        EAnswer (redirect ("/catalog/book/" ++ new_id rt))],
       mkStore (authors s) (genres s) (books s ++ [book]) (bookinstances s))).
    { cbn [run]. rewrite Hq. cbn [no_faults]. rewrite Hr. reflexivity. }
    unfold trace, store_after. rewrite Hbook, Hrun.
    cbn [fst snd authors genres books bookinstances].
    split; [reflexivity|]. split; [reflexivity|].
    split; [apply (@lookup_appended _ Book._id (books s) book); exact Hfresh|].
    split; [reflexivity|].
    intros Hnone. unfold references_resolve, authors_resolve.
    cbn [books authors]. rewrite forallb_app. cbn [forallb].
    cbn [book Book.author resolve]. rewrite Hnone. cbn.
    rewrite !andb_false_r. reflexivity.
  - intros Hbad.
    exists (Mongoose.ValidationError MBook). split; [reflexivity|].
    intros f.
    set (book := new_Book (new_id rt) _).
    assert (Hinvalid : Book.valid book = false).
    { subst book. unfold Book.valid, new_Book.
      cbn [Book.invalidated bb_author bb_genre].
      destruct Hbad as [Hauthor | Hnot].
      - rewrite Hauthor. reflexivity.
      - destruct (cast_refs entries) as [ids|].
        + exfalso. apply Hnot. apply Hrefs.
        + destruct (is_set (castObjectId _)); reflexivity. }
    pose proof (@save_invalid _ Books book Hinvalid) as Hq.
    unfold trace, store_after, finish. cbn [run]. rewrite Hq.
    cbn. repeat split.
Qed.

Lemma bookinstance_chains_passed (rt : Runtime) (id : Id) (req : Request) :
  snd (bookinstance_chains req) = [] ->
  let copy := new_BookInstance rt id (fst (bookinstance_chains req)) in
  copy =
    BookInstance.make id (castObjectId (sanitized (req_body req "book")))
      (sanitized (req_body req "imprint"))
      (Str.escape (toString (req_body req "status")))
      (match date_path (req_body req "due_back") with
       | NoDate => ADate (date_now rt)
       | d => d
       end)
  /\ BookInstance.valid copy
     = is_set (castObjectId (sanitized (req_body req "book")))
       && existsb (String.eqb (Str.escape (toString (req_body req "status"))))
            BookInstance.status_enum.
Proof.
  intros Hes copy.
  pose proof (proj1 (bookinstance_validation_aux req) Hes) as (Hb & Hi & _).
  subst copy. rewrite bookinstance_chains_eq. cbn zeta. cbn [fst].
  unfold new_BookInstance, BookInstance.valid.
  cbn [BookInstance.book BookInstance.imprint BookInstance.status ib_book
       ib_imprint ib_status ib_due_back].
  rewrite body_date_value, cast_date_value.
  rewrite (escape_not_empty Hi). cbn [negb].
  rewrite andb_true_r. split; reflexivity.
Qed.

(** X15: the status of a book instance is checked by the schema only, and
    only on create.  A create POST that passes validation stores the copy
    and redirects to its URL when the submitted book is an ObjectId and the
    sanitized status is one of Available, Maintenance, Loaned, Reserved (the
    database answering, the identifier not yet in the collection);
    otherwise the save is refused, whatever the database does: nothing is
    stored and the response is the error page with status 500.  A copy
    created without a due date is due at the time of the request. *)
Theorem bookinstance_create_post_status (env : string) (rt : Runtime)
  (req : Request) (s : Store) :
  snd (bookinstance_chains req) = [] ->
  lookup BookInstance._id (new_id rt) (bookinstances s) = None ->
  let state := Str.escape (toString (req_body req "status")) in
  let due :=
    match date_path (req_body req "due_back") with
    | NoDate => ADate (date_now rt)
    | d => d
    end in
  (req_body req "due_back" = None -> due = ADate (date_now rt))
  /\ (forall book,
        castObjectId (sanitized (req_body req "book")) = Some book ->
        In state BookInstance.status_enum ->
        let s' := store_after (bookinstance_create_post rt req) no_faults s in
        let copy :=
          BookInstance.make (new_id rt) (Some book)
            (sanitized (req_body req "imprint")) state due in
        trace (bookinstance_create_post rt req) no_faults s =
          [EStore MBookInstance OSave None;
           EAnswer (redirect ("/catalog/bookinstance/" ++ new_id rt))]
        /\ bookinstances s' = bookinstances s ++ [copy]
        /\ lookup BookInstance._id (new_id rt) (bookinstances s') = Some copy
        /\ (authors s', genres s', books s') = (authors s, genres s, books s))
  /\ (castObjectId (sanitized (req_body req "book")) = None
      \/ ~ In state BookInstance.status_enum ->
      exists e,
        status e = None
        /\ forall f,
            let t := trace (bookinstance_create_post rt req) f s in
            failed_writes t = [e]
            /\ answers t = [next e]
            /\ store_after (bookinstance_create_post rt req) f s = s
            /\ response env t = Some (error_page env 500 e)).
Proof.
  intros Hes Hfresh state due.
  split; [intros Hd; subst due; rewrite Hd; reflexivity|].
  destruct (bookinstance_chains_passed rt (new_id rt) req Hes)
    as [Hcopy Hvalid].
  unfold bookinstance_create_post.
  destruct (bookinstance_chains req) as [b es]. cbn [fst snd] in *.
  subst es. cbn [isEmpty negb].
  fold state in Hcopy, Hvalid. fold due in Hcopy.
  split.
  - intros book Hbook Hstatus.
    set (copy := BookInstance.make (new_id rt) (Some book) _ state due).
    apply existsb_eqb_in in Hstatus.
    rewrite Hbook in Hcopy, Hvalid. fold copy in Hcopy.
    rewrite Hcopy in *. rewrite Hstatus in Hvalid.
    destruct (@save_valid _ BookInstances copy s Hvalid Hfresh) as [Hq Hr].
    unfold trace, store_after, finish. cbn [run]. rewrite Hq.
    cbn [no_faults]. rewrite Hr.
    cbn [fst snd authors genres books bookinstances].
    split; [reflexivity|]. split; [reflexivity|].
    split; [apply (@lookup_appended _ BookInstance._id (bookinstances s) copy);
            exact Hfresh|].
    reflexivity.
  - intros Hbad.
    exists (Mongoose.ValidationError MBookInstance). split; [reflexivity|].
    intros f.
    assert (Hinvalid : BookInstance.valid (new_BookInstance rt (new_id rt) b)
                       = false).
    { rewrite Hvalid. destruct Hbad as [-> | Hnot]; [reflexivity|].
      destruct (existsb _ _) eqn:E;
        [contradiction Hnot; apply existsb_eqb_in; exact E|].
      apply andb_false_r. }
    pose proof (@save_invalid _ BookInstances _ Hinvalid) as Hq.
    unfold trace, store_after, finish. cbn [run]. rewrite Hq.
    cbn. repeat split.
Qed.

(** X16: the update POST of a book instance checks no status: with a form
    that passes validation and the route identifier that of a stored copy,
    whatever status is submitted is stored, sanitized, in place of the old
    one, also a status the schema does not allow, which makes the stored
    copy one that [save] would refuse.  The copy keeps its book when the
    submitted book is no ObjectId (the database answering). *)
Theorem bookinstance_update_post_stores_any_status (rt : Runtime)
  (req : Request) (s : Store) (id : Id) (old : BookInstance.t) :
  snd (bookinstance_chains req) = [] ->
  castObjectId (params_id req) = Some id ->
  lookup BookInstance._id id (bookinstances s) = Some old ->
  let s' := store_after (bookinstance_update_post rt req) no_faults s in
  exists copy,
    lookup BookInstance._id id (bookinstances s') = Some copy
    /\ BookInstance.status copy = Str.escape (toString (req_body req "status"))
    /\ (~ In (BookInstance.status copy) BookInstance.status_enum ->
        BookInstance.valid copy = false)
    /\ BookInstance.book copy =
       match castObjectId (sanitized (req_body req "book")) with
       | Some book => Some book
       | None => BookInstance.book old
       end
    /\ (forall id', id' <> id ->
          lookup BookInstance._id id' (bookinstances s')
          = lookup BookInstance._id id' (bookinstances s))
    /\ length (bookinstances s') = length (bookinstances s).
Proof.
  intros Hes Hid Hold s'.
  destruct (bookinstance_chains_passed rt id req Hes) as [Hcopy _].
  set (candidate := new_BookInstance rt id (fst (bookinstance_chains req)))
    in *.
  destruct (@findByIdAndUpdate_stored _ BookInstances id candidate old s
              ltac:(rewrite Hcopy; reflexivity) Hold) as [Hq Hr].
  assert (Hs : s' = mkStore (authors s) (genres s) (books s)
                      (replace_first BookInstance._id id
                         (c_apply BookInstances old candidate)
                         (bookinstances s))).
  { subst s'. unfold bookinstance_update_post, store_after.
    rewrite (route_id_some rt req Hid), (param_id_some req Hid).
    subst candidate.
    destruct (bookinstance_chains req) as [b es]. cbn [snd fst] in *.
    subst es. cbn [isEmpty negb run]. rewrite Hq. cbn [no_faults].
    rewrite Hr. reflexivity. }
  exists (c_apply BookInstances old candidate).
  rewrite Hs. cbn [bookinstances].
  split; [apply lookup_replace_first with (old := old);
          [rewrite Hcopy; reflexivity|exact Hold]|].
  rewrite Hcopy.
  cbn [c_apply BookInstances BookInstance.status BookInstance.book
       BookInstance._id BookInstance.imprint BookInstance.due_back].
  split; [reflexivity|]. split; [|split; [|split]].
  - intros Hnot. unfold BookInstance.valid. cbn [BookInstance.status].
    destruct (existsb _ BookInstance.status_enum) eqn:E.
    + apply existsb_eqb_in in E. contradiction.
    + apply andb_false_r.
  - unfold set_ref.
    destruct (castObjectId (sanitized (req_body req "book"))); reflexivity.
  - intros id' Hne. apply lookup_replace_first_other; [reflexivity|exact Hne].
  - rewrite <- (length_map BookInstance._id), replace_first_keys,
      length_map; reflexivity.
Qed.

(** *** Updating *)

(** X17: an update POST that passes validation for a route identifier
    that is not the identifier of a stored document writes nothing.  When
    the identifier is an ObjectId, the update finds no document, and the
    callback throws when it reads the URL of the [null] it receives: no
    response is sent (the database answering).  When it is no ObjectId the
    update is refused with a cast error, whatever the database does, and
    the response is the error page with status 500. *)
Theorem update_post_unknown_id_throws (env : string) (fm : Form)
  (rt : Runtime) (req : Request) (s : Store) :
  In fm update_forms ->
  validation fm req = Some [] ->
  match castObjectId (params_id req) with
  | Some id =>
      stored fm id s = false ->
      let t := trace (post fm rt req) no_faults s in
      answers t = []
      /\ thrown t = ["TypeError: Cannot read property 'url' of null"]
      /\ writes t = [(match fm with
                      | AuthorUpdate => MAuthor
                      | GenreUpdate => MGenre
                      | BookUpdate => MBook
                      | _ => MBookInstance
                      end, OFindByIdAndUpdate)]
      /\ store_after (post fm rt req) no_faults s = s
      /\ response env t = None
  | None =>
      exists e,
        status e = None
        /\ forall f,
            let t := trace (post fm rt req) f s in
            failed_writes t = [e]
            /\ answers t = [next e]
            /\ thrown t = []
            /\ store_after (post fm rt req) f s = s
            /\ response env t = Some (error_page env 500 e)
  end.
Proof.
  intros Hin Hv.
  destruct (castObjectId (params_id req)) as [id|] eqn:Hid.
  - intros Hstored. unfold stored, resolves in Hstored.
    pose proof (param_id_some req Hid) as Hparam.
    destruct Hin as [<- | [<- | [<- | [<- | []]]]];
      cbn [validation] in Hv; cbn [post];
      try (unfold book_validation in Hv;
           destruct (genre_to_array (req_genre req)) as [?|genre] eqn:Hg;
           cbn in Hv; [discriminate|]);
      injection Hv as Hv;
      unfold author_update_post, genre_update_post, book_update_post,
        bookinstance_update_post, trace, store_after;
      try rewrite Hg;
      rewrite Hparam;
      match goal with
      | H : snd ?c = [] |- _ =>
          destruct c as [b es] eqn:Hc; cbn [snd fst] in *; subst es
      end;
      cbn -[lookup];
      match type of Hstored with
      | context [lookup ?k ?i ?l] =>
          destruct (lookup k i l); [discriminate|]
      end;
      cbn; repeat split.
  - exists (CastError (params_id req)). split; [reflexivity|].
    intros f.
    pose proof (cast_none Hid) as Hparam. fold (param_id req) in Hparam.
    destruct Hin as [<- | [<- | [<- | [<- | []]]]];
      cbn [validation] in Hv; cbn [post];
      try (unfold book_validation in Hv;
           destruct (genre_to_array (req_genre req)) as [?|genre] eqn:Hg;
           cbn in Hv; [discriminate|]);
      injection Hv as Hv;
      unfold author_update_post, genre_update_post, book_update_post,
        bookinstance_update_post, trace, store_after;
      try rewrite Hg;
      rewrite Hparam;
      match goal with
      | H : snd ?c = [] |- _ =>
          destruct c as [b es] eqn:Hc; cbn [snd fst] in *; subst es
      end;
      cbn; repeat split.
Qed.

(** The update form of a stored book. *)
Lemma book_update_get_form (rt : Runtime) (req : Request) (s : Store)
  (id : Id) (book : Book.t) :
  castObjectId (params_id req) = Some id ->
  lookup Book._id id (books s) = Some book ->
  let t := trace (book_update_get rt req) no_faults s in
  (genres s = [] \/ only_nulls (Book.genre book) = false ->
   exists checklist populated,
     answers t =
       [render "book_form"
          [("title", LText "Update Book");
           ("authors", LAuthors (authors s));
           ("genres", LChecklist checklist);
           ("book", LPopulatedBook (Some populated))]]
     /\ pb_book populated = book
     /\ map fst checklist = genres s
     /\ forall g checked,
         In (g, checked) checklist ->
         (checked = true <-> In (Some (Genre._id g)) (Book.genre book)))
  /\ (genres s <> [] ->
      only_nulls (Book.genre book) = true ->
      answers t = []
      /\ thrown t = ["TypeError: Cannot read property '_id' of null"]
      /\ forall env, response env t = None).
Proof using castObjectId.
  clear isISO8601 toDate.
  intros Hid Hl. cbv zeta.
  pose proof (mark_current_spec (with_author_genre s book) (genres s)) as Hm.
  assert (Hrun :
    trace (book_update_get rt req) no_faults s =
    EStore MBook OFindById None :: EStore MAuthor OFind None
    :: EStore MGenre OFind None
    :: match mark_current (with_author_genre s book) (genres s) with
       | None => [EThrow "TypeError: Cannot read property '_id' of null"]
       | Some checklist =>
           [EAnswer (render "book_form"
                       [("title", LText "Update Book");
                        ("authors", LAuthors (authors s));
                        ("genres", LChecklist checklist);
                        ("book",
                         LPopulatedBook (Some (with_author_genre s book)))])]
       end).
  { unfold book_update_get, find_populated_book, parallel3, finish, trace.
    rewrite (param_id_some req Hid).
    cbn -[lookup mark_current with_author_genre]. rewrite Hl.
    cbn -[lookup mark_current with_author_genre]. rewrite !filter_all.
    destruct (mark_current _ _); reflexivity. }
  rewrite Hrun. clear Hrun.
  destruct (mark_current (with_author_genre s book) (genres s))
    as [checklist|].
  - destruct Hm as (Hok & Hmap & Hc). split.
    + intros _. exists checklist, (with_author_genre s book).
      split; [reflexivity|]. split; [reflexivity|]. split; [exact Hmap|].
      intros g checked Hin. rewrite (Hc g checked Hin).
      cbn [with_author_genre pb_genre]. split.
      * intros [bg [Hbg ->]]. apply resolve_genres_in with (s := s).
        exact Hbg.
      * intros Hr.
        assert (Hg : In g (genres s)).
        { rewrite <- Hmap. apply (in_map fst) in Hin. exact Hin. }
        destruct (resolve_genres_found s (Book.genre book) g Hg Hr)
          as [g' [Hg' E]].
        exists g'. split; [exact Hg'|]. symmetry. exact E.
    + intros Hne Hn. exfalso. destruct Hok as [E | Hnn]; [contradiction|].
      apply Hnn. cbn [with_author_genre pb_genre].
      apply resolve_genres_nulls. exact Hn.
  - destruct Hm as [Hne Hnull]. split.
    + intros [E | Hn]; [contradiction|].
      exfalso. apply (resolve_genres_docs s _ Hn). exact Hnull.
    + intros _ _. repeat split.
Qed.

(** X18: the update form of a stored book lists every stored genre once,
    and checks a genre exactly when the book's genre array holds its
    identifier; a book whose genre array holds nothing but [null] entries
    makes the handler throw instead when there is a genre to check, and no
    response is sent (the database answering). *)
Theorem book_update_get_checks_book_genres (rt : Runtime) (req : Request)
  (s : Store) (id : Id) (book : Book.t) :
  castObjectId (params_id req) = Some id ->
  lookup Book._id id (books s) = Some book ->
  let t := trace (book_update_get rt req) no_faults s in
  (genres s = [] \/ only_nulls (Book.genre book) = false ->
   exists checklist populated,
     answers t =
       [render "book_form"
          [("title", LText "Update Book");
           ("authors", LAuthors (authors s));
           ("genres", LChecklist checklist);
           ("book", LPopulatedBook (Some populated))]]
     /\ pb_book populated = book
     /\ map fst checklist = genres s
     /\ forall g checked,
         In (g, checked) checklist ->
         (checked = true <-> In (Some (Genre._id g)) (Book.genre book)))
  /\ (genres s <> [] ->
      only_nulls (Book.genre book) = true ->
      answers t = []
      /\ thrown t = ["TypeError: Cannot read property '_id' of null"]
      /\ forall env, response env t = None).
Proof using castObjectId.
  clear isISO8601 toDate.
  apply book_update_get_form.
Qed.

(** X19: what a successful book update POST stores is what the update
    form then shows: the book resolves to the document with the sanitized
    values, its genre array the ObjectIds submitted (empty when one of the
    entries is no ObjectId), and the form checks exactly the stored genres
    whose identifiers are in that array.  When the array holds nothing but
    [null] entries, as after a genre field submitted as a positive number,
    the form throws instead when there is a genre to check (the database
    answering, the book being stored). *)
Theorem book_update_then_form (rt : Runtime) (req form : Request)
  (s : Store) (genre : list (option string)) (id : Id) (old : Book.t) :
  genre_to_array (req_genre req) = Ok genre ->
  snd (book_chains req genre) = [] ->
  castObjectId (params_id req) = Some id ->
  castObjectId (params_id form) = Some id ->
  lookup Book._id id (books s) = Some old ->
  let entries := map (option_map Str.escape) genre in
  let s' := store_after (book_update_post rt req) no_faults s in
  let t := trace (book_update_get rt form) no_faults s' in
  exists book,
    lookup Book._id id (books s') = Some book
    /\ Book.title book = sanitized (req_body req "title")
    /\ Book.author book =
       match castObjectId (sanitized (req_body req "author")) with
       | Some author => Some author
       | None => Book.author old
       end
    /\ Book.summary book = sanitized (req_body req "summary")
    /\ Book.isbn book = sanitized (req_body req "isbn")
    /\ (all_cast entries -> Book.genre book = cast_each entries)
    /\ (~ all_cast entries -> Book.genre book = [])
    /\ (authors s', genres s') = (authors s, genres s)
    /\ (genres s = [] \/ only_nulls (Book.genre book) = false ->
        exists checklist populated,
          answers t =
            [render "book_form"
               [("title", LText "Update Book");
                ("authors", LAuthors (authors s));
                ("genres", LChecklist checklist);
                ("book", LPopulatedBook (Some populated))]]
          /\ pb_book populated = book
          /\ map fst checklist = genres s
          /\ forall g checked,
              In (g, checked) checklist ->
              (checked = true <-> In (Some (Genre._id g)) (Book.genre book)))
    /\ (genres s <> [] ->
        only_nulls (Book.genre book) = true ->
        answers t = []
        /\ thrown t = ["TypeError: Cannot read property '_id' of null"]
        /\ forall env, response env t = None).
Proof.
  intros Hg Hes Hid Hform Hold entries s' t.
  set (candidate := new_Book id (fst (book_chains req genre))).
  destruct (@findByIdAndUpdate_stored _ Books id candidate old s eq_refl Hold)
    as [Hq Hr].
  assert (Hs : s' = mkStore (authors s) (genres s)
                      (replace_first Book._id id
                         (c_apply Books old candidate) (books s))
                      (bookinstances s)).
  { subst s'. unfold book_update_post, store_after.
    rewrite (route_id_some rt req Hid), (param_id_some req Hid), Hg.
    subst candidate.
    destruct (book_chains req genre) as [b es]. cbn [snd fst] in *. subst es.
    cbn [isEmpty negb run]. rewrite Hq. cbn [no_faults]. rewrite Hr.
    reflexivity. }
  assert (Hlook : lookup Book._id id (books s')
                  = Some (c_apply Books old candidate)).
  { rewrite Hs. cbn [books].
    apply lookup_replace_first with (old := old); [reflexivity|exact Hold]. }
  assert (Ha : authors s' = authors s) by (rewrite Hs; reflexivity).
  assert (Hgs : genres s' = genres s) by (rewrite Hs; reflexivity).
  pose proof (book_update_get_form rt form s' Hform Hlook) as Hget.
  cbv zeta in Hget. fold t in Hget. rewrite Ha, Hgs in Hget.
  clearbody s' t.
  exists (c_apply Books old candidate).
  split; [exact Hlook|].
  pose proof (new_Book_shown id req genre) as Hshown.
  fold candidate in Hshown. unfold book_shown in Hshown.
  cbv zeta in Hshown. fold entries in Hshown.
  destruct Hshown as (Ht & Hau & Hsu & Hi & Hg1 & Hg2).
  cbn [c_apply Books Book._id Book.title Book.author Book.summary
       Book.isbn Book.genre Book.invalidated] in *.
  unfold set_ref in Hget |- *. rewrite Ht, Hau, Hsu, Hi in Hget |- *.
  split; [reflexivity|].
  split; [destruct (castObjectId (sanitized (req_body req "author")));
          reflexivity|].
  split; [reflexivity|]. split; [reflexivity|].
  split; [exact Hg1|]. split; [exact Hg2|].
  split; [rewrite Ha, Hgs; reflexivity|].
  exact Hget.
Qed.

(** *** Lists and counts *)

Lemma ltb_asym (x y : string) : (x <? y) = true -> (y <? x) = false.
Proof.
  unfold String.ltb. rewrite (String.compare_antisym x y).
  destruct (String.compare y x); simpl; congruence.
Qed.

Lemma insert_sorted_perm (D : Type) (path : D -> string) (d : D) (l : list D) :
  Permutation (insert_sorted path d l) (d :: l).
Proof.
  induction l as [|x r IH]; simpl; [reflexivity|].
  destruct (path x <? path d); [|reflexivity].
  rewrite IH. apply perm_swap.
Qed.

Lemma sort_by_perm (D : Type) (path : D -> string) (l : list D) :
  Permutation (sort_by path l) l.
Proof.
  unfold sort_by. induction l as [|x r IH]; simpl; [reflexivity|].
  rewrite insert_sorted_perm. constructor. exact IH.
Qed.

Lemma insert_sorted_ascending (D : Type) (path : D -> string) (d : D)
  (l : list D) :
  ascending (map path l) = true ->
  ascending (map path (insert_sorted path d l)) = true.
Proof.
  induction l as [|a r IH]; [reflexivity|].
  intros Ha. cbn [insert_sorted].
  destruct (path a <? path d) eqn:Had.
  - destruct r as [|b r'].
    + cbn. rewrite (ltb_asym _ _ Had). reflexivity.
    + cbn [map ascending] in Ha. apply andb_true_iff in Ha.
      destruct Ha as [Hab Hr]. specialize (IH Hr).
      cbn [insert_sorted] in *.
      destruct (path b <? path d) eqn:Hbd; cbn [map ascending] in *.
      * rewrite Hab. exact IH.
      * rewrite (ltb_asym _ _ Had). exact IH.
  - cbn [map ascending]. rewrite Had. exact Ha.
Qed.

Lemma sort_by_ascending (D : Type) (path : D -> string) (l : list D) :
  ascending (map path (sort_by path l)) = true.
Proof.
  unfold sort_by. induction l as [|x r IH]; [reflexivity|].
  cbn [fold_right]. apply insert_sorted_ascending. exact IH.
Qed.

(** X20: the three sorted list pages show every document of their
    collection exactly once, in ascending order of the sort path: authors
    by family name, genres by name, books by title, each book with the
    author its reference resolves to (the database answering). *)
Theorem list_pages_sorted_and_complete (rt : Runtime) (req : Request)
  (s : Store) :
  (exists l,
      answers (trace (author_list rt req) no_faults s) =
        [render "author_list"
           [("title", LText "Author List"); ("author_list", LAuthors l)]]
      /\ Permutation l (authors s)
      /\ ascending (map Author.family_name l) = true)
  /\ (exists l,
        answers (trace (genre_list rt req) no_faults s) =
          [render "genre_list"
             [("title", LText "Genre List"); ("list_genres", LGenres l)]]
        /\ Permutation l (genres s)
        /\ ascending (map Genre.name l) = true)
  /\ (exists l,
        answers (trace (book_list rt req) no_faults s) =
          [render "book_list"
             [("title", LText "Book List");
              ("book_list", LBooksWithAuthor (map (with_author s) l))]]
        /\ Permutation l (books s)
        /\ ascending (map Book.title l) = true).
Proof.
  split; [|split].
  - exists (sort_by Author.family_name (authors s)).
    split; [|split; [apply sort_by_perm|apply sort_by_ascending]].
    unfold author_list, finish, trace. cbn -[sort_by]. rewrite filter_all.
    reflexivity.
  - exists (sort_by Genre.name (genres s)).
    split; [|split; [apply sort_by_perm|apply sort_by_ascending]].
    unfold genre_list, finish, trace. cbn -[sort_by]. rewrite filter_all.
    reflexivity.
  - exists (sort_by Book.title (books s)).
    split; [|split; [apply sort_by_perm|apply sort_by_ascending]].
    unfold book_list, finish, trace. cbn -[sort_by with_author].
    rewrite filter_all. reflexivity.
Qed.

Lemma filter_length_le (D : Type) (p : D -> bool) (l : list D) :
  length (filter p l) <= length l.
Proof.
  induction l as [|x r IH]; simpl; [lia|]. destruct (p x); simpl; lia.
Qed.

(** X21: when every count query is answered, the home page shows the five
    counts under their names: the sizes of the four collections and the
    number of copies whose status is Available, which never exceeds the
    number of copies; no error is passed to the template. *)
Theorem index_counts (env : string) (rt : Runtime) (req : Request)
  (s : Store) :
  exists available,
    response env (trace (index rt req) no_faults s) =
      Some (Page 200 "index"
        [("title", LText "Local Library Home");
         ("error", LError None);
         ("data",
          LCounts
            [("book_count", length (books s));
             ("book_instance_count", length (bookinstances s));
             ("book_instance_available_count", available);
             ("author_count", length (authors s));
             ("genre_count", length (genres s))])])
    /\ available
       = length (filter (fun i => BookInstance.status i =? "Available")
                   (bookinstances s))
    /\ available <= length (bookinstances s).
Proof.
  exists (length (filter (fun i => BookInstance.status i =? "Available")
                    (bookinstances s))).
  split; [|split; [reflexivity|apply filter_length_le]].
  unfold index, count_tasks, finish, trace. cbn -[String.eqb].
  rewrite !filter_all. reflexivity.
Qed.

(** *** Compositions *)

Lemma genre_create_post_run (rt : Runtime) (req : Request) (s : Store) :
  1 <= String.length (Str.trim (toString (req_body req "name"))) ->
  lookup Genre._id (new_id rt) (genres s) = None ->
  let name := fst (genre_create_chain req) in
  run (genre_create_post rt req) no_faults 0 s =
  match List.find (fun g => Genre.name g =? name) (genres s) with
  | Some found =>
      ([EStore MGenre OFindOne None; EAnswer (redirect (Genre.url found))], s)
  | None =>
      ([EStore MGenre OFindOne None; EStore MGenre OSave None;
        EAnswer (redirect ("/catalog/genre/" ++ new_id rt))],
       mkStore (authors s) (genres s ++ [Genre.make (new_id rt) name])
         (books s) (bookinstances s))
  end.
Proof.
  intros Hlen Hfresh name. subst name.
  assert (Hne : Str.trim (toString (req_body req "name")) <> "")
    by (intros E; rewrite E in Hlen; simpl in Hlen; lia).
  unfold genre_create_post. rewrite genre_create_chain_eq. cbn zeta.
  apply Nat.leb_le in Hlen. rewrite Hlen. cbn [fst].
  cbn -[String.eqb lookup Genre.valid].
  destruct (find _ (genres s)); cbn -[String.eqb lookup Genre.valid];
    [reflexivity|].
  unfold Genre.valid. cbn [Genre.name]. rewrite (escape_not_empty Hne).
  cbn -[String.eqb lookup]. rewrite Hfresh. reflexivity.
Qed.

(** X22: creating a genre whose name is not yet stored and then submitting
    the same name again: the first POST stores the genre and redirects
    to its URL, its detail page then renders it, and the second POST,
    whatever identifier it would draw, stores nothing and redirects to the
    URL of the first (the database answering, the first identifier not yet
    in the collection). *)
Theorem genre_create_twice (rt rt2 : Runtime) (req req2 detail : Request)
  (s : Store) :
  1 <= String.length (Str.trim (toString (req_body req "name"))) ->
  Str.trim (toString (req_body req2 "name"))
  = Str.trim (toString (req_body req "name")) ->
  List.find (fun g => Genre.name g =? fst (genre_create_chain req)) (genres s)
  = None ->
  lookup Genre._id (new_id rt) (genres s) = None ->
  castObjectId (params_id detail) = Some (new_id rt) ->
  let genre := Genre.make (new_id rt) (fst (genre_create_chain req)) in
  let s1 := store_after (genre_create_post rt req) no_faults s in
  answers (trace (genre_create_post rt req) no_faults s)
  = [redirect ("/catalog/genre/" ++ new_id rt)]
  /\ genres s1 = genres s ++ [genre]
  /\ answers (trace (genre_detail rt detail) no_faults s1) =
     [render "genre_detail"
        [("title", LText "Genre Detail");
         ("genre", LGenre (Some genre));
         ("genre_books",
          LBooks (filter (fun b =>
                            existsb (fun r => match r with
                                              | Some g => g =? new_id rt
                                              | None => false
                                              end) (Book.genre b))
                    (books s)))]]
  /\ answers (trace (genre_create_post rt2 req2) no_faults s1)
     = [redirect ("/catalog/genre/" ++ new_id rt)]
  /\ store_after (genre_create_post rt2 req2) no_faults s1 = s1.
Proof.
  intros Hlen Hsame Hnew Hfresh Hid genre s1.
  pose proof (genre_create_post_run rt req s Hlen Hfresh) as Hrun.
  cbn zeta in Hrun. rewrite Hnew in Hrun. fold genre in Hrun.
  assert (Hs1 : s1 = mkStore (authors s) (genres s ++ [genre]) (books s)
                       (bookinstances s))
    by (subst s1; unfold store_after; rewrite Hrun; reflexivity).
  assert (Hname2 : fst (genre_create_chain req2)
                   = fst (genre_create_chain req))
    by (rewrite !genre_create_chain_eq; cbn; rewrite Hsame; reflexivity).
  assert (Hfound : List.find
                     (fun g => Genre.name g =? fst (genre_create_chain req2))
                     (genres s ++ [genre]) = Some genre).
  { rewrite Hname2, find_append, Hnew. cbn -[String.eqb].
    rewrite String.eqb_refl. reflexivity. }
  assert (Hlook : lookup Genre._id (new_id rt) (genres s ++ [genre])
                  = Some genre).
  { unfold lookup in *. rewrite find_append, Hfresh. cbn -[String.eqb].
    unfold has_id. cbn -[String.eqb]. rewrite String.eqb_refl.
    reflexivity. }
  assert (Hrun2 :
    run (genre_create_post rt2 req2) no_faults 0 s1 =
    ([EStore MGenre OFindOne None;
      EAnswer (redirect ("/catalog/genre/" ++ new_id rt))], s1)).
  { rewrite Hs1 at 1. unfold genre_create_post.
    rewrite genre_create_chain_eq in *. cbn zeta in *. cbn [fst] in *.
    rewrite Hsame in *. apply Nat.leb_le in Hlen. rewrite Hlen.
    cbn -[String.eqb lookup Genre.valid].
    rewrite Hfound. rewrite <- Hs1. reflexivity. }
  split; [unfold trace; rewrite Hrun; reflexivity|].
  split; [rewrite Hs1; reflexivity|].
  split.
  - rewrite Hs1. unfold genre_detail, parallel2, finish, trace.
    rewrite (param_id_some detail Hid). cbn -[lookup]. rewrite Hlook.
    reflexivity.
  - unfold trace, store_after. rewrite Hrun2. split; reflexivity.
Qed.

(** X23: a deleted document is gone for the pages: after the delete POST
    of a book instance, and after the delete POST of an author that no book
    has as its author, the detail page of the submitted identifier answers
    with the 404 error (the database answering, identifiers unique, the
    submitted identifier an ObjectId). *)
Theorem deleted_documents_are_404 (rt : Runtime) (req detail : Request)
  (s : Store) (submitted : string) (id : Id) :
  castObjectId submitted = Some id ->
  castObjectId (params_id detail) = Some id ->
  (req_body req "id" = Some submitted ->
   distinct (map BookInstance._id (bookinstances s)) = true ->
   answers (trace (bookinstance_detail rt detail) no_faults
              (store_after (bookinstance_delete_post rt req) no_faults s))
   = [next (not_found "Book copy")])
  /\ (req_body req "authorid" = Some submitted ->
      distinct (map Author._id (authors s)) = true ->
      (forall b, In b (books s) -> Book.author b <> Some id) ->
      answers (trace (author_detail rt detail) no_faults
                 (store_after (author_delete_post rt req) no_faults s))
      = [next (not_found "Author")]).
Proof using castObjectId.
  clear isISO8601 toDate.
  intros Hsub Hid.
  pose proof (param_id_some detail Hid) as Hparam.
  pose proof (cast_some Hsub) as Hcast.
  split.
  - intros Hbody Hd.
    pose proof (lookup_remove_first_same BookInstance._id id
                  (bookinstances s) Hd) as Hgone.
    unfold bookinstance_delete_post, finish, store_after.
    rewrite Hbody, Hcast. cbn -[lookup remove_first].
    unfold bookinstance_detail, find_populated_instance, finish, trace.
    rewrite Hparam. cbn -[lookup remove_first]. rewrite Hgone. reflexivity.
  - intros Hbody Hd Hfree.
    pose proof (lookup_remove_first_same Author._id id (authors s) Hd)
      as Hgone.
    assert (Hnone : filter (fun b => refers id (Book.author b)) (books s)
                    = []).
    { apply filter_nil_iff. intros b Hin. apply refers_false.
      apply Hfree. exact Hin. }
    unfold author_delete_post, parallel2, finish, store_after.
    rewrite Hbody, Hcast. cbn -[lookup remove_first refers].
    rewrite Hnone. cbn -[lookup remove_first refers].
    unfold author_detail, parallel2, finish, trace. rewrite Hparam.
    cbn -[lookup remove_first refers]. rewrite Hgone. reflexivity.
Qed.

(** *** What the sanitizers guarantee *)

Lemma all_chars_app (p : ascii -> bool) (a b : string) :
  Str.all_chars p (a ++ b) = Str.all_chars p a && Str.all_chars p b.
Proof.
  induction a as [|c r IH]; simpl; [reflexivity|].
  rewrite IH. apply andb_assoc.
Qed.

Lemma escape_markup_free (s : string) : markup_free (Str.escape s) = true.
Proof.
  unfold markup_free. induction s as [|c r IH]; [reflexivity|].
  cbn [Str.escape]. rewrite all_chars_app, IH, andb_true_r.
  destruct c as [b0 b1 b2 b3 b4 b5 b6 b7].
  destruct b0, b1, b2, b3, b4, b5, b6, b7; vm_compute; reflexivity.
Qed.

(** X24: every text value the form handlers take from a request body
    comes out of its chain free of markup characters: the names of an
    author, the name of a genre, the title, author, summary, ISBN and
    every genre entry of a book, and the book, imprint and status of a
    book instance contain no angle bracket, quote, slash, backslash or
    backquote, whatever was submitted. *)
Theorem sanitized_values_are_markup_free (req : Request)
  (genre : list (option string)) :
  (markup_free (ab_first_name (fst (author_chains req))) = true
   /\ markup_free (ab_family_name (fst (author_chains req))) = true)
  /\ (markup_free (fst (genre_create_chain req)) = true
      /\ markup_free (fst (genre_update_chain req)) = true)
  /\ (markup_free (bb_title (fst (book_chains req genre))) = true
      /\ markup_free (bb_author (fst (book_chains req genre))) = true
      /\ markup_free (bb_summary (fst (book_chains req genre))) = true
      /\ markup_free (bb_isbn (fst (book_chains req genre))) = true
      /\ forall g, In (Some g) (bb_genre (fst (book_chains req genre))) ->
                   markup_free g = true)
  /\ (markup_free (ib_book (fst (bookinstance_chains req))) = true
      /\ markup_free (ib_imprint (fst (bookinstance_chains req))) = true
      /\ markup_free (ib_status (fst (bookinstance_chains req))) = true).
Proof.
  split; [|split; [|split]].
  - unfold author_chains. rewrite !name_chain_eq. cbn zeta.
    destruct (body_date "date_of_birth" _ _).
    destruct (body_date "date_of_death" _ _).
    cbn [fst ab_first_name ab_family_name].
    split; apply escape_markup_free.
  - rewrite genre_create_chain_eq, genre_update_chain_eq. cbn zeta.
    cbn [fst]. split; apply escape_markup_free.
  - rewrite book_chains_eq. cbn zeta.
    cbn [fst bb_title bb_author bb_summary bb_isbn bb_genre].
    repeat split; try apply escape_markup_free.
    intros g Hin. apply in_map_iff in Hin. destruct Hin as [x [E _]].
    destruct x as [x|]; [|discriminate]. injection E as <-.
    apply escape_markup_free.
  - rewrite bookinstance_chains_eq. cbn zeta.
    cbn [fst ib_book ib_imprint ib_status].
    repeat split; apply escape_markup_free.
Qed.

(** *** Failed writes, URLs, error lists *)

(** X25: a failed write is forwarded like a failed read: in every handler,
    when a save, update or removal fails (by the database, by the cast of
    its identifier or, for a save, by the schema), the handler's only
    answer is [next] with that error,
    nothing is thrown, the store is left as it was, and the response is
    the error page. *)
Theorem write_failure_reaches_error_handler
  (name : string) (handler : Runtime -> Request -> Prog) :
  In (name, handler) controllers ->
  forall (env : string) (rt : Runtime) (req : Request) (f : Faults)
         (s : Store) (e : Error) (es : list Error),
    failed_writes (trace (handler rt req) f s) = e :: es ->
    es = []
    /\ answers (trace (handler rt req) f s) = [next e]
    /\ thrown (trace (handler rt req) f s) = []
    /\ store_after (handler rt req) f s = s
    /\ response env (trace (handler rt req) f s) = Some (error_handler env e).
Proof.
  intros Hin env rt req f s e es.
  unfold controllers in Hin. simpl in Hin.
  repeat (destruct Hin as [Hin | Hin]; [injection Hin as <- <-|]);
    try contradiction.
  all: unfold_controllers; unfold index, count_tasks.
  all: split_run; cbn; intros H; try discriminate.
  all: injection H as <- <-.
  all: repeat split.
Qed.

(** X26: the URL of a document identifies it: two authors, two books or two
    book instances with the same URL have the same identifier, and no URL
    of one model is a URL of another. *)
Theorem urls_identify_documents :
  (forall a a', Author.url a = Author.url a' -> Author._id a = Author._id a')
  /\ (forall b b', Book.url b = Book.url b' -> Book._id b = Book._id b')
  /\ (forall i i', BookInstance.url i = BookInstance.url i' ->
                   BookInstance._id i = BookInstance._id i')
  /\ (forall a b, Author.url a <> Book.url b)
  /\ (forall a i, Author.url a <> BookInstance.url i)
  /\ (forall b i, Book.url b <> BookInstance.url i).
Proof.
  unfold Author.url, Book.url, BookInstance.url.
  repeat split; intros x y H; cbn in H; congruence.
Qed.

(** X27: a successful genre update POST replaces the genre in place: the
    stored genre with the identifier of the route gets the sanitized name,
    every other identifier resolves as before, the identifiers of the
    collection are unchanged, the response redirects to the URL of that
    identifier, and the update form then shows the new name (the database
    answering, the genre being stored). *)
Theorem genre_update_post_replaces_in_place (rt : Runtime)
  (req form : Request) (s : Store) (id : Id) (old : Genre.t) :
  3 <= String.length (Str.trim (toString (req_body req "name"))) ->
  castObjectId (params_id req) = Some id ->
  castObjectId (params_id form) = Some id ->
  lookup Genre._id id (genres s) = Some old ->
  let genre :=
    Genre.make id (Str.escape (Str.trim (toString (req_body req "name")))) in
  let s' := store_after (genre_update_post rt req) no_faults s in
  trace (genre_update_post rt req) no_faults s =
    [EStore MGenre OFindByIdAndUpdate None;
     EAnswer (redirect ("/catalog/genre/" ++ id))]
  /\ lookup Genre._id id (genres s') = Some genre
  /\ (forall id', id' <> id ->
        lookup Genre._id id' (genres s') = lookup Genre._id id' (genres s))
  /\ map Genre._id (genres s') = map Genre._id (genres s)
  /\ answers (trace (genre_update_get rt form) no_faults s') =
     [render "genre_form"
        [("title", LText "Update Genre"); ("genre", LGenre (Some genre))]].
Proof.
  intros Hlen Hid Hform Hold genre s'.
  pose proof (lookup_key _ _ _ Hold) as Hk.
  destruct (@findByIdAndUpdate_stored _ Genres id genre old s eq_refl Hold)
    as [Hq Hr].
  assert (Hrun :
    run (genre_update_post rt req) no_faults 0 s =
    ([EStore MGenre OFindByIdAndUpdate None;
      EAnswer (redirect ("/catalog/genre/" ++ id))],
     mkStore (authors s) (replace_first Genre._id id genre (genres s))
       (books s) (bookinstances s))).
  { unfold genre_update_post. rewrite genre_update_chain_eq. cbn zeta.
    rewrite (route_id_some rt req Hid), (param_id_some req Hid).
    apply Nat.leb_le in Hlen. rewrite Hlen. fold genre.
    cbn [isEmpty negb run]. rewrite Hq. cbn [no_faults]. rewrite Hr.
    cbn. unfold Genre.url. rewrite Hk. reflexivity. }
  assert (Hlook : lookup Genre._id id
                    (replace_first Genre._id id genre (genres s))
                  = Some genre)
    by (apply lookup_replace_first with (old := old); [reflexivity|exact Hold]).
  subst s'. unfold store_after, trace at 1. rewrite Hrun. cbn [fst snd genres].
  split; [reflexivity|]. split; [exact Hlook|]. split; [|split].
  - intros id' Hne. apply lookup_replace_first_other; [reflexivity|exact Hne].
  - apply replace_first_keys. reflexivity.
  - unfold genre_update_get, finish, trace.
    rewrite (param_id_some form Hform).
    cbn -[lookup replace_first]. rewrite Hlook. reflexivity.
Qed.

(** X28: the errors of the author form come in the order of its fields
    and are bounded per field: at most two tagged [first_name], then at
    most two tagged [family_name], then at most one for each date; a name
    gets both of its errors exactly when it is blank. *)
Theorem author_errors_in_field_order (req : Request) :
  exists n1 n2 n3 n4,
    map param (snd (author_chains req)) =
      repeat "first_name" n1 ++ repeat "family_name" n2
      ++ repeat "date_of_birth" n3 ++ repeat "date_of_death" n4
    /\ n1 <= 2 /\ n2 <= 2 /\ n3 <= 1 /\ n4 <= 1
    /\ (n1 = 2 <-> Str.trim (toString (req_body req "first_name")) = "")
    /\ (n2 = 2 <-> Str.trim (toString (req_body req "family_name")) = "").
Proof.
  unfold author_chains. rewrite !name_chain_eq. cbn zeta.
  set (first := Str.trim (toString (req_body req "first_name"))).
  set (family := Str.trim (toString (req_body req "family_name"))).
  assert (Hblank : forall t,
    (Str.isLength 1 t = false <-> t = "")
    /\ (Str.isLength 1 t = false -> Str.isAlphanumeric (Str.escape t) = false)).
  { intros t. destruct t; cbn; split; try split; congruence. }
  destruct (Hblank first) as [Hf1 Hf2]. destruct (Hblank family) as [Hg1 Hg2].
  unfold body_date.
  exists ((if Str.isLength 1 first then 0 else 1)
          + (if Str.isAlphanumeric (Str.escape first) then 0 else 1)).
  exists ((if Str.isLength 1 family then 0 else 1)
          + (if Str.isAlphanumeric (Str.escape family) then 0 else 1)).
  exists (length (snd (body_date "date_of_birth" "Invalid date of birth"
                         (req_body req "date_of_birth")))).
  exists (length (snd (body_date "date_of_death" "Invalid date of death"
                         (req_body req "date_of_death")))).
  unfold body_date.
  destruct (Str.isLength 1 first) eqn:L1;
    destruct (Str.isAlphanumeric (Str.escape first)) eqn:A1;
    try (specialize (Hf2 eq_refl); discriminate);
    destruct (Str.isLength 1 family) eqn:L2;
    destruct (Str.isAlphanumeric (Str.escape family)) eqn:A2;
    try (specialize (Hg2 eq_refl); discriminate);
    destruct (req_body req "date_of_birth") as [[|c1 d1]|];
    destruct (req_body req "date_of_death") as [[|c2 d2]|];
    try destruct (isISO8601 (String c1 d1));
    try destruct (isISO8601 (String c2 d2));
    cbn;
    (split; [reflexivity|]);
    repeat (split; [lia|]);
    (split; split; intros H; try lia; try discriminate;
     try (apply Hf1 in H; discriminate);
     try (apply Hg1 in H; discriminate);
     try (apply Hf1; reflexivity); try (apply Hg1; reflexivity);
     try (exfalso; apply Hf1 in H; congruence);
     try (exfalso; apply Hg1 in H; congruence)).
Qed.

End LocalLibrary.

(** ** Closed runs *)

(** C1 (the code at the failing input): the genre delete POST checks the
    dependents of the identifier in the URL and removes the identifier in
    the body.  With Fantasy in the URL (no books) and Poetry in the body
    (the genre of The Hobbit), Poetry is removed while The Hobbit still
    refers to it, and Fantasy, whose dependents were checked, stays. *)
Theorem genre_delete_post_removes_referenced_genre :
  let req := delete_fantasy_body_poetry in
  let s' := store_after (genre_delete_post hex24 rt0 req) no_faults library in
  let has_genre (id : Id) (b : Book.t) :=
    existsb (fun r => match r with
                      | Some g => g =? id
                      | None => false
                      end) (Book.genre b) in
  filter (has_genre poetry_id) (books library) = [the_hobbit]
  /\ filter (has_genre fantasy_id) (books library) = []
  /\ trace (genre_delete_post hex24 rt0 req) no_faults library =
     [EStore MGenre OFindById None; EStore MBook OFind None;
      EStore MGenre OFindByIdAndRemove None;
      EAnswer (redirect "/catalog/genres")]
  /\ genres s' = [fantasy]
  /\ lookup Genre._id poetry_id (genres s') = None
  /\ filter (has_genre poetry_id) (books s') = [the_hobbit].
Proof. vm_compute. repeat split. Qed.

(** C3 fails on a route identifier that is no ObjectId: no author has the
    identifier [zz], yet the delete GET of an author at [zz] does not
    redirect to the list: both reads fail with a cast error and the
    response is the error page with status 500. *)
Lemma delete_get_malformed_id_is_error_page :
  let t := trace (author_delete_get hex24 rt0 (detail_of "zz")) no_faults
             library in
  lookup Author._id "zz" (authors library) = None
  /\ (exists e,
         failed_reads t = [e; e]
         /\ answers t = [next e]
         /\ response "production" t = Some (error_page "production" 500 e))
  /\ response "production" t <> Some (Redirection "/catalog/authors").
Proof.
  vm_compute. split; [reflexivity|]. split; [|discriminate].
  eexists. repeat split.
Qed.

(** C5 (the code at the failing input): a create or update POST whose
    validation leaves errors writes nothing, whatever the database does:
    the store is the one it started with and no writing operation is
    issued.  With the reads of the form answered, the response is the form
    again, carrying the sanitized candidate and the errors in their order,
    and an author create POST whose first name is empty once trimmed
    renders the author form with an error tagged [first_name] as its only
    action.  The book instance forms are the exception: when the submitted
    book is no ObjectId, as in a create POST that leaves the book blank,
    the handler throws while it reads [bookinstance.book._id] for the form,
    and no response is sent. *)
Theorem invalid_post_persists_nothing :
  (forall (isISO8601 : string -> bool) (toDate : string -> option Date)
          (castObjectId : string -> option Id) (fm : Form) (rt : Runtime)
          (req : Request) (es : list ValidationError),
      validation isISO8601 toDate fm req = Some es ->
      es <> [] ->
      let h := post isISO8601 toDate castObjectId fm rt req in
      (forall f s, store_after h f s = s /\ writes (trace h f s) = [])
      /\ (forall s env,
            ~ names_no_book castObjectId fm req ->
            exists locals,
              answers (trace h no_faults s) = [render (form_view fm) locals]
              /\ response env (trace h no_faults s)
                 = Some (Page 200 (form_view fm) locals)
              /\ In ("errors", LErrors es) locals
              /\ candidate_shown toDate castObjectId fm rt req locals)
      /\ (forall s env,
            names_no_book castObjectId fm req ->
            answers (trace h no_faults s) = []
            /\ thrown (trace h no_faults s)
               = ["TypeError: Cannot read property '_id' of undefined"]
            /\ response env (trace h no_faults s) = None))
  /\ (forall (isISO8601 : string -> bool) (toDate : string -> option Date)
             (rt : Runtime) (req : Request) (f : Faults) (s : Store),
        Str.trim (toString (req_body req "first_name")) = "" ->
        let h := author_create_post isISO8601 toDate rt req in
        store_after h f s = s
        /\ trace h f s =
           [EAnswer (render "author_form"
              [("title", LText "Create Author");
               ("author", LAuthorBody (fst (author_chains isISO8601 toDate req)));
               ("errors", LErrors (snd (author_chains isISO8601 toDate req)))])]
        /\ exists e, In e (snd (author_chains isISO8601 toDate req))
                     /\ param e = "first_name")
  /\ (let h := bookinstance_create_post ten_characters epoch hex24 rt0
                 bookless_copy_post in
      validation ten_characters epoch BookInstanceCreate bookless_copy_post
      = Some [mkVErr "book" "Book must be specified" ""]
      /\ trace h no_faults library =
         [EStore MBook OFind None;
          EThrow "TypeError: Cannot read property '_id' of undefined"]
      /\ answers (trace h no_faults library) = []
      /\ response "production" (trace h no_faults library) = None
      /\ store_after h no_faults library = library).
Proof.
  split; [|split].
  - intros isISO8601 toDate castObjectId fm rt req es Hv Hes h.
    split; [|split].
    + intros f s. subst h.
      exact (@invalid_post_writes_nothing isISO8601 toDate castObjectId fm rt
               req es f s Hv Hes).
    + intros s env Hn. subst h.
      exact (proj2 (@invalid_post_rerenders isISO8601 toDate castObjectId fm
                      rt req es s env Hv Hes) Hn).
    + intros s env Hn. subst h.
      exact (proj1 (@invalid_post_rerenders isISO8601 toDate castObjectId fm
                      rt req es s env Hv Hes) Hn).
  - intros isISO8601 toDate rt req f s H h. subst h.
    destruct (author_chains_first_name isISO8601 toDate req H) as [es Hes].
    unfold author_create_post.
    destruct (author_chains isISO8601 toDate req) as [b errors].
    cbn [snd fst] in *. subst.
    cbn. repeat split. eexists. split; [left; reflexivity|reflexivity].
  - vm_compute. repeat split.
Qed.

(** C6 (the code at the failing input): a genre field that is the JSON
    number 2 is not an array and not [undefined], so it goes through
    [new Array(2)]: the genre list the chains and the candidate get has two
    empty slots, not the single element 2.  With the number -1 the
    conversion throws, and the response is the error page with status
    500. *)
Theorem genre_number_becomes_array_length :
  genre_to_array (GNumber 2) = Ok [None; None]
  /\ (forall x, genre_to_array (GNumber 2) <> Ok [x])
  /\ option_map Book.genre
       (book_candidate hex24 hobbit_id (numeric_genre_post 2))
     = Some [None; None]
  /\ answers (trace (book_update_post hex24 rt0 (numeric_genre_post (-1)))
                no_faults library)
     = [next (mkError "RangeError: Invalid array length" None)]
  /\ response "production"
       (trace (book_update_post hex24 rt0 (numeric_genre_post (-1)))
          no_faults library)
     = Some (Page 500 "error"
               [("message", LText "RangeError: Invalid array length");
                ("error", LError None)]).
Proof.
  vm_compute. repeat split. intros x H. discriminate H.
Qed.

(** C4 fails on the home page: with the first count query failing, [index]
    renders its own view with the error as a variable; the response is not
    the error page. *)
Lemma index_read_failure_not_forwarded :
  let t := trace (index rt0 no_request) first_fails library in
  failed_reads t = [db_down]
  /\ answers t =
     [render "index"
        [("title", LText "Local Library Home");
         ("error", LError (Some db_down));
         ("data", LCounts [])]]
  /\ response "production" t <> Some (error_handler "production" db_down).
Proof. vm_compute. repeat split. discriminate. Qed.

Lemma read_failure_reaches_error_handler_witness :
  answers (trace (author_list rt0 no_request) first_fails library)
  = [next db_down]
  /\ response "production"
       (trace (author_list rt0 no_request) first_fails library)
     = Some (Page 500 "error"
               [("message", LText "MongoNetworkError");
                ("error", LError None)]).
Proof.
  assert (Hin : In ("author_list", author_list)
                  (controllers ten_characters epoch hex24))
    by (simpl; repeat (try (left; reflexivity); right)).
  destruct (@read_failure_reaches_error_handler ten_characters epoch hex24
              "author_list" author_list Hin
              ltac:(discriminate) ltac:(discriminate)
              "production" rt0 no_request first_fails library db_down []
              eq_refl)
    as (Ha & _ & _ & Hr & _).
  split; [exact Ha|exact Hr].
Defined.

Lemma book_post_invalid_checks_submitted_genres_witness :
  exists book checklist,
    Book.genre book = [Some fantasy_id]
    /\ map fst checklist = [fantasy; poetry]
    /\ In (fantasy, true) checklist.
Proof.
  destruct (@book_post_invalid_checks_submitted_genres ten_characters epoch
              hex24 BookUpdate rt0 empty_title_post library
              [Some fantasy_id]
              [mkVErr "title" "Title must not be empty." ""])
    as (book & checklist & _ & _ & Hm & _ & H).
  - right. reflexivity.
  - reflexivity.
  - reflexivity.
  - discriminate.
  - destruct (H eq_refl eq_refl fantasy_id fantasy_id eq_refl eq_refl)
      as (_ & Hg & Hc).
    exists book, checklist. split; [exact Hg|]. split; [exact Hm|].
    apply Hc; [left; reflexivity|reflexivity].
Defined.

(** The scenario of C2, run on the sample library: the update POST with an
    empty title and the genre Fantasy gets the book form back with the
    title error and Fantasy checked; with a second genre entry that is no
    ObjectId, the candidate has no genre and nothing is checked. *)
Example book_update_scenario_run :
  answers (trace (book_update_post hex24 rt0 empty_title_post) no_faults
             library)
  = [render "book_form"
       [("title", LText "Update Book");
        ("authors", LAuthors [tolkien]);
        ("genres", LChecklist [(fantasy, true); (poetry, false)]);
        ("book",
         LBook (Some (Book.make hobbit_id "" (Some tolkien_id) "S" "I"
                        [Some fantasy_id] [])));
        ("errors", LErrors [mkVErr "title" "Title must not be empty." ""])]]
  /\ answers (trace (book_update_post hex24 rt0 empty_title_post_junk)
                no_faults library)
     = [render "book_form"
          [("title", LText "Update Book");
           ("authors", LAuthors [tolkien]);
           ("genres", LChecklist [(fantasy, false); (poetry, false)]);
           ("book",
            LBook (Some (Book.make hobbit_id "" (Some tolkien_id) "S" "I" []
                           ["genre"])));
           ("errors", LErrors [mkVErr "title" "Title must not be empty." ""])]].
Proof. vm_compute. split; reflexivity. Qed.

(** The author case of C5, run: a blank first name gets the author form
    back with both errors of the field, and nothing is written, also when
    the database is down. *)
Example author_create_blank_first_name_run :
  trace (author_create_post ten_characters epoch rt0 nameless_author)
    first_fails library
  = [EAnswer (render "author_form"
       [("title", LText "Create Author");
        ("author", LAuthorBody (mkAuthorBody "" "Tolkien" DUndefined DUndefined));
        ("errors",
         LErrors
           [mkVErr "first_name" "First name must be specified." "";
            mkVErr "first_name" "First name has non-alphanumeric characters."
              ""])])]
  /\ store_after (author_create_post ten_characters epoch rt0 nameless_author)
       first_fails library = library.
Proof. vm_compute. split; reflexivity. Qed.

(** A book update POST that selects Fantasy, then the update form of the
    book: Fantasy is checked and Poetry, the genre the book had, is not. *)
Example book_update_then_form_run :
  let s' := store_after (book_update_post hex24 rt0 hobbit_update) no_faults
              library in
  lookup Book._id hobbit_id (books s')
  = Some (Book.make hobbit_id "The Hobbit" (Some tolkien_id) "S" "I"
            [Some fantasy_id] [])
  /\ answers (trace (book_update_get hex24 rt0 (detail_of hobbit_id))
                no_faults s')
     = [render "book_form"
          [("title", LText "Update Book");
           ("authors", LAuthors [tolkien]);
           ("genres", LChecklist [(fantasy, true); (poetry, false)]);
           ("book",
            LPopulatedBook
              (Some (mkPopulatedBook
                       (Book.make hobbit_id "The Hobbit" (Some tolkien_id) "S"
                          "I" [Some fantasy_id] [])
                       (Some tolkien) [Some fantasy])))]].
Proof. vm_compute. split; reflexivity. Qed.

Lemma genre_create_post_looks_up_before_insert_witness :
  trace (genre_create_post rt0 fantasy_again) no_faults library
  = [EStore MGenre OFindOne None; EAnswer (redirect (Genre.url fantasy))].
Proof.
  generalize (@genre_create_post_looks_up_before_insert rt0
                fantasy_again library).
  vm_compute. intros H.
  destruct H as (_ & _ & H & _).
  - repeat constructor.
  - reflexivity.
  - exact H.
Defined.

Lemma update_post_keeps_identifier_witness :
  let s' := store_after
              (author_update_post ten_characters epoch hex24 rt0
                 rename_tolkien) no_faults library in
  lookup Author._id tolkien_id (authors s')
  = Some (Author.make tolkien_id "JRR" "Tolkien" NoDate NoDate)
  /\ map Author._id (authors s') = [tolkien_id].
Proof.
  destruct (@update_post_keeps_identifier ten_characters epoch hex24 rt0
              rename_tolkien library tolkien_id eq_refl) as [Ha _].
  destruct (Ha tolkien eq_refl eq_refl) as (_ & Hl & _ & Hm & _).
  split; [exact Hl|exact Hm].
Defined.

(** ** Closed runs of the further properties *)

Lemma get_routes_never_write_witness :
  store_after (book_detail hex24 rt0 (detail_of hobbit_id)) first_fails library
  = library
  /\ writes (trace (book_detail hex24 rt0 (detail_of hobbit_id)) first_fails
               library) = [].
Proof.
  assert (Hin : In ("book_detail", book_detail hex24) (get_controllers hex24))
    by (simpl; repeat (try (left; reflexivity); right)).
  exact (@get_routes_never_write hex24 "book_detail" (book_detail hex24) Hin
           rt0 (detail_of hobbit_id) first_fails library).
Defined.

Lemma handlers_answer_once_witness :
  let t := trace (genre_delete_get hex24 rt0 (detail_of nobody_id)) no_faults
             library in
  (length (answers t) = 1 \/ length (answers t) = 2) /\ thrown t = [].
Proof.
  assert (Hin : In ("genre_delete_get", genre_delete_get hex24)
                  (controllers ten_characters epoch hex24))
    by (simpl; repeat (try (left; reflexivity); right)).
  exact (@handlers_answer_once ten_characters epoch hex24 "genre_delete_get"
           (genre_delete_get hex24) Hin rt0 (detail_of nobody_id) no_faults
           library).
Defined.

Lemma bookinstance_delete_post_removes_witness :
  let s' := store_after
              (bookinstance_delete_post hex24 rt0
                 (delete_post_of "id" copy1_id)) no_faults library in
  lookup BookInstance._id copy1_id (bookinstances s') = None
  /\ S (length (bookinstances s')) = length (bookinstances library).
Proof.
  pose proof (@bookinstance_delete_post_removes hex24 "production" rt0
                (delete_post_of "id" copy1_id) library copy1_id eq_refl) as H.
  change (hex24 copy1_id) with (Some copy1_id) in H.
  cbv beta iota zeta in H.
  destruct H as (_ & _ & _ & Hlen & Hgone & _).
  split; [exact (Hgone eq_refl)|exact (Hlen copy1 eq_refl)].
Defined.

Lemma genre_delete_post_same_id_witness :
  store_after
    (genre_delete_post hex24 rt0
       (request poetry_id [("id", poetry_id)] GUndefined))
    no_faults library = library.
Proof.
  pose proof (@genre_delete_post_same_id hex24 "production" rt0
                (request poetry_id [("id", poetry_id)] GUndefined) library
                eq_refl) as H.
  change (hex24 (params_id (request poetry_id [("id", poetry_id)] GUndefined)))
    with (Some poetry_id) in H.
  cbv beta iota zeta in H.
  destruct H as [H _].
  refine (proj1 (H _)).
  exists the_hobbit. split; left; reflexivity.
Defined.

Lemma delete_posts_keep_references_witness :
  references_resolve
    (store_after (book_delete_post hex24 rt0 (delete_post_of "id" hobbit_id))
       first_fails library) = true.
Proof.
  exact (proj1 (proj2 (@delete_posts_keep_references hex24 rt0
                         (delete_post_of "id" hobbit_id) first_fails library
                         eq_refl))).
Defined.

Lemma genre_create_post_keeps_names_distinct_witness :
  distinct_genre_names
    (store_after (genre_create_post rt0 (genre_post "" "Fantasy")) no_faults
       library) = true.
Proof.
  exact (@genre_create_post_keeps_names_distinct rt0 (genre_post "" "Fantasy")
           no_faults library eq_refl).
Defined.

Lemma genre_update_post_can_duplicate_names_witness :
  distinct_genre_names
    (store_after (genre_update_post hex24 rt0 (genre_post poetry_id "Fantasy"))
       no_faults library) = false.
Proof.
  refine (proj2 (proj2 (proj2
    (@genre_update_post_can_duplicate_names hex24 rt0
       (genre_post poetry_id "Fantasy") library poetry_id poetry fantasy _
       eq_refl eq_refl _ _ eq_refl)))).
  - vm_compute. repeat constructor.
  - left. reflexivity.
  - discriminate.
Defined.

Lemma author_create_post_stores_trimmed_names_witness :
  lookup Author._id (new_id rt0)
    (authors
       (store_after (author_create_post ten_characters epoch rt0
                       new_author_post) no_faults library))
  = Some (Author.make (new_id rt0) "Ursula" "LeGuin" NoDate NoDate).
Proof.
  refine (proj1 (proj2 (proj2 (proj2 (proj2 (proj2 (proj2
    (@author_create_post_stores_trimmed_names ten_characters epoch hex24 rt0
       new_author_post (detail_of (new_id rt0)) library eq_refl _ _ eq_refl
       eq_refl)))))))).
  - vm_compute. repeat constructor.
  - vm_compute. repeat constructor.
Defined.

Lemma book_create_post_checks_no_reference_witness :
  let h := book_create_post hex24 rt0
             (book_post nobody_id (GArray [fantasy_id])) in
  references_resolve (store_after h no_faults library) = false
  /\ store_after
       (book_create_post hex24 rt0 (book_post "junk" (GArray [fantasy_id])))
       no_faults library = library.
Proof.
  split.
  - destruct (@book_create_post_checks_no_reference hex24 "production" rt0
                (book_post nobody_id (GArray [fantasy_id])) library
                [Some fantasy_id] eq_refl eq_refl eq_refl) as [H _].
    refine (proj2 (proj2 (proj2 (proj2 (H nobody_id eq_refl _)))) eq_refl).
    intros value [E | []]. injection E as <-. discriminate.
  - destruct (@book_create_post_checks_no_reference hex24 "production" rt0
                (book_post "junk" (GArray [fantasy_id])) library
                [Some fantasy_id] eq_refl eq_refl eq_refl) as [_ H].
    destruct (H (or_introl eq_refl)) as [e [_ He]].
    exact (proj1 (proj2 (proj2 (He no_faults)))).
Defined.

Lemma bookinstance_create_post_status_witness :
  store_after
    (bookinstance_create_post ten_characters epoch hex24 rt0
       (copy_post "" hobbit_id "Lost"))
    no_faults library = library
  /\ option_map BookInstance.due_back
       (lookup BookInstance._id (new_id rt0)
          (bookinstances
             (store_after
                (bookinstance_create_post ten_characters epoch hex24 rt0
                   (copy_post "" hobbit_id "Loaned"))
                no_faults library)))
     = Some (ADate 1000%Z).
Proof.
  split.
  - destruct (@bookinstance_create_post_status ten_characters epoch hex24
                "production" rt0 (copy_post "" hobbit_id "Lost") library
                eq_refl eq_refl) as (_ & _ & H).
    destruct H as [e [_ He]].
    + right. intros [E | [E | [E | [E | []]]]]; discriminate E.
    + exact (proj1 (proj2 (proj2 (He no_faults)))).
  - destruct (@bookinstance_create_post_status ten_characters epoch hex24
                "production" rt0 (copy_post "" hobbit_id "Loaned") library
                eq_refl eq_refl) as (_ & H & _).
    destruct (H hobbit_id eq_refl) as (_ & _ & Hl & _).
    + right. right. left. reflexivity.
    + exact (f_equal (option_map BookInstance.due_back) Hl).
Defined.

Lemma bookinstance_update_post_stores_any_status_witness :
  exists copy,
    lookup BookInstance._id copy1_id
      (bookinstances
         (store_after
            (bookinstance_update_post ten_characters epoch hex24 rt0
               (copy_post copy1_id "junk" "Lost")) no_faults library))
    = Some copy
    /\ BookInstance.status copy = "Lost"
    /\ BookInstance.book copy = Some hobbit_id
    /\ BookInstance.valid copy = false.
Proof.
  destruct (@bookinstance_update_post_stores_any_status ten_characters epoch
              hex24 rt0 (copy_post copy1_id "junk" "Lost") library copy1_id
              copy1 eq_refl eq_refl eq_refl)
    as (copy & Hl & Hs & Hv & Hb & _).
  exists copy. split; [exact Hl|]. split; [exact Hs|]. split; [exact Hb|].
  apply Hv. rewrite Hs.
  intros [E | [E | [E | [E | []]]]]; discriminate E.
Defined.

Lemma update_post_unknown_id_throws_witness :
  let h := genre_update_post hex24 rt0 (genre_post nobody_id "Horror") in
  store_after h no_faults library = library
  /\ response "production" (trace h no_faults library) = None.
Proof.
  pose proof (@update_post_unknown_id_throws ten_characters epoch hex24
                "production" GenreUpdate rt0 (genre_post nobody_id "Horror")
                library) as H.
  change (hex24 (params_id (genre_post nobody_id "Horror")))
    with (Some nobody_id) in H.
  cbv beta iota zeta in H.
  destruct H as (_ & _ & _ & Hs & Hr).
  - right. left. reflexivity.
  - reflexivity.
  - reflexivity.
  - split; [exact Hs|exact Hr].
Defined.

Lemma book_update_get_checks_book_genres_witness :
  exists checklist,
    map fst checklist = [fantasy; poetry]
    /\ forall g checked,
        In (g, checked) checklist ->
        (checked = true <-> In (Some (Genre._id g)) [Some poetry_id]).
Proof.
  destruct (@book_update_get_checks_book_genres hex24 rt0
              (detail_of hobbit_id) library hobbit_id the_hobbit eq_refl
              eq_refl) as [H _].
  destruct (H (or_intror eq_refl)) as (checklist & _ & _ & _ & Hm & Hc).
  exists checklist. split; [exact Hm|exact Hc].
Defined.

Lemma book_update_then_form_witness :
  let s' := store_after (book_update_post hex24 rt0 (numeric_genre_post 2))
              no_faults library in
  let t := trace (book_update_get hex24 rt0 (detail_of hobbit_id)) no_faults
             s' in
  option_map Book.genre (lookup Book._id hobbit_id (books s'))
  = Some [None; None]
  /\ answers t = []
  /\ thrown t = ["TypeError: Cannot read property '_id' of null"].
Proof.
  assert (Hall : all_cast hex24 (map (option_map Str.escape) [None; None])).
  { intros value [E | [E | []]]; discriminate E. }
  destruct (@book_update_then_form hex24 rt0 (numeric_genre_post 2)
              (detail_of hobbit_id) library [None; None] hobbit_id the_hobbit
              eq_refl eq_refl eq_refl eq_refl eq_refl)
    as (book & Hl & _ & _ & _ & _ & Hg & _ & _ & _ & Ht).
  specialize (Hg Hall).
  split; [rewrite Hl; cbn [option_map]; rewrite Hg; reflexivity|].
  destruct Ht as (Ha & Hth & _).
  - discriminate.
  - rewrite Hg. reflexivity.
  - split; [exact Ha|exact Hth].
Defined.

Lemma genre_create_twice_witness :
  answers
    (trace (genre_create_post rt1 (genre_post "" " Horror "))
       no_faults
       (store_after (genre_create_post rt0 (genre_post "" "Horror")) no_faults
          library))
  = [redirect ("/catalog/genre/" ++ new_id rt0)].
Proof.
  refine (proj1 (proj2 (proj2 (proj2
    (@genre_create_twice hex24 rt0 rt1 (genre_post "" "Horror")
       (genre_post "" " Horror ") (detail_of (new_id rt0)) library _ eq_refl
       eq_refl eq_refl eq_refl))))).
  vm_compute. repeat constructor.
Defined.

Lemma deleted_documents_are_404_witness :
  answers
    (trace (bookinstance_detail hex24 rt0 (detail_of copy1_id)) no_faults
       (store_after
          (bookinstance_delete_post hex24 rt0 (delete_post_of "id" copy1_id))
          no_faults library))
  = [next (not_found "Book copy")].
Proof.
  exact (proj1 (@deleted_documents_are_404 hex24 rt0
                  (delete_post_of "id" copy1_id) (detail_of copy1_id) library
                  copy1_id copy1_id eq_refl eq_refl) eq_refl eq_refl).
Defined.

Lemma write_failure_reaches_error_handler_witness :
  let h := bookinstance_delete_post hex24 rt0 (delete_post_of "id" copy1_id) in
  answers (trace h first_fails library) = [next db_down]
  /\ store_after h first_fails library = library.
Proof.
  assert (Hin : In ("bookinstance_delete_post", bookinstance_delete_post hex24)
                  (controllers ten_characters epoch hex24))
    by (simpl; repeat (try (left; reflexivity); right)).
  destruct (@write_failure_reaches_error_handler ten_characters epoch hex24
              "bookinstance_delete_post" (bookinstance_delete_post hex24) Hin
              "production" rt0 (delete_post_of "id" copy1_id)
              first_fails library db_down [] eq_refl)
    as (_ & Ha & _ & Hs & _).
  split; [exact Ha|exact Hs].
Defined.

Lemma genre_update_post_replaces_in_place_witness :
  lookup Genre._id fantasy_id
    (genres
       (store_after
          (genre_update_post hex24 rt0 (genre_post fantasy_id " Epic "))
          no_faults library))
  = Some (Genre.make fantasy_id "Epic").
Proof.
  refine (proj1 (proj2
    (@genre_update_post_replaces_in_place hex24 rt0
       (genre_post fantasy_id " Epic ") (detail_of fantasy_id) library
       fantasy_id fantasy _ eq_refl eq_refl eq_refl))).
  vm_compute. repeat constructor.
Defined.
